(** * pyhulu client: handshake, envelope decoding and playlist requests

    A shallow embedding of [pyhulu/client.py] (class [HuluClient]) and of the
    part of [hulu.py] that configures it, with the properties the
    specification states about them.

    Conventions.
    - A Python [bytes] value is a [list Z]; every element of a real [bytes]
      object lies in [0, 256), which [is_bytes] states.
    - A Python [str] is a [string]; a character stands for the code point
      of the same number, so the model covers text made of code points
      below 256.
    - An exception is a value of [exn]; a computation that may raise
      returns a [result].
    - The logger, the HTTP session and the cipher are observed through a
      trace of [event]s threaded by the monad [M].
    - Library code that the client only calls (the AES block transform, the
      JSON reader and printer, UTF-8 decoding, [int()] on text, the HTTP
      transport) is a [Variable] of section [Client]. *)

From Stdlib Require Import ZArith List String Ascii Bool Lia DecimalString.
From Stdlib Require Import Sorted Permutation.
Import ListNotations.
Open Scope string_scope.
Open Scope list_scope.
Open Scope Z_scope.

(** ** Bytes *)

Definition bytes := list Z.

Definition byteb (b : Z) : bool := (0 <=? b) && (b <? 256).

Definition is_bytes (l : bytes) : bool := forallb byteb l.

Definition code (c : ascii) : Z := Z.of_N (N_of_ascii c).

Definition chr (n : Z) : ascii := ascii_of_N (Z.to_N n).

(** ** Exceptions and results *)

Inductive exn : Type :=
| ValueError (msg : string)
| TypeError (msg : string)
| KeyError (key : string)
| HTTPError (status_code : Z) (text : string)
| ConnectionError (msg : string).

Inductive result (A : Type) : Type :=
| Ok (a : A)
| Err (e : exn).

Arguments Ok {A} a.
Arguments Err {A} e.

(** The error names of the specification, as the exceptions the client
    raises for them. *)
Definition MalformedEnvelope : exn := ValueError "Error decoding response hex".
Definition DecryptionError : exn := ValueError "Error decrypting response".
Definition RequestFailed (status : Z) (body : string) : exn := HTTPError status body.

(** ** Hexadecimal text *)

(** [_PyLong_DigitValue] restricted to base 16. *)
Definition hex_value (c : ascii) : option Z :=
  let n := code c in
  if (48 <=? n) && (n <=? 57) then Some (n - 48)
  else if (97 <=? n) && (n <=? 102) then Some (n - 87)
  else if (65 <=? n) && (n <=? 70) then Some (n - 55)
  else None.

(** [Py_ISSPACE]: the six ASCII whitespace characters. *)
Definition Py_ISSPACE (c : ascii) : bool :=
  let n := code c in (n =? 32) || ((9 <=? n) && (n <=? 13)).

(** [bytes.fromhex]: whitespace is skipped before each pair of digits; a
    character that is not a digit, or a digit without its partner, is
    rejected ([None] stands for the [ValueError]). *)
Fixpoint fromhex (s : string) : option bytes :=
  match s with
  | EmptyString => Some []
  | String c rest =>
      if Py_ISSPACE c then fromhex rest
      else
        match hex_value c, rest with
        | Some top, String c2 rest2 =>
            match hex_value c2 with
            | Some bot =>
                match fromhex rest2 with
                | Some tl => Some (top * 16 + bot :: tl)
                | None => None
                end
            | None => None
            end
        | _, _ => None
        end
  end.

(** The position [bytes.fromhex] names in its [ValueError].  A text with a
    character outside ASCII is refused before the scan, at the first such
    character. *)
Fixpoint first_non_ascii (s : string) (pos : Z) : option Z :=
  match s with
  | EmptyString => None
  | String c rest =>
      if 128 <=? code c then Some pos else first_non_ascii rest (pos + 1)
  end.

(** Where the scan of an ASCII text stops: at a character that is neither
    whitespace nor a digit, or just after a digit without its partner (the
    length of the text when the text ends there). *)
Fixpoint scan_stop (s : string) (pos : Z) : Z :=
  match s with
  | EmptyString => pos
  | String c rest =>
      if Py_ISSPACE c then scan_stop rest (pos + 1)
      else
        match hex_value c, rest with
        | None, _ => pos
        | Some _, EmptyString => pos + 1
        | Some _, String c2 rest2 =>
            match hex_value c2 with
            | None => pos + 1
            | Some _ => scan_stop rest2 (pos + 2)
            end
        end
  end.

Definition invalid_char (s : string) : Z :=
  match first_non_ascii s 0 with
  | Some pos => pos
  | None => scan_stop s 0
  end.

Definition hex_digit (n : Z) : ascii :=
  if n <? 10 then chr (48 + n) else chr (87 + n).

(** [binascii.hexlify(...).decode('utf8')] and [hexdigest()]: two lower-case
    digits per byte. *)
Fixpoint hexlify (b : bytes) : string :=
  match b with
  | [] => EmptyString
  | x :: tl => String (hex_digit (x / 16)) (String (hex_digit (x mod 16)) (hexlify tl))
  end.

(** What the specification calls valid even-length hex: only hexadecimal
    digits, an even number of them. *)
Fixpoint all_hex (s : string) : bool :=
  match s with
  | EmptyString => true
  | String c rest =>
      match hex_value c with Some _ => all_hex rest | None => false end
  end.

Definition valid_even_hex (s : string) : bool :=
  all_hex s && Nat.even (String.length s).

Fixpoint has_space (s : string) : bool :=
  match s with
  | EmptyString => false
  | String c rest => Py_ISSPACE c || has_space rest
  end.

(** The pieces of a text between its ASCII whitespace characters, the
    empty ones included: one piece more than there are such characters. *)
Fixpoint pieces (s : string) : list string :=
  match s with
  | EmptyString => [EmptyString]
  | String c rest =>
      if Py_ISSPACE c then EmptyString :: pieces rest
      else
        match pieces rest with
        | p :: ps => String c p :: ps
        | [] => [String c EmptyString]
        end
  end.

(** The bytes that the two-digit pairs of a piece stand for. *)
Fixpoint pair_values (s : string) : bytes :=
  match s with
  | String a (String b rest) =>
      match hex_value a, hex_value b with
      | Some top, Some bot => top * 16 + bot :: pair_values rest
      | _, _ => []
      end
  | _ => []
  end.

(** ** Session key derivation *)

(** [bytearray.append]: the item must be in [range(0, 256)]. *)
Definition bytearray_append (a : bytes) (x : Z) : result bytes :=
  if byteb x then Ok (a ++ [x]) else Err (ValueError "byte must be in range(0, 256)").

(** The loop of [get_session_key] over [zip(device_key, server_key)]:
    the zip stops at the end of the shorter sequence. *)
Fixpoint derive_loop (acc : bytes) (device_key server_key : bytes) : result bytes :=
  match device_key, server_key with
  | device_byte :: dk, server_byte :: sk =>
      match bytearray_append acc (Z.lxor device_byte server_byte) with
      | Ok acc' => derive_loop acc' dk sk
      | Err e => Err e
      end
  | _, _ => Ok acc
  end.

Definition derive_session_key (device_key server_key : bytes) : result bytes :=
  derive_loop [] device_key server_key.

(** The byte-wise XOR of two sequences, pairwise per index. *)
Definition xor_bytes (a b : bytes) : bytes :=
  map (fun p => Z.lxor (fst p) (snd p)) (combine a b).

(** ** Text helpers *)

(** [str.encode('utf8')] on code points below 256: one byte below 128, two
    bytes from 128 on. *)
Fixpoint encode_utf8 (s : string) : bytes :=
  match s with
  | EmptyString => []
  | String c rest =>
      let n := code c in
      if n <? 128 then n :: encode_utf8 rest
      else Z.lor 192 (Z.shiftr n 6) :: Z.lor 128 (Z.land n 63) :: encode_utf8 rest
  end.

(** [str(n)] and the [{}] format of an [int]: decimal digits, a minus sign
    for a negative number. *)
Definition str_of_int (n : Z) : string := NilZero.string_of_int (Z.to_int n).

(** [bytes.fromhex] with its error. *)
Definition bytes_fromhex (s : string) : result bytes :=
  match fromhex s with
  | Some b => Ok b
  | None =>
      Err (ValueError
             (String.append
                "non-hexadecimal number found in fromhex() arg at position "
                (str_of_int (invalid_char s))))
  end.

(** [str.upper] on the ASCII letters (it is applied to hexadecimal digests
    only). *)
Definition upper_char (c : ascii) : ascii :=
  let n := code c in
  if (97 <=? n) && (n <=? 122) then chr (n - 32) else c.

Fixpoint upper (s : string) : string :=
  match s with
  | EmptyString => EmptyString
  | String c rest => String (upper_char c) (upper rest)
  end.

(** [str.splitlines] on code points below 256. *)
Definition is_linebreak (c : ascii) : bool :=
  let n := code c in
  ((10 <=? n) && (n <=? 13)) || ((28 <=? n) && (n <=? 30)) || (n =? 133).

Fixpoint splitlines_from (cur : string) (s : string) : list string :=
  match s with
  | EmptyString =>
      match cur with EmptyString => [] | _ => [cur] end
  | String c rest =>
      if code c =? 13 then
        match rest with
        | String c2 rest2 =>
            if code c2 =? 10 then cur :: splitlines_from EmptyString rest2
            else cur :: splitlines_from EmptyString rest
        | EmptyString => [cur]
        end
      else if is_linebreak c then cur :: splitlines_from EmptyString rest
      else splitlines_from (String.append cur (String c EmptyString)) rest
  end.

Definition splitlines (s : string) : list string := splitlines_from EmptyString s.

(** ** base64 *)

Definition b64_alphabet : string :=
  "ABCDEFGHIJKLMNOPQRSTUVWXYZabcdefghijklmnopqrstuvwxyz0123456789+/".

Definition b64_char (n : Z) : ascii :=
  match String.get (Z.to_nat n) b64_alphabet with
  | Some c => c
  | None => "="%char
  end.

(** [base64.b64encode(...).decode('utf8')]. *)
Fixpoint b64encode (b : bytes) : string :=
  match b with
  | [] => EmptyString
  | [x] =>
      String (b64_char (x / 4))
        (String (b64_char (x mod 4 * 16)) "==")
  | [x; y] =>
      String (b64_char (x / 4))
        (String (b64_char (x mod 4 * 16 + y / 16))
           (String (b64_char (y mod 16 * 4)) "="))
  | x :: y :: z :: tl =>
      String (b64_char (x / 4))
        (String (b64_char (x mod 4 * 16 + y / 16))
           (String (b64_char (y mod 16 * 4 + z / 64))
              (String (b64_char (z mod 64)) (b64encode tl))))
  end.

(** ** MD5 (RFC 1321), the digest behind [hashlib.md5] *)

Module MD5.

Definition mask32 : Z := 4294967295.

Definition add32 (a b : Z) : Z := Z.land (a + b) mask32.

Definition not32 (a : Z) : Z := Z.lxor a mask32.

Definition rotl32 (x c : Z) : Z :=
  Z.lor (Z.land (Z.shiftl x c) mask32) (Z.shiftr x (32 - c)).

Definition shifts : list Z :=
  [7; 12; 17; 22; 7; 12; 17; 22; 7; 12; 17; 22; 7; 12; 17; 22;
   5; 9; 14; 20; 5; 9; 14; 20; 5; 9; 14; 20; 5; 9; 14; 20;
   4; 11; 16; 23; 4; 11; 16; 23; 4; 11; 16; 23; 4; 11; 16; 23;
   6; 10; 15; 21; 6; 10; 15; 21; 6; 10; 15; 21; 6; 10; 15; 21].

(** [floor(2^32 * abs(sin(i + 1)))] for [i] from 0 to 63. *)
Definition sines : list Z :=
  [0xd76aa478; 0xe8c7b756; 0x242070db; 0xc1bdceee; 0xf57c0faf; 0x4787c62a;
   0xa8304613; 0xfd469501; 0x698098d8; 0x8b44f7af; 0xffff5bb1; 0x895cd7be;
   0x6b901122; 0xfd987193; 0xa679438e; 0x49b40821; 0xf61e2562; 0xc040b340;
   0x265e5a51; 0xe9b6c7aa; 0xd62f105d; 0x02441453; 0xd8a1e681; 0xe7d3fbc8;
   0x21e1cde6; 0xc33707d6; 0xf4d50d87; 0x455a14ed; 0xa9e3e905; 0xfcefa3f8;
   0x676f02d9; 0x8d2a4c8a; 0xfffa3942; 0x8771f681; 0x6d9d6122; 0xfde5380c;
   0xa4beea44; 0x4bdecfa9; 0xf6bb4b60; 0xbebfbc70; 0x289b7ec6; 0xeaa127fa;
   0xd4ef3085; 0x04881d05; 0xd9d4d039; 0xe6db99e5; 0x1fa27cf8; 0xc4ac5665;
   0xf4292244; 0x432aff97; 0xab9423a7; 0xfc93a039; 0x655b59c3; 0x8f0ccc92;
   0xffeff47d; 0x85845dd1; 0x6fa87e4f; 0xfe2ce6e0; 0xa3014314; 0x4e0811a1;
   0xf7537e82; 0xbd3af235; 0x2ad7d2bb; 0xeb86d391].

Definition at_index (l : list Z) (i : Z) : Z := nth (Z.to_nat i) l 0.

(** Little-endian bytes of a word, [n] of them. *)
Fixpoint le_bytes (n : nat) (w : Z) : bytes :=
  match n with
  | O => []
  | S k => w mod 256 :: le_bytes k (w / 256)
  end.

Fixpoint le_words (n : nat) (b : bytes) : list Z :=
  match n with
  | O => []
  | S k =>
      match b with
      | b0 :: b1 :: b2 :: b3 :: tl =>
          b0 + 256 * b1 + 65536 * b2 + 16777216 * b3 :: le_words k tl
      | _ => []
      end
  end.

Definition padding (msg : bytes) : bytes :=
  let len := Z.of_nat (List.length msg) in
  msg ++ [128] ++ repeat 0 (Z.to_nat ((55 - len) mod 64)) ++ le_bytes 8 (8 * len).

Definition state : Type := Z * Z * Z * Z.

Definition round (m : list Z) (st : state) (i : Z) : state :=
  let '(a, b, c, d) := st in
  let '(f, g) :=
    if i <? 16 then (Z.lor (Z.land b c) (Z.land (not32 b) d), i)
    else if i <? 32 then (Z.lor (Z.land d b) (Z.land (not32 d) c), (5 * i + 1) mod 16)
    else if i <? 48 then (Z.lxor (Z.lxor b c) d, (3 * i + 5) mod 16)
    else (Z.lxor c (Z.lor b (not32 d)), (7 * i) mod 16) in
  let f' := add32 (add32 (add32 f a) (at_index sines i)) (at_index m g) in
  (d, add32 b (rotl32 f' (at_index shifts i)), b, c).

Definition indices : list Z := map Z.of_nat (seq 0 64).

Definition chunk (st : state) (block : bytes) : state :=
  let '(a0, b0, c0, d0) := st in
  let '(a, b, c, d) := fold_left (round (le_words 16 block)) indices st in
  (add32 a0 a, add32 b0 b, add32 c0 c, add32 d0 d).

Fixpoint chunks (n : nat) (st : state) (data : bytes) : state :=
  match n with
  | O => st
  | S k => chunks k (chunk st (firstn 64 data)) (skipn 64 data)
  end.

Definition initial : state := (0x67452301, 0xefcdab89, 0x98badcfe, 0x10325476).

Definition digest (msg : bytes) : bytes :=
  let data := padding msg in
  let '(a, b, c, d) := chunks (List.length data / 64) initial data in
  le_bytes 4 a ++ le_bytes 4 b ++ le_bytes 4 c ++ le_bytes 4 d.

(** [hashlib.md5(msg).hexdigest()]. *)
Definition hexdigest (msg : bytes) : string := hexlify (digest msg).

End MD5.

(** ** JSON values and dicts

    A dict keeps its keys in insertion order, as a Python dict does; the
    request bodies are serialised in that order. *)

#[warnings="-register-all"]
Inductive json : Type :=
| JNull
| JBool (b : bool)
| JInt (n : Z)
| JStr (s : string)
| JArr (items : list json)
| JObj (fields : list (string * json)).

Definition dict : Type := list (string * json).

Fixpoint dict_get (k : string) (d : dict) : option json :=
  match d with
  | [] => None
  | (k', v) :: tl => if String.eqb k k' then Some v else dict_get k tl
  end.

(** [d[k] = v]: an existing key keeps its place, a new one goes last. *)
Fixpoint dict_set (k : string) (v : json) (d : dict) : dict :=
  match d with
  | [] => [(k, v)]
  | (k', v') :: tl =>
      if String.eqb k k' then (k, v) :: tl else (k', v') :: dict_set k v tl
  end.

(** [d.update(other)]: one assignment per item of [other], top level only. *)
Definition dict_update (d other : dict) : dict :=
  fold_left (fun acc kv => dict_set (fst kv) (snd kv) acc) other d.

(** [j[k]] for reading. *)
Definition getitem (j : json) (k : string) : result json :=
  match j with
  | JObj d =>
      match dict_get k d with
      | Some v => Ok v
      | None => Err (KeyError k)
      end
  | _ => Err (TypeError "indices must be integers or slices, not str")
  end.

(** [j[p1]...[pn][k] = v]: the dict reached through [path] is changed in
    place, so the change is seen from [j]. *)
Fixpoint setitem_at (path : list string) (k : string) (v : json) (j : json)
  : result json :=
  match j with
  | JObj d =>
      match path with
      | [] => Ok (JObj (dict_set k v d))
      | p :: ps =>
          match dict_get p d with
          | Some sub =>
              match setitem_at ps k v sub with
              | Ok sub' => Ok (JObj (dict_set p sub' d))
              | Err e => Err e
              end
          | None => Err (KeyError p)
          end
      end
  | _ => Err (TypeError "object does not support item assignment")
  end.

Fixpoint get_path (path : list string) (j : json) : option json :=
  match path with
  | [] => Some j
  | p :: ps =>
      match j with
      | JObj d =>
          match dict_get p d with
          | Some sub => get_path ps sub
          | None => None
          end
      | _ => None
      end
  end.

Definition is_obj (j : json) : bool :=
  match j with JObj _ => true | _ => false end.

(** The deep merge the specification speaks of: where both sides hold a
    mapping under a key the two are merged, otherwise the overlay wins. *)
Fixpoint deep_merge (over base : json) {struct over} : json :=
  match over, base with
  | JObj lo, JObj lb =>
      JObj ((fix go (lo : dict) (acc : dict) {struct lo} : dict :=
               match lo with
               | [] => acc
               | (k, v) :: tl =>
                   go tl (dict_set k
                            (match dict_get k lb with
                             | Some bv => deep_merge v bv
                             | None => v
                             end) acc)
               end) lo lb)
  | _, _ => over
  end.

(** The [type] fields of a codec candidate list. *)
Definition codec_type (j : json) : option string :=
  match j with
  | JObj d => match dict_get "type" d with Some (JStr s) => Some s | _ => None end
  | _ => None
  end.

Definition codec_types (j : json) : list (option string) :=
  match j with
  | JArr items => map codec_type items
  | _ => []
  end.

(** ** [str.format]

    The fragment the handshake template uses: literal text and named
    fields, each replaced by the text of its keyword argument. *)
Fixpoint format_from (field : option string) (template : string)
    (kwargs : list (string * string)) : result string :=
  match template with
  | EmptyString =>
      match field with
      | None => Ok EmptyString
      | Some _ => Err (ValueError "expected '}' before end of string")
      end
  | String c rest =>
      match field with
      | None =>
          if Ascii.eqb c "{" then format_from (Some EmptyString) rest kwargs
          else if Ascii.eqb c "}" then
            Err (ValueError "Single '}' encountered in format string")
          else
            match format_from None rest kwargs with
            | Ok r => Ok (String c r)
            | Err e => Err e
            end
      | Some name =>
          if Ascii.eqb c "}" then
            match find (fun kv => String.eqb name (fst kv)) kwargs with
            | Some kv =>
                match format_from None rest kwargs with
                | Ok r => Ok (String.append (snd kv) r)
                | Err e => Err e
                end
            | None => Err (KeyError name)
            end
          else format_from (Some (String.append name (String c EmptyString))) rest kwargs
      end
  end.

Definition format (template : string) (kwargs : list (string * string))
  : result string :=
  format_from None template kwargs.

(** ** Trace and monad *)

Inductive body : Type :=
| FormData (fields : dict)
| JsonBody (j : json).

Record response : Type := { status_code : Z; text : string }.

Inductive event : Type :=
| LogError (msg : string)
| Post (url : string) (b : body)
| AESDecrypt (key : bytes) (ciphertext : bytes).

Definition M (A : Type) : Type := list event -> result A * list event.

Definition ret {A} (a : A) : M A := fun t => (Ok a, t).

Definition raise {A} (e : exn) : M A := fun t => (Err e, t).

Definition bind {A B} (m : M A) (k : A -> M B) : M B :=
  fun t =>
    match m t with
    | (Ok a, t') => k a t'
    | (Err e, t') => (Err e, t')
    end.

Definition lift {A} (r : result A) : M A := fun t => (r, t).

Definition emit (e : event) : M unit := fun t => (Ok tt, t ++ [e]).

Definition logger_error (msg : string) : M unit := emit (LogError msg).

Definition logger_error_lines (lines : list string) : M unit :=
  fun t => (Ok tt, t ++ map LogError lines).

(** [try: m except ValueError: handler]. *)
Definition try_except_ValueError {A} (m : M A) (handler : M A) : M A :=
  fun t =>
    match m t with
    | (Err (ValueError _), t') => handler t'
    | r => r
    end.

Notation "x <- m ;; k" := (bind m (fun x => k))
  (at level 61, m at next level, right associativity).
Notation "m ;;; k" := (bind m (fun _ => k))
  (at level 61, right associativity).

Definition is_decrypt (e : event) : bool :=
  match e with AESDecrypt _ _ => true | _ => false end.

(** ** Block padding and CBC, as [Cryptodome] does them *)

Fixpoint list_eqb (a b : bytes) : bool :=
  match a, b with
  | [], [] => true
  | x :: a', y :: b' => (x =? y) && list_eqb a' b'
  | _, _ => false
  end.

(** [Padding.unpad(padded_data, block_size)] with the default style
    [pkcs7]. *)
Definition unpad (padded_data : bytes) (block_size : Z) : result bytes :=
  let pdata_len := Z.of_nat (List.length padded_data) in
  if pdata_len =? 0 then Err (ValueError "Zero-length input cannot be unpadded")
  else if negb (pdata_len mod block_size =? 0) then
    Err (ValueError "Input data is not padded")
  else
    let padding_len := last padded_data 0 in
    if (padding_len <? 1) || (Z.min block_size pdata_len <? padding_len) then
      Err (ValueError "Padding is incorrect.")
    else if negb (list_eqb (skipn (Z.to_nat (pdata_len - padding_len)) padded_data)
                    (repeat padding_len (Z.to_nat padding_len))) then
      Err (ValueError "PKCS#7 padding is incorrect.")
    else Ok (firstn (Z.to_nat (pdata_len - padding_len)) padded_data).

(** [Padding.pad(data, block_size)]. *)
Definition pad (data : bytes) (block_size : Z) : bytes :=
  let padding_len := block_size - Z.of_nat (List.length data) mod block_size in
  data ++ repeat padding_len (Z.to_nat padding_len).

Definition zero_iv : bytes := repeat 0 16.

(** [AES.new(key, AES.MODE_CBC, iv=iv)]: the key is 16, 24 or 32 bytes
    long and the IV one block. The context is the pair of both. *)
Definition AES_new (key iv : bytes) : result (bytes * bytes) :=
  let n := Z.of_nat (List.length key) in
  if negb ((n =? 16) || (n =? 24) || (n =? 32)) then
    Err (ValueError (String.append "Incorrect AES key length ("
                       (String.append (str_of_int n) " bytes)")))
  else if negb (Z.of_nat (List.length iv) =? 16) then
    Err (ValueError "Incorrect IV length (it must be 16 bytes long)")
  else Ok (key, iv).

(** ** The device and the client object *)

(** Modelled from the spec: [pyhulu.device.Device], whose source file is
    not among the sources; a device is a device code and a device key
    (section 3, Device). The code is text, as [hulu.py] passes it. *)
Record Device : Type := { device_code : string; device_key : bytes }.

Record HuluClient : Type := {
  device : Device;
  extra_playlist_params : dict;
  session_key : bytes;
  server_key : json
}.

(** [hashlib.md5().hexdigest().upper()]: the digest of no data. *)
Definition device_identifier : string := upper (MD5.hexdigest []).

Definition config_url : string := "https://play.hulu.com/config".
Definition playlist_url : string := "https://play.hulu.com/v4/playlist".
Definition playlist_six_url : string := "https://play.hulu.com/v6/playlist".

(** The text the handshake nonce is the digest of. *)
Definition nonce_base (d : Device) (version : string) (random_value : Z)
  : result string :=
  format "{device_key},{device},{version},{random_value}"
    [("device_key", hexlify (device_key d));
     ("device", device_code d);
     ("version", version);
     ("random_value", str_of_int random_value)].

(** [hulu.py]: the audio codec candidates and the extra playlist
    parameters given to the client. *)
Definition audio_codecs (force_2ch : bool) : list json :=
  [JObj [("type", JStr "AAC")]]
    ++ (if negb force_2ch then [JObj [("type", JStr "EC3")]] else []).

Definition chrome_extra_playlist_params (force_2ch : bool) : dict :=
  [("playback",
     JObj [("audio",
             JObj [("codecs",
                     JObj [("values", JArr (audio_codecs force_2ch))])])])].

(** The two parameter sets of [load_playlist_six]; they differ in the
    video codec entry and in their random value. *)
Definition hevc_codec : json :=
  JObj [("type", JStr "H265"); ("profile", JStr "MAIN_10");
        ("width", JInt 3840); ("height", JInt 2160);
        ("framerate", JInt 60); ("level", JStr "5.1");
        ("tier", JStr "MAIN")].

Definition avc_codec : json :=
  JObj [("width", JInt 1920); ("level", JStr "4.1");
        ("height", JInt 1080); ("profile", JStr "HIGH");
        ("type", JStr "H264")].

Definition playback_block (video_codec : json) : json :=
  JObj [("version", JInt 2);
        ("video",
          JObj [("codecs",
                  JObj [("selection_mode", JStr "ALL");
                        ("values", JArr [video_codec])])]);
        ("audio",
          JObj [("codecs",
                  JObj [("values",
                          JArr [JObj [("type", JStr "EC3")];
                                JObj [("type", JStr "AAC")]]);
                        ("selection_mode", JStr "ALL")])]);
        ("drm",
          JObj [("values",
                  JArr [JObj [("type", JStr "WIDEVINE");
                              ("version", JStr "MODULAR");
                              ("security_level", JStr "L3")];
                        JObj [("type", JStr "PLAYREADY");
                              ("version", JStr "V2");
                              ("security_level", JStr "SL2000")]]);
                ("selection_mode", JStr "ALL")]);
        ("manifest",
          JObj [("type", JStr "DASH"); ("https", JBool true);
                ("multiple_cdns", JBool true); ("patch_updates", JBool true);
                ("hulu_types", JBool true); ("live_dai", JBool true);
                ("secondary_audio", JBool true);
                ("live_fragment_delay", JInt 3)]);
        ("trusted_execution_environment", JBool true);
        ("segments",
          JObj [("values",
                  JArr [JObj [("type", JStr "FMP4");
                              ("encryption",
                                JObj [("mode", JStr "CENC");
                                      ("type", JStr "CENC")]);
                              ("https", JBool true)]]);
                ("selection_mode", JStr "ONE")])].

Definition six_params (video_codec : json) (c : HuluClient) (video_id : string)
    (device_id : Z) (rv : Z) : json :=
  JObj [("device_identifier", JStr device_identifier);
        ("deejay_device_id", JInt device_id);
        ("version", JInt 1);
        ("all_cdn", JBool true);
        ("content_eab_id", JStr video_id);
        ("region", JStr "US");
        ("xlink_support", JBool false);
        ("device_ad_id", JStr "5DFEB7AD-3651-8C6A-8302-56EC694FD9E8");
        ("limit_ad_tracking", JBool false);
        ("ignore_kids_block", JBool false);
        ("guid", JStr "0BFDBD0D05D1DF844899A7D608B95BBE");
        ("rv", JInt rv);
        ("kv", server_key c);
        ("cp_session_id", JStr "4408CF3E-D697-B2EA-A70A-4769B8D072F1");
        ("unencrypted", JBool true);
        ("network_mode", JStr "wifi");
        ("interface_version", JStr "1.3.0-alpha.1");
        ("play_intent", JStr "resume");
        ("playback", playback_block video_codec)].

Definition hevc_params := six_params hevc_codec.
Definition avc_params := six_params avc_codec.

(** [resp.raise_for_status()]: a status from 400 to 599 raises. *)
Definition raise_for_status (resp : response) : result unit :=
  if (400 <=? status_code resp) && (status_code resp <? 600) then
    Err (HTTPError (status_code resp) (text resp))
  else Ok tt.

(** CBC encryption with a block transform [encrypt_block], what the
    service applies: each block is XORed with the cipher block before it
    and then enciphered. *)
Fixpoint cbc_encrypt_blocks (encrypt_block : bytes -> bytes -> bytes)
    (n : nat) (key prev data : bytes) : bytes :=
  match n with
  | O => []
  | S k =>
      let block := encrypt_block key (xor_bytes (firstn 16 data) prev) in
      block ++ cbc_encrypt_blocks encrypt_block k key block (skipn 16 data)
  end.

Definition cbc_encrypt (encrypt_block : bytes -> bytes -> bytes)
    (key iv data : bytes) : bytes :=
  cbc_encrypt_blocks encrypt_block (List.length data / 16) key iv data.

(** ** hulu.py: errors, builtins and the functions without [int()]

    [sys.exit] raises [SystemExit]; the script also meets
    [AttributeError], [StopIteration] and [IndexError]. What the parsed
    JSON and XML hold is a [json] value. *)

Inductive py_error : Type :=
| Exn (e : exn)
| AttributeError (msg : string)
| StopIteration
| IndexError (msg : string)
| SystemExit (code : Z).

Inductive outcome (A : Type) : Type :=
| Done (a : A)
| Fail (e : py_error).

Arguments Done {A} a.
Arguments Fail {A} e.

Definition of_result {A} (r : result A) : outcome A :=
  match r with
  | Ok a => Done a
  | Err e => Fail (Exn e)
  end.

Definition obind {A B} (m : outcome A) (k : A -> outcome B) : outcome B :=
  match m with
  | Done a => k a
  | Fail e => Fail e
  end.

Notation "x <~ m ;; k" := (obind m (fun x => k))
  (at level 61, m at next level, right associativity).

(** A script step with its error-level log records. *)
Definition Script (A : Type) : Type :=
  list event -> outcome A * list event.

(** [needle in hay] for two strings. *)
Fixpoint contains (needle hay : string) : bool :=
  String.prefix needle hay
  || match hay with
     | EmptyString => false
     | String _ rest => contains needle rest
     end.

(** [s.endswith(suffix)]. *)
Fixpoint endswith (s suffix : string) : bool :=
  String.eqb s suffix
  || match s with
     | EmptyString => false
     | String _ rest => endswith rest suffix
     end.

(** [s.split(sep)] for a separator of one character. *)
Fixpoint split_from (sep : ascii) (cur : string) (s : string) : list string :=
  match s with
  | EmptyString => [cur]
  | String c rest =>
      if Ascii.eqb c sep then cur :: split_from sep EmptyString rest
      else split_from sep (String.append cur (String c EmptyString)) rest
  end.

Definition split (sep : ascii) (s : string) : list string :=
  split_from sep EmptyString s.

(** [str.lower] on code points below 256. *)
Definition lower_char (c : ascii) : ascii :=
  let n := code c in
  if ((65 <=? n) && (n <=? 90)) || ((192 <=? n) && (n <=? 214))
     || ((216 <=? n) && (n <=? 222))
  then chr (n + 32) else c.

Fixpoint lower (s : string) : string :=
  match s with
  | EmptyString => EmptyString
  | String c rest => String (lower_char c) (lower rest)
  end.

(** [list.insert(i, x)]: a negative index counts from the end, and an
    index outside the list is clipped to its ends. *)
Definition list_insert {A} (l : list A) (i : Z) (x : A) : list A :=
  let n := Z.of_nat (List.length l) in
  let i1 := if i <? 0 then i + n else i in
  let i2 := if i1 <? 0 then 0 else if n <? i1 then n else i1 in
  firstn (Z.to_nat i2) l ++ x :: skipn (Z.to_nat i2) l.

(** [range(start, stop)]. *)
Definition py_range (start stop : Z) : list Z :=
  map (fun i => start + Z.of_nat i) (seq 0 (Z.to_nat (stop - start))).

(** The truth value of a JSON value. *)
Definition truthy (j : json) : bool :=
  match j with
  | JNull => false
  | JBool b => b
  | JInt n => negb (n =? 0)
  | JStr s => negb (String.eqb s EmptyString)
  | JArr items => match items with [] => false | _ => true end
  | JObj d => match d with [] => false | _ => true end
  end.

Definition is_str (s : string) (j : json) : bool :=
  match j with JStr s' => String.eqb s s' | _ => false end.

(** [needle in container] for a string [needle]. *)
Definition py_in (needle : string) (container : json) : outcome bool :=
  match container with
  | JStr s => Done (contains needle s)
  | JArr items => Done (existsb (is_str needle) items)
  | JObj d => Done (existsb (String.eqb needle) (map fst d))
  | _ => Fail (Exn (TypeError "argument is not iterable"))
  end.

(** [j.get(k, default)]: only a dict has the method. *)
Definition get_method (j : json) (k : string) (default : json) : outcome json :=
  match j with
  | JObj d => Done (match dict_get k d with Some v => v | None => default end)
  | _ => Fail (AttributeError "object has no attribute 'get'")
  end.

(** [for t in j]: the items of a list, the keys of a dict, the characters
    of a string. *)
Definition py_iter (j : json) : outcome (list json) :=
  match j with
  | JArr items => Done items
  | JObj d => Done (map (fun kv => JStr (fst kv)) d)
  | JStr s => Done (map (fun c => JStr (String c EmptyString))
                      (list_ascii_of_string s))
  | _ => Fail (Exn (TypeError "object is not iterable"))
  end.

(** [j.lower()]. *)
Definition py_lower (j : json) : outcome string :=
  match j with
  | JStr s => Done (lower s)
  | _ => Fail (AttributeError "object has no attribute 'lower'")
  end.

Definition widevine_urn : string :=
  "urn:uuid:edef8ba9-79d6-4ace-a3c8-27dcd51d21ed".

(** The inner loop of [get_pssh] over the content protections of a track. *)
Fixpoint pssh_of_protections (items : list json) : outcome (option json) :=
  match items with
  | [] => Done None
  | t :: rest =>
      scheme <~ of_result (getitem t "@schemeIdUri") ;;
      low <~ py_lower scheme ;;
      if String.eqb low widevine_urn then
        pssh <~ get_method t "cenc:pssh" JNull ;;
        if truthy pssh then
          p <~ of_result (getitem t "cenc:pssh") ;;
          Done (Some p)
        else pssh_of_protections rest
      else pssh_of_protections rest
  end.

(** [get_pssh(tracks, track_type)]; [None] when the loops end without a
    [return]. *)
Fixpoint get_pssh (tracks : list json) (track_type : string)
  : outcome (option json) :=
  match tracks with
  | [] => Done None
  | track :: rest =>
      mime <~ get_method track "@mimeType" JNull ;;
      found <~ py_in track_type mime ;;
      if found then
        protections <~ get_method track "ContentProtection" (JObj []) ;;
        items <~ py_iter protections ;;
        r <~ pssh_of_protections items ;;
        match r with
        | Some p => Done (Some p)
        | None => get_pssh rest track_type
        end
      else get_pssh rest track_type
  end.

(** The dict [get_episodes] builds for an episode. *)
Record Episode : Type := {
  ep_id : json;
  ep_title : json;
  ep_season_num : Z;
  ep_episode_num : Z;
  ep_episode_name : json
}.

(** ** hulu.py: the watch id

    [UUID_RE] is [[a-f0-9]{8}(?:-[a-f0-9]{4}){3}-[a-f0-9]{12}]: a match is
    36 characters long and fixed by the place where it starts. *)

Definition is_hex_lower (c : ascii) : bool :=
  let n := code c in
  ((48 <=? n) && (n <=? 57)) || ((97 <=? n) && (n <=? 102)).

(** [[a-f0-9]{n}] at the start of [s]: the digits and what follows. *)
Fixpoint hex_run (n : nat) (s : string) : option (string * string) :=
  match n with
  | O => Some (EmptyString, s)
  | Datatypes.S k =>
      match s with
      | EmptyString => None
      | String c rest =>
          if is_hex_lower c then
            match hex_run k rest with
            | Some (digits, r) => Some (String c digits, r)
            | None => None
            end
          else None
      end
  end.

(** One [-[a-f0-9]{n}] for each [n] of the list. *)
Fixpoint dash_groups (ns : list nat) (s : string) : option (string * string) :=
  match ns with
  | [] => Some (EmptyString, s)
  | n :: more =>
      match s with
      | EmptyString => None
      | String c rest =>
          if Ascii.eqb c "-" then
            match hex_run n rest with
            | Some (digits, r) =>
                match dash_groups more r with
                | Some (tl, r') =>
                    Some (String c (String.append digits tl), r')
                | None => None
                end
            | None => None
            end
          else None
      end
  end.

(** A match of [UUID_RE] at the start of [s], and what follows it. *)
Definition uuid_at (s : string) : option (string * string) :=
  match hex_run 8 s with
  | Some (digits, r) =>
      match dash_groups [4; 4; 4; 12]%nat r with
      | Some (tl, r') => Some (String.append digits tl, r')
      | None => None
      end
  | None => None
  end.

(** [re.fullmatch(UUID_RE, s)] finds a match. *)
Definition fullmatch_uuid (s : string) : bool :=
  match uuid_at s with
  | Some (_, EmptyString) => true
  | _ => false
  end.

(** [re.search(UUID_RE, s)]: the leftmost match. *)
Fixpoint search_uuid (s : string) : option string :=
  match uuid_at s with
  | Some (u, _) => Some u
  | None =>
      match s with
      | EmptyString => None
      | String _ rest => search_uuid rest
      end
  end.

Fixpoint strip_prefix (p s : string) : option string :=
  match p with
  | EmptyString => Some s
  | String a p' =>
      match s with
      | EmptyString => None
      | String b s' => if Ascii.eqb a b then strip_prefix p' s' else None
      end
  end.

(** [re.match(r'https?://(?:www\.)hulu\.com/(?:watch|movie|series)', url)]
    finds a match. *)
Definition is_watch_url (url : string) : bool :=
  match strip_prefix "http" url with
  | None => false
  | Some r =>
      let r1 := match strip_prefix "s" r with Some r' => r' | None => r end in
      match strip_prefix "://www.hulu.com/" r1 with
      | None => false
      | Some r2 =>
          String.prefix "watch" r2 || String.prefix "movie" r2
          || String.prefix "series" r2
      end
  end.

Fixpoint all_chars (p : ascii -> bool) (s : string) : bool :=
  match s with
  | EmptyString => true
  | String c rest => p c && all_chars p rest
  end.

Definition uuid_char (c : ascii) : bool := is_hex_lower c || Ascii.eqb c "-".

(** [MUXED_FILENAME]: the output name given, or the base name with
    [.mkv]; [.mkv] is added to a name that does not end with it. *)
Definition muxed_filename (output : option string) (base_filename : string)
  : string :=
  let name :=
    match output with
    | Some o =>
        if String.eqb o EmptyString
        then String.append base_filename ".mkv" else o
    | None => String.append base_filename ".mkv"
    end in
  if negb (endswith name ".mkv") then String.append name ".mkv" else name.

(** Two answers of the transport that differ at most in the status. *)
Definition same_body (r1 r2 : result response) : Prop :=
  match r1, r2 with
  | Ok a, Ok b => text a = text b
  | Err e1, Err e2 => e1 = e2
  | _, _ => False
  end.

(** ** Stand-in library functions

    A block transform that is its own inverse, a decoder for one-byte
    characters, a reader that takes the whole text for the key material, a
    printer, a reader of decimal numbers and a transport with a fixed
    answer stand for the libraries. *)

Module Demo.

Definition block (key data : bytes) : bytes := rev data.

Definition decode (b : bytes) : result string :=
  Ok (string_of_list_ascii (map chr b)).

Definition loads (s : string) : result json :=
  Ok (JObj [("key", JStr s); ("key_id", JStr "kid")]).

Definition dumps (j : json) : string := "<request>".

Definition int (s : string) : result Z :=
  match NilZero.int_of_string s with
  | Some n => Ok (Z.of_int n)
  | None => Err (ValueError "invalid literal for int() with base 10")
  end.

Definition answers (resp : response) (url : string) (b : body)
  : result response := Ok resp.

(** The envelope of a text: padded, enciphered in CBC mode under the zero
    IV, written in hexadecimal. *)
Definition envelope (key : bytes) (plaintext : string) : string :=
  hexlify (cbc_encrypt block key zero_iv (pad (encode_utf8 plaintext) 16)).

Definition zero_device : Device :=
  {| device_code := "830"; device_key := repeat 0 16 |}.

Definition ff16 : string := "ffffffffffffffffffffffffffffffff".

Definition ok (body : string) : response :=
  {| status_code := 200; text := body |}.

Definition client (extra : dict) : HuluClient :=
  {| device := zero_device; extra_playlist_params := extra;
     session_key := repeat 255 16; server_key := JStr "kid" |}.

Definition playlist_text : string := "stream".

Definition status (code : Z) (body : string) : response :=
  {| status_code := code; text := body |}.

(** A transport that answers the legacy endpoint with one response and
    every other endpoint with another. *)
Definition route (legacy other : response) (url : string) (b : body)
  : result response :=
  if String.eqb url playlist_url then Ok legacy else Ok other.

(** An item of the episode listing and the entry built for it. *)
Definition item (number : Z) : json :=
  JObj [("bundle", JObj [("eab_id", JStr "EAB::episode")]);
        ("number", JInt number);
        ("series_name", JStr "Series");
        ("season", JStr "2");
        ("name", JStr "Episode")].

Definition episode (number : Z) : Episode :=
  {| ep_id := JStr "EAB::episode"; ep_title := JStr "Series";
     ep_season_num := 2; ep_episode_num := number;
     ep_episode_name := JStr "Episode" |}.

(** A representation of a track, and a track with one Widevine content
    protection whose scheme is written in capitals. *)
Definition representation (bandwidth height : string) : json :=
  JObj [("@bandwidth", JStr bandwidth); ("@height", JStr height)].

Definition protected_track : json :=
  JObj [("@mimeType", JStr "video/mp4");
        ("ContentProtection",
          JArr [JObj [("@schemeIdUri",
                        JStr "URN:UUID:EDEF8BA9-79D6-4ACE-A3C8-27DCD51D21ED");
                      ("cenc:pssh", JStr "AAAAOHBzc2g=")]])].

Definition show (j : json) : string := "<value>".

End Demo.

Section Client.

(** The AES block transforms [aes_decrypt_block key block] and
    [aes_encrypt_block key block]; the client only deciphers. *)
Variable aes_decrypt_block : bytes -> bytes -> bytes.
Variable aes_encrypt_block : bytes -> bytes -> bytes.
(** [bytes.decode('utf8')], [json.loads] and [json.dumps(_, indent=4)]. *)
Variable decode_utf8 : bytes -> result string.
Variable json_loads : string -> result json.
Variable json_dumps : json -> string.
(** [int(text)]. *)
Variable int_of_str : string -> result Z.
(** [self.session.post(url=..., data=... / json=...)]. *)
Variable session_post : string -> body -> result response.

(** CBC decryption of [n] blocks: each block is deciphered and XORed
    with the block before it, the IV for the first. *)
Fixpoint cbc_decrypt_blocks (n : nat) (key prev data : bytes) : bytes :=
  match n with
  | O => []
  | S k =>
      let block := firstn 16 data in
      xor_bytes (aes_decrypt_block key block) prev
        ++ cbc_decrypt_blocks k key block (skipn 16 data)
  end.

(** [aes_cbc_ctx.decrypt(ciphertext)]. *)
Definition cbc_decrypt (ctx : bytes * bytes) (ciphertext : bytes)
  : result bytes :=
  if negb (Z.of_nat (List.length ciphertext) mod 16 =? 0) then
    Err (ValueError "Data must be padded to 16 byte boundary in CBC mode")
  else
    Ok (cbc_decrypt_blocks (List.length ciphertext / 16) (fst ctx) (snd ctx)
          ciphertext).

Definition post (url : string) (b : body) : M response :=
  emit (Post url b) ;;; lift (session_post url b).

Definition decrypt_response (key ciphertext : bytes) : M json :=
  aes_cbc_ctx <- lift (AES_new key zero_iv) ;;
  plaintext <-
    try_except_ValueError
      (emit (AESDecrypt key ciphertext) ;;;
       padded <- lift (cbc_decrypt aes_cbc_ctx ciphertext) ;;
       lift (unpad padded 16))
      (logger_error "Error decrypting response" ;;;
       logger_error "Ciphertext:" ;;;
       logger_error (b64encode ciphertext) ;;;
       logger_error (String.append "Tried decrypting with key " (b64encode key)) ;;;
       raise (ValueError "Error decrypting response")) ;;
  s <- lift (decode_utf8 plaintext) ;;
  lift (json_loads s).

Definition __get_ciphertext (text : string) (request : dict) : M bytes :=
  try_except_ValueError
    (lift (bytes_fromhex text))
    (logger_error "Error decoding response hex" ;;;
     logger_error "Request:" ;;;
     logger_error_lines (splitlines (json_dumps (JObj request))) ;;;
     logger_error "Response:" ;;;
     logger_error_lines (splitlines text) ;;;
     raise (ValueError "Error decoding response hex")).

(** The name of the type of a value in the [TypeError] of a call. *)
Definition arg_type_name (j : json) : string :=
  match j with
  | JNull => "None"
  | JBool _ => "bool"
  | JInt _ => "int"
  | JStr _ => "str"
  | JArr _ => "list"
  | JObj _ => "dict"
  end.

Definition as_str (j : json) : result string :=
  match j with
  | JStr s => Ok s
  | other =>
      Err (TypeError
             (String.append "fromhex() argument must be str, not "
                (arg_type_name other)))
  end.

Definition handshake_payload (d : Device) (version : string)
    (random_value : Z) (nonce : string) : dict :=
  [("rv", JInt random_value);
   ("mozart_version", JStr "1");
   ("region", JStr "US");
   ("version", JStr version);
   ("device", JStr (device_code d));
   ("encrypted_nonce", JStr nonce)].

(** [random_value] is the draw of [random.randrange(1E5, 1E6)]. *)
Definition get_session_key (d : Device) (random_value : Z)
  : M (bytes * json) :=
  let version := "1" in
  base <- lift (nonce_base d version random_value) ;;
  let nonce := MD5.hexdigest (encode_utf8 base) in
  let payload := handshake_payload d version random_value nonce in
  resp <- post config_url (FormData payload) ;;
  ciphertext <- __get_ciphertext (text resp) payload ;;
  config_dict <- decrypt_response (device_key d) ciphertext ;;
  key_hex <- lift (getitem config_dict "key") ;;
  key_text <- lift (as_str key_hex) ;;
  server_bytes <- lift (bytes_fromhex key_text) ;;
  derived_key_array <- lift (derive_session_key (device_key d) server_bytes) ;;
  key_id <- lift (getitem config_dict "key_id") ;;
  ret (derived_key_array, key_id).

(** [HuluClient.__init__], from a device already built. *)
Definition HuluClient_init (d : Device) (extra : dict) (random_value : Z)
  : M HuluClient :=
  keys <- get_session_key d random_value ;;
  ret {| device := d; extra_playlist_params := extra;
         session_key := fst keys; server_key := snd keys |}.

Definition playlist_defaults (c : HuluClient) (video_id : string)
    (deejay_device_id : Z) (rv : Z) : dict :=
  [("device_identifier", JStr device_identifier);
   ("deejay_device_id", JInt deejay_device_id);
   ("version", JInt 1);
   ("content_eab_id", JStr video_id);
   ("rv", JInt rv);
   ("kv", server_key c)].

(** The request body of [load_playlist]. *)
Definition playlist_params (c : HuluClient) (video_id : string) (rv : Z)
  : result dict :=
  match int_of_str (device_code (device c)) with
  | Ok n =>
      Ok (dict_update (playlist_defaults c video_id n rv)
            (extra_playlist_params c))
  | Err e => Err e
  end.

Definition load_playlist (c : HuluClient) (video_id : string) (rv : Z)
  : M json :=
  params <- lift (playlist_params c video_id rv) ;;
  resp <- post playlist_url (JsonBody (JObj params)) ;;
  ciphertext <- __get_ciphertext (text resp) params ;;
  decrypt_response (session_key c) ciphertext.

(** The request body of [load_playlist_six]; [rv_hevc] and [rv_avc] are
    the two draws of [random.randrange]. *)
Definition playlist_six_params (c : HuluClient) (video_id : string)
    (device_id : Z) (hdr hevc : bool) (rv_hevc rv_avc : Z) : result json :=
  let params :=
    if hevc then hevc_params c video_id device_id rv_hevc
    else avc_params c video_id device_id rv_avc in
  if hdr then
    match setitem_at ["playback"; "video"] "dynamic_range"
            (JStr "DOLBY_VISION") params with
    | Ok params1 =>
        setitem_at ["playback"; "drm"] "multi_key" (JBool true) params1
    | Err e => Err e
    end
  else Ok params.

Definition load_playlist_six (c : HuluClient) (video_id : string)
    (device_id : Z) (hdr hevc : bool) (rv_hevc rv_avc : Z) : M json :=
  params <- lift (playlist_six_params c video_id device_id hdr hevc rv_hevc rv_avc) ;;
  resp <- post playlist_six_url (JsonBody params) ;;
  lift (raise_for_status resp) ;;;
  lift (json_loads (text resp)).

Definition valid_key (key : bytes) : bool :=
  let n := Z.of_nat (List.length key) in (n =? 16) || (n =? 24) || (n =? 32).

(** [Padding.unpad(aes_cbc_ctx.decrypt(ciphertext), 16)] for a context
    made with the zero IV. *)
Definition decrypt_unpad (key ciphertext : bytes) : result bytes :=
  match cbc_decrypt (key, zero_iv) ciphertext with
  | Ok padded => unpad padded 16
  | Err e => Err e
  end.

(** [json.loads(plaintext.decode('utf8'))]. *)
Definition loads_utf8 (plaintext : bytes) : result json :=
  match decode_utf8 plaintext with
  | Ok s => json_loads s
  | Err e => Err e
  end.

(** What [decrypt_response] logs before it raises. *)
Definition decrypt_failure_log (key ciphertext : bytes) : list event :=
  [LogError "Error decrypting response";
   LogError "Ciphertext:";
   LogError (b64encode ciphertext);
   LogError (String.append "Tried decrypting with key " (b64encode key))].

(** What [__get_ciphertext] logs before it raises. *)
Definition envelope_failure_log (text : string) (request : dict) : list event :=
  [LogError "Error decoding response hex"; LogError "Request:"]
    ++ map LogError (splitlines (json_dumps (JObj request)))
    ++ [LogError "Response:"]
    ++ map LogError (splitlines text).

(** The steps of [get_session_key] after the decryption. *)
Definition derive_from_config (d : Device) (config_dict : json)
  : M (bytes * json) :=
  key_hex <- lift (getitem config_dict "key") ;;
  key_text <- lift (as_str key_hex) ;;
  server_bytes <- lift (bytes_fromhex key_text) ;;
  derived_key_array <- lift (derive_session_key (device_key d) server_bytes) ;;
  key_id <- lift (getitem config_dict "key_id") ;;
  ret (derived_key_array, key_id).

(** A field of the request of [load_playlist_six], by its path. *)
Definition six_field (path : list string) (c : HuluClient) (video_id : string)
    (device_id : Z) (hdr hevc : bool) (rv_hevc rv_avc : Z)
  : result (option json) :=
  match playlist_six_params c video_id device_id hdr hevc rv_hevc rv_avc with
  | Ok params => Ok (get_path path params)
  | Err e => Err e
  end.

(** The template of the specification for the handshake nonce:
    [{hex(device_key)},{device_code},1,{R}]. *)
Definition nonce_template (d : Device) (random_value : Z) : string :=
  String.append (hexlify (device_key d))
    (String.append ","
       (String.append (device_code d)
          (String.append ",1," (str_of_int random_value)))).

(** The handshake request when the nonce is the digest of that template. *)
Definition handshake_request (d : Device) (random_value : Z) : body :=
  FormData
    (handshake_payload d "1" random_value
       (MD5.hexdigest (encode_utf8 (nonce_template d random_value)))).

(** The request of [load_playlist] for a device code that reads as [n]. *)
Definition playlist_request (c : HuluClient) (video_id : string) (n rv : Z)
  : dict :=
  dict_update (playlist_defaults c video_id n rv) (extra_playlist_params c).

(** ** hulu.py: the functions that read numbers or call the client *)

(** [str(value)] inside an f-string. *)
Variable py_str : json -> string.

(** [int(j)]. *)
Definition py_int (j : json) : outcome Z :=
  match j with
  | JInt n => Done n
  | JBool b => Done (if b then 1 else 0)
  | JStr s => of_result (int_of_str s)
  | _ => Fail (Exn (TypeError "int() argument must be a string or a real number"))
  end.

(** [get_bitrate(rep)]. *)
Definition get_bitrate (rep : json) : outcome Z :=
  profile <~ get_method rep "hulu:ProfileBandwidth" JNull ;;
  if truthy profile then py_int profile
  else bandwidth <~ get_method rep "@bandwidth" JNull ;; py_int bandwidth.

(** [sorted(reps, key=get_bitrate, reverse=True)]: the keys are computed
    first, one per item; the sort is stable, so items with equal keys keep
    their order. A stable sort has one result, the one of this insertion
    sort. *)
Fixpoint keys_of (reps : list json) : outcome (list (Z * json)) :=
  match reps with
  | [] => Done []
  | rep :: rest =>
      k <~ get_bitrate rep ;;
      tl <~ keys_of rest ;;
      Done ((k, rep) :: tl)
  end.

Fixpoint insert_desc (x : Z * json) (l : list (Z * json)) : list (Z * json) :=
  match l with
  | [] => [x]
  | y :: rest =>
      if fst x <? fst y then y :: insert_desc x rest else x :: y :: rest
  end.

Fixpoint sort_desc (l : list (Z * json)) : list (Z * json) :=
  match l with
  | [] => []
  | x :: rest => insert_desc x (sort_desc rest)
  end.

Definition sorted_by_bitrate (reps : list json) : outcome (list json) :=
  keyed <~ keys_of reps ;;
  Done (map snd (sort_desc keyed)).

(** [tracks[0]]. *)
Definition first_track (tracks : list json) : outcome json :=
  match tracks with
  | [] => Fail (IndexError "list index out of range")
  | x :: _ => Done x
  end.

(** [int(x['@height'])]. *)
Definition height_of (x : json) : outcome Z :=
  h <~ of_result (getitem x "@height") ;;
  py_int h.

(** [next(x for x in video_tracks if int(x['@height']) == q)]. *)
Fixpoint track_of_height (q : Z) (tracks : list json) : outcome json :=
  match tracks with
  | [] => Fail StopIteration
  | x :: rest =>
      n <~ height_of x ;;
      if n =? q then Done x else track_of_height q rest
  end.

(** Descending order of the keys. *)
Definition key_ge (a b : Z * json) : Prop := fst b <= fst a.

(** One round of the loop of [get_episodes]: the check for [bundle], the
    episode number and the dict. *)
Definition episode_of (episode : json) : Script Episode :=
  fun t =>
    match py_in "bundle" episode with
    | Fail e => (Fail e, t)
    | Done false =>
        (Fail (SystemExit 1),
         t ++ [LogError "Unable to get content ID. Possible GeoIP error."])
    | Done true =>
        (number <~ of_result (getitem episode "number") ;;
         ep_num <~ py_int number ;;
         bundle <~ of_result (getitem episode "bundle") ;;
         eab_id <~ of_result (getitem bundle "eab_id") ;;
         series_name <~ of_result (getitem episode "series_name") ;;
         season <~ of_result (getitem episode "season") ;;
         season_num <~ py_int season ;;
         name <~ of_result (getitem episode "name") ;;
         Done {| ep_id := eab_id; ep_title := series_name;
                 ep_season_num := season_num; ep_episode_num := ep_num;
                 ep_episode_name := name |}, t)
    end.

Fixpoint get_episodes_loop (items : list json) (episodes : list Episode)
  : Script (list Episode) :=
  fun t =>
    match items with
    | [] => (Done episodes, t)
    | episode :: rest =>
        match episode_of episode t with
        | (Done e, t') =>
            get_episodes_loop rest
              (list_insert episodes (ep_episode_num e - 1) e) t'
        | (Fail err, t') => (Fail err, t')
        end
    end.

(** [get_episodes] from the parsed answer on. *)
Definition get_episodes_parsed (parsed : json) : Script (list Episode) :=
  fun t =>
    match (items <~ of_result (getitem parsed "items") ;; py_iter items) with
    | Done items => get_episodes_loop items [] t
    | Fail e => (Fail e, t)
    end.

(** [(start, end) = parts]. *)
Definition unpack2 (parts : list string) : outcome (string * string) :=
  match parts with
  | [a; b] => Done (a, b)
  | _ :: _ :: _ :: _ =>
      Fail (Exn (ValueError "too many values to unpack (expected 2)"))
  | _ => Fail (Exn (ValueError "not enough values to unpack (expected 2)"))
  end.

Fixpoint ints_of (parts : list string) : outcome (list Z) :=
  match parts with
  | [] => Done []
  | p :: rest =>
      n <~ of_result (int_of_str p) ;;
      tl <~ ints_of rest ;;
      Done (n :: tl)
  end.

(** The seasons named by [--season]. *)
Definition parse_seasons (season : string) : outcome (list Z) :=
  if contains "-" season then
    parts <~ unpack2 (split "-" season) ;;
    start <~ of_result (int_of_str (fst parts)) ;;
    stop <~ of_result (int_of_str (snd parts)) ;;
    Done (py_range start (stop + 1))
  else if contains "," season then ints_of (split "," season)
  else
    n <~ of_result (int_of_str season) ;;
    Done [n].

(** [next(x for x in eps if x['episode_num'] == int(args.episode))]. *)
Fixpoint next_episode (arg : string) (eps : list Episode) : outcome Episode :=
  match eps with
  | [] => Fail StopIteration
  | x :: rest =>
      n <~ of_result (int_of_str arg) ;;
      if ep_episode_num x =? n then Done x else next_episode arg rest
  end.

Definition in_range (start stop : Z) (x : Episode) : bool :=
  (start <=? ep_episode_num x) && (ep_episode_num x <=? stop).

Definition is_selected (selected : list Z) (x : Episode) : bool :=
  existsb (Z.eqb (ep_episode_num x)) selected.

Definition exit_with (msg : string) {A} : Script A :=
  fun t => (Fail (SystemExit 1), t ++ [LogError msg]).

(** The body of the loop over the seasons, for the episodes [eps] of one
    season and the [titles] gathered so far. *)
Definition select_episodes (episode_arg : option string)
    (titles eps : list Episode) : Script (list Episode) :=
  fun t =>
    match eps with
    | [] => exit_with "No episodes found. Possible GeoIP error." t
    | _ :: _ =>
        match episode_arg with
        | None => (Done (titles ++ eps), t)
        | Some arg =>
            if String.eqb arg EmptyString then (Done (titles ++ eps), t)
            else
              let chosen : Script (list Episode) :=
                if contains "-" arg then
                  fun t1 =>
                    (parts <~ unpack2 (split "-" arg) ;;
                     start <~ of_result (int_of_str (fst parts)) ;;
                     stop <~ (if String.eqb (snd parts) EmptyString
                              then Done (Z.of_nat (List.length eps))
                              else of_result (int_of_str (snd parts))) ;;
                     Done (titles ++ filter (in_range start stop) eps), t1)
                else if contains "," arg then
                  fun t1 =>
                    (selected <~ ints_of (split "," arg) ;;
                     Done (titles ++ filter (is_selected selected) eps), t1)
                else
                  fun t1 =>
                    match next_episode arg eps with
                    | Done x => (Done (titles ++ [x]), t1)
                    | Fail StopIteration =>
                        exit_with "Requested episode not found" t1
                    | Fail e => (Fail e, t1)
                    end in
              match chosen t with
              | (Done [], t') => exit_with "No matching episodes found" t'
              | r => r
              end
        end
    end.

(** [repr(text)] inside an f-string. *)
Variable py_repr : string -> string.

(** The watch id taken from the [url] argument, and the check that a
    series comes with [--season]. *)
Definition watch_id_of (url : string) (season : option string)
  : Script string :=
  fun t =>
    if fullmatch_uuid url then (Fail (IndexError "no such group"), t)
    else
      let watch_id := if is_watch_url url then search_uuid url else None in
      match watch_id with
      | None =>
          exit_with
            (String.append (py_repr url)
               " is not a valid Hulu watch URL or ID.") t
      | Some id =>
          let no_season :=
            match season with
            | Some s => String.eqb s EmptyString
            | None => true
            end in
          if contains "/series/" url && no_season then
            exit_with "For series, please use the --season argument." t
          else (Done id, t)
      end.

(** The two names of the loop [for device in ('video', 'chrome')]. *)
Inductive device_name : Type := video | chrome.

Definition device_title (dv : device_name) : string :=
  match dv with video => "Video" | chrome => "Chrome" end.

(** The request of a playlist in that loop, up to the check for [block]:
    [video] asks [load_playlist_six] with device id 210, [chrome] asks
    [load_playlist]; a [ValueError] ends the script. *)
Definition fetch_playlist (c : HuluClient) (dv : device_name) (t_id : string)
    (h264 hdr : bool) (rv rv_hevc rv_avc : Z) : Script json :=
  fun t =>
    let call :=
      match dv with
      | video => load_playlist_six c t_id 210 hdr (negb h264) rv_hevc rv_avc
      | chrome => load_playlist c t_id rv
      end in
    match call t with
    | (Err (ValueError _), t') => (Fail (SystemExit 1), t')
    | (Err e, t') => (Fail (Exn e), t')
    | (Ok data, t') =>
        match py_in "block" data with
        | Fail e => (Fail e, t')
        | Done false => (Done data, t')
        | Done true =>
            match getitem data "block" with
            | Err e => (Fail (Exn e), t')
            | Ok b =>
                (Fail (SystemExit 1),
                 t' ++ [LogError
                          (String.append "Error in "
                             (String.append (device_title dv)
                                (String.append " manifest: " (py_str b))))])
            end
        end
    end.

(** ** Bytes and XOR *)

Lemma byteb_range (x : Z) : byteb x = true <-> 0 <= x < 256.
Proof. unfold byteb. rewrite andb_true_iff, Z.leb_le, Z.ltb_lt. tauto. Qed.

Lemma lxor_byte (a b : Z) :
  byteb a = true -> byteb b = true -> byteb (Z.lxor a b) = true.
Proof.
  rewrite !byteb_range. intros [Ha Ha'] [Hb Hb'].
  assert (Hn : 0 <= Z.lxor a b) by (apply Z.lxor_nonneg; lia).
  split; [exact Hn|].
  destruct (Z.eq_dec (Z.lxor a b) 0) as [E|E]; [lia|].
  change 256 with (2 ^ 8). apply Z.log2_lt_pow2; [lia|].
  apply Z.le_lt_trans with (Z.max (Z.log2 a) (Z.log2 b)).
  - apply Z.log2_lxor; lia.
  - apply Z.max_lub_lt.
    + destruct (Z.eq_dec a 0) as [->|]; [simpl; lia|].
      apply Z.log2_lt_pow2; lia.
    + destruct (Z.eq_dec b 0) as [->|]; [simpl; lia|].
      apply Z.log2_lt_pow2; lia.
Qed.

Lemma xor_bytes_length (a b : bytes) :
  List.length (xor_bytes a b) = Nat.min (List.length a) (List.length b).
Proof. unfold xor_bytes. now rewrite length_map, length_combine. Qed.

Lemma xor_bytes_nth (a b : bytes) (i : nat) :
  (i < Nat.min (List.length a) (List.length b))%nat ->
  nth i (xor_bytes a b) 0 = Z.lxor (nth i a 0) (nth i b 0).
Proof.
  revert b i. induction a as [|x a IH]; intros [|y b] i H; simpl in *; try lia.
  destruct i as [|i]; [reflexivity|]. apply IH. lia.
Qed.

Lemma xor_bytes_comm (a b : bytes) : xor_bytes a b = xor_bytes b a.
Proof.
  revert b. induction a as [|x a IH]; intros [|y b]; try reflexivity.
  unfold xor_bytes in *. simpl. now rewrite Z.lxor_comm, IH.
Qed.

Lemma xor_bytes_firstn (a b : bytes) :
  let m := Nat.min (List.length a) (List.length b) in
  xor_bytes a b = xor_bytes (firstn m a) (firstn m b).
Proof.
  revert b. induction a as [|x a IH]; intros [|y b]; try reflexivity.
  simpl. unfold xor_bytes in *. simpl. f_equal. apply IH.
Qed.

Lemma xor_bytes_cancel (a p : bytes) :
  (List.length a <= List.length p)%nat -> xor_bytes (xor_bytes a p) p = a.
Proof.
  revert p. induction a as [|x a IH]; intros [|y p] H; simpl in *; try lia;
    try reflexivity.
  unfold xor_bytes in *. simpl. rewrite IH by lia. f_equal.
  now rewrite Z.lxor_assoc, Z.lxor_nilpotent, Z.lxor_0_r.
Qed.

Lemma is_bytes_cons (x : Z) (l : bytes) :
  is_bytes (x :: l) = true <-> byteb x = true /\ is_bytes l = true.
Proof. unfold is_bytes. simpl. now rewrite andb_true_iff. Qed.

Lemma derive_loop_xor (acc dk sk : bytes) :
  is_bytes dk = true -> is_bytes sk = true ->
  derive_loop acc dk sk = Ok (acc ++ xor_bytes dk sk).
Proof.
  revert acc sk. induction dk as [|x dk IH]; intros acc [|y sk] Hd Hs;
    simpl; try now rewrite app_nil_r.
  apply is_bytes_cons in Hd as [Hx Hd]. apply is_bytes_cons in Hs as [Hy Hs].
  unfold bytearray_append. rewrite (lxor_byte _ _ Hx Hy).
  rewrite IH by assumption. unfold xor_bytes. simpl.
  now rewrite <- app_assoc.
Qed.

Lemma derive_loop_comm (acc a b : bytes) :
  derive_loop acc a b = derive_loop acc b a.
Proof.
  revert acc b. induction a as [|x a IH]; intros acc [|y b]; try reflexivity.
  simpl. rewrite (Z.lxor_comm y x).
  destruct (bytearray_append acc (Z.lxor x y)); [apply IH|reflexivity].
Qed.

Lemma derive_session_key_xor (dk sk : bytes) :
  is_bytes dk = true -> is_bytes sk = true ->
  derive_session_key dk sk = Ok (xor_bytes dk sk).
Proof. intros. unfold derive_session_key. now rewrite derive_loop_xor. Qed.

(** ** Hexadecimal decoding *)

Lemma hex_value_range (c : ascii) (v : Z) :
  hex_value c = Some v -> 0 <= v < 16.
Proof.
  unfold hex_value.
  destruct ((48 <=? code c) && (code c <=? 57)) eqn:E1.
  { intros [= <-]. apply andb_true_iff in E1. lia. }
  destruct ((97 <=? code c) && (code c <=? 102)) eqn:E2.
  { intros [= <-]. apply andb_true_iff in E2. lia. }
  destruct ((65 <=? code c) && (code c <=? 70)) eqn:E3.
  { intros [= <-]. apply andb_true_iff in E3. lia. }
  discriminate.
Qed.

Lemma hex_value_not_space (c : ascii) (v : Z) :
  hex_value c = Some v -> Py_ISSPACE c = false.
Proof.
  unfold hex_value, Py_ISSPACE.
  destruct ((48 <=? code c) && (code c <=? 57)) eqn:E1.
  { intros _. apply andb_true_iff in E1. lia. }
  destruct ((97 <=? code c) && (code c <=? 102)) eqn:E2.
  { intros _. apply andb_true_iff in E2. lia. }
  destruct ((65 <=? code c) && (code c <=? 70)) eqn:E3.
  { intros _. apply andb_true_iff in E3. lia. }
  discriminate.
Qed.

Lemma fromhex_is_bytes (s : string) :
  forall b, fromhex s = Some b -> is_bytes b = true.
Proof.
  assert (H : forall n s, (String.length s < n)%nat ->
              forall b, fromhex s = Some b -> is_bytes b = true).
  { induction n as [|n IH]; intros s0 Hn b; [lia|].
    destruct s0 as [|c rest]; simpl.
    - now intros [= <-].
    - destruct (Py_ISSPACE c).
      + apply IH. simpl in Hn. lia.
      + destruct (hex_value c) as [top|] eqn:Et; [|discriminate].
        destruct rest as [|c2 rest2]; [discriminate|].
        destruct (hex_value c2) as [bot|] eqn:Eb; [|discriminate].
        destruct (fromhex rest2) as [tl|] eqn:Er; [|discriminate].
        intros [= <-]. apply is_bytes_cons. split.
        * apply hex_value_range in Et, Eb. apply byteb_range. lia.
        * apply (IH rest2); [simpl in Hn; lia|assumption]. }
  intros b. apply (H (S (String.length s))). lia.
Qed.

(** Text without whitespace is accepted by [fromhex] only when it is
    valid even-length hex. *)
Lemma fromhex_rejects (s : string) :
  has_space s = false -> valid_even_hex s = false -> fromhex s = None.
Proof.
  assert (H : forall n s, (String.length s < n)%nat ->
              has_space s = false -> valid_even_hex s = false ->
              fromhex s = None).
  { induction n as [|n IH]; intros s0 Hn Hs Hv; [lia|].
    destruct s0 as [|c rest]; [discriminate|].
    simpl in Hs. apply orb_false_iff in Hs as [Hc Hs].
    simpl. rewrite Hc.
    destruct (hex_value c) as [top|] eqn:Et; [|reflexivity].
    destruct rest as [|c2 rest2]; [reflexivity|].
    simpl in Hs. apply orb_false_iff in Hs as [Hc2 Hs].
    destruct (hex_value c2) as [bot|] eqn:Eb; [|reflexivity].
    rewrite (IH rest2); [reflexivity| simpl in Hn; lia | assumption |].
    unfold valid_even_hex in *. simpl in Hv. now rewrite Et, Eb in Hv. }
  apply (H (S (String.length s))). lia.
Qed.

(** *** Whitespace in hexadecimal text *)

Lemma pieces_cons (s : string) : exists p ps, pieces s = p :: ps.
Proof.
  destruct s as [|c rest]; cbn [pieces].
  - now exists EmptyString, [].
  - destruct (Py_ISSPACE c); [now exists EmptyString, (pieces rest)|].
    destruct (pieces rest) as [|p ps].
    + now exists (String c EmptyString), [].
    + now exists (String c p), ps.
Qed.

Lemma pieces_no_space (s : string) : has_space s = false -> pieces s = [s].
Proof.
  induction s as [|c rest IH]; intros H; [reflexivity|].
  cbn [has_space] in H. apply orb_false_iff in H as [Hc Hr].
  cbn [pieces]. now rewrite Hc, (IH Hr).
Qed.

Lemma space_not_hex (c : ascii) : Py_ISSPACE c = true -> hex_value c = None.
Proof.
  intros H. destruct (hex_value c) as [v|] eqn:E; [|reflexivity].
  apply hex_value_not_space in E. congruence.
Qed.

Lemma valid_even_hex_bad_head (c : ascii) (p : string) :
  hex_value c = None -> valid_even_hex (String c p) = false.
Proof. intros H. unfold valid_even_hex. cbn [all_hex]. now rewrite H. Qed.

Lemma valid_even_hex_pair (c c2 : ascii) (p : string) (top bot : Z) :
  hex_value c = Some top -> hex_value c2 = Some bot ->
  valid_even_hex (String c (String c2 p)) = valid_even_hex p.
Proof.
  intros Ht Hb. unfold valid_even_hex.
  cbn [all_hex String.length Nat.even]. now rewrite Ht, Hb.
Qed.

(** [bytes.fromhex] accepts a text exactly when each of its pieces between
    whitespace characters is valid even-length hex, and then returns the
    bytes of the pairs of the pieces, in order. *)
Lemma fromhex_pieces (s : string) :
  fromhex s
  = if forallb valid_even_hex (pieces s)
    then Some (flat_map pair_values (pieces s))
    else None.
Proof.
  assert (H : forall n s, (String.length s < n)%nat ->
              fromhex s
              = if forallb valid_even_hex (pieces s)
                then Some (flat_map pair_values (pieces s))
                else None).
  { induction n as [|n IH]; intros s0 Hn; [lia|].
    destruct s0 as [|c rest]; [reflexivity|].
    cbn [String.length] in Hn. cbn [fromhex pieces].
    destruct (Py_ISSPACE c) eqn:Hc.
    { cbn [forallb flat_map pair_values app].
      change (valid_even_hex EmptyString) with true. cbn [andb].
      apply IH. lia. }
    destruct (hex_value c) as [top|] eqn:Et.
    2:{ destruct (pieces rest) as [|p ps]; cbn [forallb];
          now rewrite (valid_even_hex_bad_head _ _ Et). }
    assert (Hodd : valid_even_hex (String c EmptyString) = false).
    { unfold valid_even_hex. cbn [all_hex String.length Nat.even].
      now rewrite Et. }
    destruct rest as [|c2 rest2].
    { cbn [pieces forallb]. now rewrite Hodd. }
    cbn [String.length] in Hn. cbn [pieces].
    destruct (Py_ISSPACE c2) eqn:Hc2.
    { rewrite (space_not_hex _ Hc2). cbn [forallb]. now rewrite Hodd. }
    destruct (hex_value c2) as [bot|] eqn:Eb.
    2:{ destruct (pieces rest2) as [|p ps]; cbn [forallb];
          unfold valid_even_hex at 1; cbn [all_hex]; now rewrite Et, Eb. }
    rewrite (IH rest2) by lia.
    destruct (pieces_cons rest2) as (p & ps & ->).
    cbn [forallb flat_map pair_values].
    rewrite (valid_even_hex_pair _ _ p _ _ Et Eb), Et, Eb.
    destruct (valid_even_hex p && forallb valid_even_hex ps); reflexivity. }
  apply (H (S (String.length s))). lia.
Qed.

(** ** Envelope decoding and decryption *)

Ltac run :=
  unfold logger_error, logger_error_lines, post;
  unfold bind, lift, ret, raise, emit, try_except_ValueError.

Lemma get_ciphertext_ok (text : string) (request : dict) (ct : bytes)
    (t : list event) :
  fromhex text = Some ct -> __get_ciphertext text request t = (Ok ct, t).
Proof.
  intros H. unfold __get_ciphertext, bytes_fromhex. run. now rewrite H.
Qed.

Lemma get_ciphertext_err (text : string) (request : dict) (t : list event) :
  fromhex text = None ->
  __get_ciphertext text request t
  = (Err MalformedEnvelope, t ++ envelope_failure_log text request).
Proof.
  intros H. unfold __get_ciphertext, bytes_fromhex, envelope_failure_log. run.
  rewrite H. simpl. unfold MalformedEnvelope. f_equal.
  now rewrite <- !app_assoc.
Qed.

Lemma AES_new_valid (key : bytes) :
  valid_key key = true -> AES_new key zero_iv = Ok (key, zero_iv).
Proof. unfold AES_new, valid_key. intros ->. reflexivity. Qed.

(** A key of another length is refused by [AES.new], outside the [try]:
    nothing is deciphered and nothing logged. *)
Lemma decrypt_response_bad_key (key ct : bytes) (t : list event) :
  valid_key key = false ->
  decrypt_response key ct t
  = (Err (ValueError
            (String.append "Incorrect AES key length ("
               (String.append (str_of_int (Z.of_nat (List.length key)))
                  " bytes)"))), t).
Proof.
  intros Hk. unfold decrypt_response, AES_new. fold (valid_key key).
  rewrite Hk. reflexivity.
Qed.

Lemma unpad_raises_ValueError (p : bytes) (e : exn) :
  unpad p 16 = Err e -> exists msg, e = ValueError msg.
Proof.
  unfold unpad.
  repeat match goal with
         | |- context [if ?b then _ else _] => destruct b
         end; intros [= <-]; eauto.
Qed.

Lemma decrypt_unpad_raises_ValueError (key ct : bytes) (e : exn) :
  decrypt_unpad key ct = Err e -> exists msg, e = ValueError msg.
Proof.
  unfold decrypt_unpad, cbc_decrypt.
  destruct (negb _).
  - intros [= <-]. eauto.
  - apply unpad_raises_ValueError.
Qed.

Lemma decrypt_response_ok (key ct pt : bytes) (t : list event) :
  valid_key key = true ->
  decrypt_unpad key ct = Ok pt ->
  decrypt_response key ct t = (loads_utf8 pt, t ++ [AESDecrypt key ct]).
Proof.
  intros Hk H. unfold decrypt_response, loads_utf8. run.
  rewrite (AES_new_valid _ Hk). unfold decrypt_unpad in H.
  destruct (cbc_decrypt (key, zero_iv) ct) as [padded|e]; [|discriminate].
  rewrite H. now destruct (decode_utf8 pt).
Qed.

Lemma decrypt_response_err (key ct : bytes) (e : exn) (t : list event) :
  valid_key key = true ->
  decrypt_unpad key ct = Err e ->
  decrypt_response key ct t
  = (Err DecryptionError,
     t ++ AESDecrypt key ct :: decrypt_failure_log key ct).
Proof.
  intros Hk H. destruct (decrypt_unpad_raises_ValueError _ _ _ H) as [msg ->].
  unfold decrypt_response, decrypt_failure_log. run.
  rewrite (AES_new_valid _ Hk). unfold decrypt_unpad in H.
  destruct (cbc_decrypt (key, zero_iv) ct) as [padded|e'].
  - rewrite H. unfold DecryptionError. f_equal.
    now rewrite <- !app_assoc.
  - injection H as ->. unfold DecryptionError. f_equal.
    now rewrite <- !app_assoc.
Qed.

(** ** Padding and CBC round trips *)

Lemma list_eqb_refl (l : bytes) : list_eqb l l = true.
Proof. induction l; simpl; [reflexivity|]. now rewrite Z.eqb_refl. Qed.

Lemma last_app_repeat (m : bytes) (x : Z) (n : nat) :
  (0 < n)%nat -> last (m ++ repeat x n) 0 = x.
Proof.
  destruct n as [|n]; [lia|intros _].
  replace (repeat x (S n)) with (repeat x n ++ [x]).
  - now rewrite app_assoc, last_last.
  - now rewrite <- repeat_cons.
Qed.

Lemma pad_amount (m : bytes) :
  let a := Z.of_nat (List.length m) in
  1 <= 16 - a mod 16 <= 16 /\ (a + (16 - a mod 16)) mod 16 = 0.
Proof.
  intros a. pose proof (Z.mod_pos_bound a 16 ltac:(lia)) as B.
  split; [lia|].
  replace (a + (16 - a mod 16)) with ((a / 16 + 1) * 16)
    by (pose proof (Z.div_mod a 16 ltac:(lia)); lia).
  apply Z_mod_mult.
Qed.

Lemma pad_length (m : bytes) :
  List.length (pad m 16) = (16 * (List.length m / 16 + 1))%nat.
Proof.
  unfold pad. rewrite length_app, repeat_length.
  pose proof (Nat.div_mod_eq (List.length m) 16) as D.
  pose proof (Nat.mod_upper_bound (List.length m) 16 ltac:(lia)) as B.
  assert (E : Z.of_nat (List.length m) mod 16
              = Z.of_nat (List.length m mod 16)%nat)
    by (rewrite Nat2Z.inj_mod; reflexivity).
  rewrite E. lia.
Qed.

Lemma unpad_pad (m : bytes) : unpad (pad m 16) 16 = Ok m.
Proof.
  destruct (pad_amount m) as [Hp Hm]. cbv zeta in Hp, Hm.
  unfold unpad, pad. cbv zeta.
  set (p := 16 - Z.of_nat (List.length m) mod 16) in *.
  rewrite length_app, repeat_length, Nat2Z.inj_add, Z2Nat.id by lia.
  destruct (Z.eqb_spec (Z.of_nat (List.length m) + p) 0) as [E|_]; [lia|].
  rewrite Hm, Z.eqb_refl. cbn [negb].
  rewrite last_app_repeat by lia.
  replace ((p <? 1) || (Z.min 16 (Z.of_nat (List.length m) + p) <? p))
    with false
    by (symmetry; apply orb_false_iff; split; apply Z.ltb_ge; lia).
  replace (Z.to_nat (Z.of_nat (List.length m) + p - p)) with (List.length m)
    by lia.
  rewrite skipn_app, skipn_all, Nat.sub_diag, firstn_app, firstn_all,
    Nat.sub_diag.
  cbn [skipn firstn app]. rewrite list_eqb_refl, app_nil_r. reflexivity.
Qed.

Lemma firstn_block (b rest : bytes) :
  List.length b = 16%nat -> firstn 16 (b ++ rest) = b.
Proof.
  intros <-. rewrite <- (Nat.add_0_r (List.length b)), firstn_app_2.
  cbn [firstn]. apply app_nil_r.
Qed.

Lemma skipn_block (b rest : bytes) :
  List.length b = 16%nat -> skipn 16 (b ++ rest) = rest.
Proof.
  intros <-. now rewrite skipn_app, skipn_all, Nat.sub_diag.
Qed.

Section RoundTrip.

Variable key : bytes.
Hypothesis enc_length :
  forall b, List.length b = 16%nat ->
            List.length (aes_encrypt_block key b) = 16%nat.
Hypothesis dec_enc :
  forall b, List.length b = 16%nat ->
            aes_decrypt_block key (aes_encrypt_block key b) = b.

Lemma cbc_encrypt_blocks_length (n : nat) (prev data : bytes) :
  List.length prev = 16%nat -> List.length data = (16 * n)%nat ->
  List.length (cbc_encrypt_blocks aes_encrypt_block n key prev data) = (16 * n)%nat.
Proof.
  revert prev data. induction n as [|n IH]; intros prev data Hp Hd;
    [reflexivity|].
  cbn [cbc_encrypt_blocks]. rewrite length_app.
  assert (Hx : List.length (xor_bytes (firstn 16 data) prev) = 16%nat)
    by (rewrite xor_bytes_length, length_firstn; lia).
  rewrite enc_length by exact Hx.
  rewrite IH; [lia| now apply enc_length |rewrite length_skipn; lia].
Qed.

Lemma cbc_blocks_round_trip (n : nat) (prev data : bytes) :
  List.length prev = 16%nat -> List.length data = (16 * n)%nat ->
  cbc_decrypt_blocks n key prev (cbc_encrypt_blocks aes_encrypt_block n key prev data) = data.
Proof.
  revert prev data. induction n as [|n IH]; intros prev data Hp Hd.
  - destruct data; [reflexivity|discriminate].
  - cbn [cbc_encrypt_blocks cbc_decrypt_blocks].
    assert (Hx : List.length (xor_bytes (firstn 16 data) prev) = 16%nat)
      by (rewrite xor_bytes_length, length_firstn; lia).
    pose proof (enc_length _ Hx) as He.
    rewrite (firstn_block _ _ He), (skipn_block _ _ He).
    rewrite dec_enc by exact Hx.
    rewrite xor_bytes_cancel by (rewrite length_firstn; lia).
    rewrite IH; [apply firstn_skipn| exact He |rewrite length_skipn; lia].
Qed.

Lemma decrypt_unpad_round_trip (m : bytes) :
  decrypt_unpad key (cbc_encrypt aes_encrypt_block key zero_iv (pad m 16)) = Ok m.
Proof.
  pose proof (pad_length m) as L.
  set (n := (List.length m / 16 + 1)%nat) in *.
  assert (Hn : (List.length (pad m 16) / 16 = n)%nat)
    by (rewrite L, Nat.mul_comm; apply Nat.div_mul; lia).
  assert (Hc : List.length (cbc_encrypt aes_encrypt_block key zero_iv (pad m 16)) = (16 * n)%nat).
  { unfold cbc_encrypt. rewrite Hn.
    apply cbc_encrypt_blocks_length; [reflexivity|exact L]. }
  unfold decrypt_unpad, cbc_decrypt. rewrite Hc.
  replace (Z.of_nat (16 * n) mod 16) with 0
    by (rewrite Nat2Z.inj_mul, Z.mul_comm, Z_mod_mult; reflexivity).
  rewrite Z.eqb_refl. cbn [negb].
  replace (16 * n / 16)%nat with n
    by (rewrite Nat.mul_comm; symmetry; apply Nat.div_mul; lia).
  unfold cbc_encrypt. rewrite Hn. cbn [fst snd].
  rewrite cbc_blocks_round_trip; [apply unpad_pad|reflexivity|exact L].
Qed.

End RoundTrip.

(** ** The handshake *)

Lemma append_empty_r (s : string) : String.append s EmptyString = s.
Proof. induction s as [|c s IH]; simpl; [reflexivity|now rewrite IH]. Qed.

Lemma nonce_base_template (d : Device) (random_value : Z) :
  nonce_base d "1" random_value = Ok (nonce_template d random_value).
Proof.
  unfold nonce_base, nonce_template, format.
  cbn [format_from Ascii.eqb Bool.eqb String.eqb String.append find fst snd].
  now rewrite append_empty_r.
Qed.

Lemma decrypt_response_trace (key ct : bytes) (t : list event) :
  exists r t1, decrypt_response key ct t = (r, t ++ t1).
Proof.
  destruct (valid_key key) eqn:Hk.
  - destruct (decrypt_unpad key ct) as [pt|e] eqn:Hd.
    + rewrite (decrypt_response_ok _ _ _ _ Hk Hd). eauto.
    + rewrite (decrypt_response_err _ _ _ _ Hk Hd). eauto.
  - rewrite (decrypt_response_bad_key _ _ _ Hk).
    eexists _, []. now rewrite app_nil_r.
Qed.

Lemma get_ciphertext_trace (text : string) (request : dict) (t : list event) :
  exists r t1, __get_ciphertext text request t = (r, t ++ t1).
Proof.
  destruct (fromhex text) as [ct|] eqn:H.
  - rewrite (get_ciphertext_ok _ _ _ _ H). exists (Ok ct), []. now rewrite app_nil_r.
  - rewrite (get_ciphertext_err _ _ _ H). eauto.
Qed.

Lemma derive_from_config_trace (d : Device) (cfg : json) (t : list event) :
  snd (derive_from_config d cfg t) = t.
Proof.
  unfold derive_from_config. run.
  repeat match goal with
         | |- context [match ?x with Ok _ => _ | Err _ => _ end] => destruct x
         end; reflexivity.
Qed.

Lemma get_session_key_steps (d : Device) (random_value : Z) (t : list event) :
  get_session_key d random_value t
  = (resp <- post config_url (handshake_request d random_value) ;;
     ciphertext <- __get_ciphertext (text resp)
                     (handshake_payload d "1" random_value
                        (MD5.hexdigest
                           (encode_utf8 (nonce_template d random_value)))) ;;
     config_dict <- decrypt_response (device_key d) ciphertext ;;
     derive_from_config d config_dict) t.
Proof.
  unfold get_session_key, bind at 1, lift at 1.
  now rewrite nonce_base_template.
Qed.

Lemma get_session_key_value (d : Device) (random_value : Z) (resp : response)
    (ct pt sk : bytes) (cfg kid : json) (key_text : string) (t : list event) :
  session_post config_url (handshake_request d random_value) = Ok resp ->
  fromhex (text resp) = Some ct ->
  valid_key (device_key d) = true ->
  decrypt_unpad (device_key d) ct = Ok pt ->
  loads_utf8 pt = Ok cfg ->
  getitem cfg "key" = Ok (JStr key_text) ->
  fromhex key_text = Some sk ->
  getitem cfg "key_id" = Ok kid ->
  is_bytes (device_key d) = true ->
  get_session_key d random_value t
  = (Ok (xor_bytes (device_key d) sk, kid),
     t ++ [Post config_url (handshake_request d random_value);
           AESDecrypt (device_key d) ct]).
Proof.
  intros Hpost Hhex Hk Hd Hl Hkey Hsk Hkid Hb.
  rewrite get_session_key_steps.
  unfold bind at 1, post, bind at 1, emit, lift at 1. rewrite Hpost.
  unfold bind at 1. rewrite (get_ciphertext_ok _ _ _ _ Hhex).
  unfold bind at 1. rewrite (decrypt_response_ok _ _ _ _ Hk Hd), Hl.
  unfold derive_from_config. run. rewrite Hkey. cbn [as_str].
  unfold bytes_fromhex. rewrite Hsk.
  rewrite (derive_session_key_xor _ _ Hb (fromhex_is_bytes _ _ Hsk)), Hkid.
  now rewrite <- app_assoc.
Qed.

(** C1. The session key the handshake returns is the byte-wise XOR of the
    device key and the hex-decoded server key material of the same length:
    it has their length and byte [i] is the XOR of the two bytes at [i].
    A device key of 16 zero bytes and a server key of 16 bytes 0xff give
    16 bytes 0xff. *)
Theorem session_key_is_xor (d : Device) (random_value : Z) (resp : response)
    (ct pt sk : bytes) (cfg kid : json) (key_text : string) (t : list event) :
  session_post config_url (handshake_request d random_value) = Ok resp ->
  fromhex (text resp) = Some ct ->
  valid_key (device_key d) = true ->
  decrypt_unpad (device_key d) ct = Ok pt ->
  loads_utf8 pt = Ok cfg ->
  getitem cfg "key" = Ok (JStr key_text) ->
  fromhex key_text = Some sk ->
  getitem cfg "key_id" = Ok kid ->
  is_bytes (device_key d) = true ->
  List.length sk = List.length (device_key d) ->
  fst (get_session_key d random_value t) = Ok (xor_bytes (device_key d) sk, kid)
  /\ derive_session_key (device_key d) sk = Ok (xor_bytes (device_key d) sk)
  /\ List.length (xor_bytes (device_key d) sk) = List.length (device_key d)
  /\ (forall i, (i < List.length (device_key d))%nat ->
        nth i (xor_bytes (device_key d) sk) 0
        = Z.lxor (nth i (device_key d) 0) (nth i sk 0))
  /\ derive_session_key (repeat 0 16) (repeat 255 16) = Ok (repeat 255 16).
Proof.
  intros Hpost Hhex Hk Hd Hl Hkey Hsk Hkid Hb Hlen.
  rewrite (get_session_key_value _ _ _ _ _ _ _ _ _ t
             Hpost Hhex Hk Hd Hl Hkey Hsk Hkid Hb).
  split; [reflexivity|].
  split; [apply derive_session_key_xor;
          [exact Hb|exact (fromhex_is_bytes _ _ Hsk)]|].
  split; [now rewrite xor_bytes_length, Hlen, Nat.min_id|].
  split; [|reflexivity].
  intros i Hi. apply xor_bytes_nth. rewrite Hlen, Nat.min_id. exact Hi.
Qed.

(** C10. Whatever the two lengths, the derivation succeeds and the session
    key has the length of the shorter input: it is the XOR of the two
    common prefixes, and the handshake returns it without an error. *)
Theorem session_key_truncates (d : Device) (random_value : Z) (resp : response)
    (ct pt sk : bytes) (cfg kid : json) (key_text : string) (t : list event) :
  session_post config_url (handshake_request d random_value) = Ok resp ->
  fromhex (text resp) = Some ct ->
  valid_key (device_key d) = true ->
  decrypt_unpad (device_key d) ct = Ok pt ->
  loads_utf8 pt = Ok cfg ->
  getitem cfg "key" = Ok (JStr key_text) ->
  fromhex key_text = Some sk ->
  getitem cfg "key_id" = Ok kid ->
  is_bytes (device_key d) = true ->
  let m := Nat.min (List.length (device_key d)) (List.length sk) in
  exists key,
    derive_session_key (device_key d) sk = Ok key
    /\ fst (get_session_key d random_value t) = Ok (key, kid)
    /\ List.length key = m
    /\ key = xor_bytes (firstn m (device_key d)) (firstn m sk).
Proof.
  intros Hpost Hhex Hk Hd Hl Hkey Hsk Hkid Hb m.
  exists (xor_bytes (device_key d) sk).
  rewrite (get_session_key_value _ _ _ _ _ _ _ _ _ t
             Hpost Hhex Hk Hd Hl Hkey Hsk Hkid Hb).
  repeat split.
  - apply derive_session_key_xor; [exact Hb|exact (fromhex_is_bytes _ _ Hsk)].
  - apply xor_bytes_length.
  - apply xor_bytes_firstn.
Qed.

(** C9. The derivation is commutative in its two key arguments, for
    equal-length byte arrays and for any other pair. *)
Theorem derive_session_key_comm (a b : bytes) :
  derive_session_key a b = derive_session_key b a.
Proof. unfold derive_session_key. apply derive_loop_comm. Qed.

(** C2. The nonce of the handshake is the MD5 hex digest of the UTF-8
    encoding of [{hex(device_key)},{device_code},1,{R}]: the text the
    client formats is that template, and the request it posts first
    carries the digest as [encrypted_nonce]. For device code 830, a device
    key of 16 zero bytes and R = 500000 the nonce is the digest of
    [00000000000000000000000000000000,830,1,500000]. *)
Theorem nonce_is_md5_of_template (d : Device) (random_value : Z)
    (t : list event) :
  nonce_base d "1" random_value = Ok (nonce_template d random_value)
  /\ (exists r t1,
        get_session_key d random_value t
        = (r, t ++ Post config_url
                     (FormData
                        (handshake_payload d "1" random_value
                           (MD5.hexdigest
                              (encode_utf8 (nonce_template d random_value)))))
                :: t1))
  /\ dict_get "encrypted_nonce"
       (handshake_payload d "1" random_value
          (MD5.hexdigest (encode_utf8 (nonce_template d random_value))))
     = Some (JStr (MD5.hexdigest (encode_utf8 (nonce_template d random_value))))
  /\ nonce_template {| device_code := "830"; device_key := repeat 0 16 |} 500000
     = "00000000000000000000000000000000,830,1,500000"
  /\ MD5.hexdigest
       (encode_utf8
          (nonce_template {| device_code := "830"; device_key := repeat 0 16 |}
             500000))
     = "4db89dc6d802b91b9e0aa8fa9446893c".
Proof.
  split; [apply nonce_base_template|].
  split.
  - rewrite get_session_key_steps.
    unfold bind at 1, post, bind at 1, emit, lift at 1.
    fold (handshake_request d random_value).
    destruct (session_post config_url (handshake_request d random_value))
      as [resp|e].
    + unfold bind at 1.
      destruct (get_ciphertext_trace (text resp)
                  (handshake_payload d "1" random_value
                     (MD5.hexdigest (encode_utf8 (nonce_template d random_value))))
                  (t ++ [Post config_url (handshake_request d random_value)]))
        as (r1 & t1 & E1).
      rewrite E1. destruct r1 as [ct|e].
      * unfold bind at 1.
        destruct (decrypt_response_trace (device_key d) ct
                    ((t ++ [Post config_url (handshake_request d random_value)])
                       ++ t1)) as (r2 & t2 & E2).
        rewrite E2. destruct r2 as [cfg|e].
        -- pose proof (derive_from_config_trace d cfg
                         (((t ++ [Post config_url (handshake_request d random_value)])
                             ++ t1) ++ t2)) as E3.
           destruct (derive_from_config d cfg _) as [r3 t3]. cbn [snd] in E3.
           subst t3. exists r3, (t1 ++ t2).
           now rewrite <- !app_assoc.
        -- exists (Err e), (t1 ++ t2). now rewrite <- !app_assoc.
      * exists (Err e), t1. now rewrite <- !app_assoc.
    + exists (Err e), []. reflexivity.
  - split; [reflexivity|]. split; vm_compute; reflexivity.
Qed.

(** ** Playlist requests *)

Lemma deep_merge_flat (over : json) (bv : json) :
  is_obj bv = false -> deep_merge over bv = over.
Proof. destruct over, bv; try reflexivity; discriminate. Qed.

Lemma deep_merge_is_update (extra base : dict) :
  (forall k v, dict_get k base = Some v -> is_obj v = false) ->
  deep_merge (JObj extra) (JObj base) = JObj (dict_update base extra).
Proof.
  intros Hflat. cbn [deep_merge]. f_equal. unfold dict_update.
  generalize base at 2 3 as acc.
  induction extra as [|[k v] tl IH]; intros acc; [reflexivity|].
  cbn [fold_left fst snd]. rewrite <- IH. f_equal. f_equal.
  destruct (dict_get k base) as [bv|] eqn:E; [|reflexivity].
  apply deep_merge_flat. exact (Hflat _ _ E).
Qed.

Lemma playlist_defaults_flat (c : HuluClient) (video_id : string) (n rv : Z) :
  is_obj (server_key c) = false ->
  forall k v, dict_get k (playlist_defaults c video_id n rv) = Some v ->
              is_obj v = false.
Proof.
  intros Hkv k v. unfold playlist_defaults. cbn [dict_get].
  repeat match goal with
         | |- context [if ?b then _ else _] => destruct b
         end; intros [= <-]; try reflexivity; exact Hkv.
Qed.

Lemma load_playlist_steps (c : HuluClient) (video_id : string) (n rv : Z)
    (t : list event) :
  int_of_str (device_code (device c)) = Ok n ->
  load_playlist c video_id rv t
  = (resp <- post playlist_url (JsonBody (JObj (playlist_request c video_id n rv))) ;;
     ciphertext <- __get_ciphertext (text resp) (playlist_request c video_id n rv) ;;
     decrypt_response (session_key c) ciphertext) t.
Proof.
  intros Hn. unfold load_playlist, playlist_params, bind at 1, lift at 1.
  now rewrite Hn.
Qed.

Lemma load_playlist_after_post (c : HuluClient) (video_id : string) (n rv : Z)
    (resp : response) (t : list event) :
  int_of_str (device_code (device c)) = Ok n ->
  session_post playlist_url (JsonBody (JObj (playlist_request c video_id n rv)))
  = Ok resp ->
  load_playlist c video_id rv t
  = (ciphertext <- __get_ciphertext (text resp) (playlist_request c video_id n rv) ;;
     decrypt_response (session_key c) ciphertext)
      (t ++ [Post playlist_url (JsonBody (JObj (playlist_request c video_id n rv)))]).
Proof.
  intros Hn Hpost. rewrite (load_playlist_steps _ _ _ _ _ Hn).
  unfold bind at 1, post, bind at 1, emit, lift at 1. now rewrite Hpost.
Qed.

Lemma load_playlist_trace (c : HuluClient) (video_id : string) (n rv : Z)
    (t : list event) :
  int_of_str (device_code (device c)) = Ok n ->
  exists r t1,
    load_playlist c video_id rv t
    = (r, t ++ Post playlist_url
                 (JsonBody (JObj (playlist_request c video_id n rv))) :: t1).
Proof.
  intros Hn. rewrite (load_playlist_steps _ _ _ _ _ Hn).
  set (rq := playlist_request c video_id n rv).
  unfold bind at 1, post, bind at 1, emit, lift at 1.
  destruct (session_post playlist_url (JsonBody (JObj rq))) as [resp|e].
  - unfold bind.
    destruct (get_ciphertext_trace (text resp) rq
                (t ++ [Post playlist_url (JsonBody (JObj rq))]))
      as (r1 & t1 & E1).
    rewrite E1. destruct r1 as [ct|e].
    + destruct (decrypt_response_trace (session_key c) ct
                  ((t ++ [Post playlist_url (JsonBody (JObj rq))]) ++ t1))
        as (r2 & t2 & E2).
      rewrite E2. exists r2, (t1 ++ t2). now rewrite <- !app_assoc.
    + exists (Err e), t1. now rewrite <- !app_assoc.
  - exists (Err e), []. reflexivity.
Qed.

(** C5. The request of the legacy playlist path is the default mapping
    with the extra parameters merged over it; a deep merge gives the same,
    the defaults holding no nested mapping. With the extra parameters of
    [hulu.py] the audio codec candidates are [AAC] alone when [force_2ch]
    is set, and [AAC] and [EC3] when it is not. *)
Theorem legacy_payload_merges_extra (c : HuluClient) (video_id : string)
    (n rv : Z) (t : list event) :
  int_of_str (device_code (device c)) = Ok n ->
  is_obj (server_key c) = false ->
  playlist_params c video_id rv = Ok (playlist_request c video_id n rv)
  /\ JObj (playlist_request c video_id n rv)
     = deep_merge (JObj (extra_playlist_params c))
         (JObj (playlist_defaults c video_id n rv))
  /\ (exists r t1,
        load_playlist c video_id rv t
        = (r, t ++ Post playlist_url
                     (JsonBody (JObj (playlist_request c video_id n rv))) :: t1))
  /\ (forall force_2ch,
        extra_playlist_params c = chrome_extra_playlist_params force_2ch ->
        get_path ["playback"; "audio"; "codecs"; "values"]
          (JObj (playlist_request c video_id n rv))
        = Some (JArr (audio_codecs force_2ch)))
  /\ codec_types (JArr (audio_codecs true)) = [Some "AAC"]
  /\ ~ In (Some "EC3") (codec_types (JArr (audio_codecs true)))
  /\ In (Some "AAC") (codec_types (JArr (audio_codecs false)))
  /\ In (Some "EC3") (codec_types (JArr (audio_codecs false))).
Proof.
  intros Hn Hkv. split; [unfold playlist_params; now rewrite Hn|].
  split.
  { unfold playlist_request. symmetry. apply deep_merge_is_update.
    now apply playlist_defaults_flat. }
  split; [now apply load_playlist_trace|].
  split.
  { intros f Hextra. unfold playlist_request. rewrite Hextra.
    destruct f; vm_compute; reflexivity. }
  split; [reflexivity|].
  split.
  { cbn. intros [H|[]]. discriminate. }
  split; cbn; auto.
Qed.

Lemma playlist_six_params_ok (c : HuluClient) (video_id : string)
    (device_id : Z) (hdr hevc : bool) (rv_hevc rv_avc : Z) :
  exists params,
    playlist_six_params c video_id device_id hdr hevc rv_hevc rv_avc = Ok params.
Proof. destruct hdr, hevc; vm_compute; eauto. Qed.

(** C6. In the request of [load_playlist_six]: with [hdr] set the video
    block holds [dynamic_range = DOLBY_VISION] and the DRM block
    [multi_key = true]; with [hevc] unset the one video codec is
    [H264] with profile [HIGH]; with [hdr] unset neither [dynamic_range]
    nor [multi_key] is there. *)
Theorem six_request_blocks (c : HuluClient) (video_id : string)
    (device_id rv_hevc rv_avc : Z) :
  (forall hevc,
     six_field ["playback"; "video"; "dynamic_range"]
       c video_id device_id true hevc rv_hevc rv_avc
     = Ok (Some (JStr "DOLBY_VISION"))
     /\ six_field ["playback"; "drm"; "multi_key"]
          c video_id device_id true hevc rv_hevc rv_avc
        = Ok (Some (JBool true)))
  /\ (forall hdr,
        six_field ["playback"; "video"; "codecs"; "values"]
          c video_id device_id hdr false rv_hevc rv_avc
        = Ok (Some (JArr [avc_codec])))
  /\ getitem avc_codec "type" = Ok (JStr "H264")
  /\ getitem avc_codec "profile" = Ok (JStr "HIGH")
  /\ (forall hevc,
        six_field ["playback"; "video"; "dynamic_range"]
          c video_id device_id false hevc rv_hevc rv_avc
        = Ok None
        /\ six_field ["playback"; "drm"; "multi_key"]
             c video_id device_id false hevc rv_hevc rv_avc
           = Ok None)
  /\ (forall hdr hevc t,
        exists params r,
          playlist_six_params c video_id device_id hdr hevc rv_hevc rv_avc
          = Ok params
          /\ load_playlist_six c video_id device_id hdr hevc rv_hevc rv_avc t
             = (r, t ++ [Post playlist_six_url (JsonBody params)])).
Proof.
  split; [intros []; split; vm_compute; reflexivity|].
  split; [intros []; vm_compute; reflexivity|].
  split; [reflexivity|]. split; [reflexivity|].
  split; [intros []; split; vm_compute; reflexivity|].
  intros hdr hevc t.
  destruct (playlist_six_params_ok c video_id device_id hdr hevc rv_hevc rv_avc)
    as [params Hp].
  exists params. unfold load_playlist_six. run. rewrite Hp.
  destruct (session_post playlist_six_url (JsonBody params)) as [resp|e];
    [destruct (raise_for_status resp)|]; eauto.
Qed.

Lemma load_playlist_six_after_post (c : HuluClient) (video_id : string)
    (device_id : Z) (hdr hevc : bool) (rv_hevc rv_avc : Z) (params : json)
    (resp : response) (t : list event) :
  playlist_six_params c video_id device_id hdr hevc rv_hevc rv_avc = Ok params ->
  session_post playlist_six_url (JsonBody params) = Ok resp ->
  load_playlist_six c video_id device_id hdr hevc rv_hevc rv_avc t
  = (match raise_for_status resp with
     | Ok _ => json_loads (text resp)
     | Err e => Err e
     end, t ++ [Post playlist_six_url (JsonBody params)]).
Proof.
  intros Hp Hpost. unfold load_playlist_six. run. rewrite Hp, Hpost.
  now destruct (raise_for_status resp).
Qed.

(** The versioned path turns a status from 400 to 599 into [RequestFailed]
    with the status and the body; nothing is parsed. *)
Lemma load_playlist_six_request_failed (c : HuluClient) (video_id : string)
    (device_id : Z) (hdr hevc : bool) (rv_hevc rv_avc : Z) (params : json)
    (resp : response) (t : list event) :
  playlist_six_params c video_id device_id hdr hevc rv_hevc rv_avc = Ok params ->
  session_post playlist_six_url (JsonBody params) = Ok resp ->
  400 <= status_code resp < 600 ->
  load_playlist_six c video_id device_id hdr hevc rv_hevc rv_avc t
  = (Err (RequestFailed (status_code resp) (text resp)),
     t ++ [Post playlist_six_url (JsonBody params)]).
Proof.
  intros Hp Hpost Hs.
  rewrite (load_playlist_six_after_post _ _ _ _ _ _ _ _ _ _ Hp Hpost).
  unfold raise_for_status.
  replace ((400 <=? status_code resp) && (status_code resp <? 600)) with true
    by (symmetry; apply andb_true_iff; split; [apply Z.leb_le|apply Z.ltb_lt]; lia).
  reflexivity.
Qed.

(** C8. The legacy path hex-decodes the response body and decrypts the
    envelope with the session key, then parses the plaintext; the
    versioned path parses the response body as it is, and its trace holds
    the request alone: no decryption takes place. *)
Theorem legacy_decrypts_six_parses (c : HuluClient) (video_id : string)
    (n rv : Z) (resp : response) (ct pt : bytes)
    (device_id : Z) (hdr hevc : bool) (rv_hevc rv_avc : Z) (params6 : json)
    (resp6 : response) (t : list event) :
  int_of_str (device_code (device c)) = Ok n ->
  session_post playlist_url (JsonBody (JObj (playlist_request c video_id n rv)))
  = Ok resp ->
  fromhex (text resp) = Some ct ->
  valid_key (session_key c) = true ->
  decrypt_unpad (session_key c) ct = Ok pt ->
  playlist_six_params c video_id device_id hdr hevc rv_hevc rv_avc = Ok params6 ->
  session_post playlist_six_url (JsonBody params6) = Ok resp6 ->
  raise_for_status resp6 = Ok tt ->
  load_playlist c video_id rv t
  = (loads_utf8 pt,
     t ++ [Post playlist_url (JsonBody (JObj (playlist_request c video_id n rv)));
           AESDecrypt (session_key c) ct])
  /\ load_playlist_six c video_id device_id hdr hevc rv_hevc rv_avc t
     = (json_loads (text resp6), t ++ [Post playlist_six_url (JsonBody params6)])
  /\ filter is_decrypt
       (snd (load_playlist_six c video_id device_id hdr hevc rv_hevc rv_avc t))
     = filter is_decrypt t.
Proof.
  intros Hn Hpost Hhex Hk Hd Hp6 Hpost6 Hst.
  assert (E6 : load_playlist_six c video_id device_id hdr hevc rv_hevc rv_avc t
               = (json_loads (text resp6),
                  t ++ [Post playlist_six_url (JsonBody params6)])).
  { rewrite (load_playlist_six_after_post _ _ _ _ _ _ _ _ _ _ Hp6 Hpost6).
    now rewrite Hst. }
  split; [|split; [exact E6|]].
  - rewrite (load_playlist_after_post _ _ _ _ _ _ Hn Hpost).
    unfold bind. rewrite (get_ciphertext_ok _ _ _ _ Hhex).
    rewrite (decrypt_response_ok _ _ _ _ Hk Hd). now rewrite <- app_assoc.
  - rewrite E6. cbn [snd]. rewrite filter_app. cbn. apply app_nil_r.
Qed.

(** C3, amended. [__get_ciphertext] accepts a response text exactly when
    each of its pieces between ASCII whitespace characters is valid
    even-length hex, a text without whitespace being its own single piece;
    it then returns the bytes of the pairs in order and logs nothing.
    Every other text makes it raise [MalformedEnvelope], and the legacy
    playlist path raises it with no decryption in its trace. *)
Theorem malformed_envelope_rejected (c : HuluClient) (video_id : string)
    (n rv : Z) (resp : response) (t : list event) :
  int_of_str (device_code (device c)) = Ok n ->
  session_post playlist_url (JsonBody (JObj (playlist_request c video_id n rv)))
  = Ok resp ->
  (has_space (text resp) = false -> pieces (text resp) = [text resp])
  /\ (forallb valid_even_hex (pieces (text resp)) = true ->
      forall request t0,
        __get_ciphertext (text resp) request t0
        = (Ok (flat_map pair_values (pieces (text resp))), t0))
  /\ (forallb valid_even_hex (pieces (text resp)) = false ->
      (forall request t0,
          __get_ciphertext (text resp) request t0
          = (Err MalformedEnvelope,
             t0 ++ envelope_failure_log (text resp) request))
      /\ fst (load_playlist c video_id rv t) = Err MalformedEnvelope
      /\ filter is_decrypt (snd (load_playlist c video_id rv t))
         = filter is_decrypt t).
Proof.
  intros Hn Hpost.
  split; [apply pieces_no_space|]. split.
  { intros Hok request t0. apply get_ciphertext_ok.
    now rewrite fromhex_pieces, Hok. }
  intros Hbad.
  assert (Hhex : fromhex (text resp) = None)
    by now rewrite fromhex_pieces, Hbad.
  split; [intros; now apply get_ciphertext_err|].
  rewrite (load_playlist_after_post _ _ _ _ _ _ Hn Hpost).
  unfold bind. rewrite (get_ciphertext_err _ _ _ Hhex). cbn [fst snd].
  split; [reflexivity|].
  rewrite !filter_app. unfold envelope_failure_log. cbn [filter is_decrypt app].
  rewrite !filter_app. cbn [filter is_decrypt app].
  assert (F : forall l, filter is_decrypt (map LogError l) = [])
    by (induction l; [reflexivity|assumption]).
  now rewrite !F, !app_nil_r.
Qed.

(** C4. [decrypt_response] undoes CBC encryption under the all-zero IV
    followed by block padding; when decryption and padding removal yield a
    plaintext it is parsed, and when they fail the base64 text of the
    ciphertext and of the key is logged and [DecryptionError] raised. *)
Theorem decrypt_response_cbc_zero_iv (key ct : bytes) (t : list event) :
  valid_key key = true ->
  (forall b, List.length b = 16%nat ->
             List.length (aes_encrypt_block key b) = 16%nat) ->
  (forall b, List.length b = 16%nat ->
             aes_decrypt_block key (aes_encrypt_block key b) = b) ->
  (forall m,
      decrypt_response key (cbc_encrypt aes_encrypt_block key zero_iv (pad m 16)) t
      = (loads_utf8 m,
         t ++ [AESDecrypt key (cbc_encrypt aes_encrypt_block key zero_iv (pad m 16))]))
  /\ (forall pt,
        decrypt_unpad key ct = Ok pt ->
        decrypt_response key ct t = (loads_utf8 pt, t ++ [AESDecrypt key ct]))
  /\ (forall e,
        decrypt_unpad key ct = Err e ->
        decrypt_response key ct t
        = (Err DecryptionError,
           t ++ [AESDecrypt key ct;
                 LogError "Error decrypting response";
                 LogError "Ciphertext:";
                 LogError (b64encode ct);
                 LogError (String.append "Tried decrypting with key "
                             (b64encode key))])).
Proof.
  intros Hk Hlen Hinv. repeat split.
  - intros m. apply decrypt_response_ok; [exact Hk|].
    now apply decrypt_unpad_round_trip.
  - intros pt. now apply decrypt_response_ok.
  - intros e He. now rewrite (decrypt_response_err _ _ _ _ Hk He).
Qed.

(** ** Dicts: lookup after assignment and update *)

Ltac or_cases :=
  let H := fresh in
  split; intros H; repeat (destruct H as [H|H]); subst; cbn [In]; auto 8.

Lemma dict_get_set (k k0 : string) (v0 : json) (d : dict) :
  dict_get k (dict_set k0 v0 d)
  = if String.eqb k k0 then Some v0 else dict_get k d.
Proof.
  induction d as [|[k' v'] tl IH]; cbn [dict_set dict_get].
  - reflexivity.
  - destruct (String.eqb k0 k') eqn:E0; cbn [dict_get].
    + apply String.eqb_eq in E0. subst k'.
      destruct (String.eqb k k0); reflexivity.
    + destruct (String.eqb k k') eqn:E1.
      * apply String.eqb_eq in E1. subst k'.
        rewrite String.eqb_sym in E0. now rewrite E0.
      * exact IH.
Qed.

Lemma dict_get_app (k : string) (a b : dict) :
  dict_get k (a ++ b)
  = match dict_get k a with Some v => Some v | None => dict_get k b end.
Proof.
  induction a as [|[k' v'] tl IH]; cbn [app dict_get]; [reflexivity|].
  destruct (String.eqb k k'); [reflexivity|exact IH].
Qed.

Lemma dict_get_update (k : string) (e d : dict) :
  dict_get k (dict_update d e)
  = match dict_get k (rev e) with
    | Some v => Some v
    | None => dict_get k d
    end.
Proof.
  unfold dict_update. revert d.
  induction e as [|[k0 v0] tl IH]; intros d; cbn [fold_left rev fst snd].
  - reflexivity.
  - rewrite IH, dict_get_app, dict_get_set. cbn [dict_get].
    destruct (dict_get k (rev tl)); [reflexivity|].
    destruct (String.eqb k k0); reflexivity.
Qed.

Lemma dict_set_keys_in (k k' : string) (v : json) (d : dict) :
  In k' (map fst (dict_set k v d)) <-> k' = k \/ In k' (map fst d).
Proof using.
  induction d as [|[k0 v0] tl IH]; cbn [dict_set map fst In].
  - or_cases.
  - destruct (String.eqb k k0) eqn:E; cbn [map fst In].
    + apply String.eqb_eq in E. subst k0. or_cases.
    + rewrite IH. or_cases.
Qed.

Lemma dict_set_keys_NoDup (k : string) (v : json) (d : dict) :
  NoDup (map fst d) -> NoDup (map fst (dict_set k v d)).
Proof using.
  induction d as [|[k0 v0] tl IH]; cbn [dict_set map fst]; intros H.
  - constructor; [intros []|constructor].
  - inversion H as [|? ? Hnot Htl]; subst.
    destruct (String.eqb k k0) eqn:E; cbn [map fst].
    + apply String.eqb_eq in E. subst k0. now constructor.
    + constructor; [|now apply IH].
      rewrite dict_set_keys_in. intros [->|Hin]; [|now apply Hnot].
      now rewrite String.eqb_refl in E.
Qed.

Lemma dict_set_keys_extend (k : string) (v : json) (d : dict) :
  exists l, map fst (dict_set k v d) = map fst d ++ l.
Proof.
  induction d as [|[k0 v0] tl [l IH]]; cbn [dict_set map fst].
  - now exists [k].
  - destruct (String.eqb k k0) eqn:E; cbn [map fst].
    + apply String.eqb_eq in E. subst k0. exists []. now rewrite app_nil_r.
    + exists l. now rewrite IH.
Qed.

Lemma dict_update_keys (e d : dict) :
  (exists l, map fst (dict_update d e) = map fst d ++ l)
  /\ (NoDup (map fst d) -> NoDup (map fst (dict_update d e))).
Proof using.
  unfold dict_update. revert d.
  induction e as [|[k0 v0] tl IH]; intros d; cbn [fold_left fst snd].
  - split; [exists []; now rewrite app_nil_r|auto].
  - destruct (IH (dict_set k0 v0 d)) as [[l Hl] Hn].
    destruct (dict_set_keys_extend k0 v0 d) as [l0 Hl0].
    split.
    + exists (l0 ++ l). now rewrite Hl, Hl0, app_assoc.
    + intros H. apply Hn. now apply dict_set_keys_NoDup.
Qed.

(** X1. In the request of the legacy playlist path an extra parameter
    replaces the default of the same name (the last one given, should the
    mapping name a key twice), and every default the extra parameters do
    not name is sent as it is; [kv] and [rv] are no exception. *)
Theorem playlist_request_lookup (c : HuluClient) (video_id : string)
    (n rv : Z) (k : string) :
  dict_get k (playlist_request c video_id n rv)
  = match dict_get k (rev (extra_playlist_params c)) with
    | Some v => Some v
    | None => dict_get k (playlist_defaults c video_id n rv)
    end.
Proof. unfold playlist_request. apply dict_get_update. Qed.

(** X2. Whatever the extra parameters, the request of the legacy playlist
    path names no key twice, and it starts with the six default keys in
    their order: an overriding parameter takes the place of the default,
    a new one goes after them. *)
Theorem playlist_request_keys (c : HuluClient) (video_id : string) (n rv : Z) :
  NoDup (map fst (playlist_request c video_id n rv))
  /\ exists added,
       map fst (playlist_request c video_id n rv)
       = ["device_identifier"; "deejay_device_id"; "version";
          "content_eab_id"; "rv"; "kv"] ++ added.
Proof using.
  unfold playlist_request.
  destruct (dict_update_keys (extra_playlist_params c)
              (playlist_defaults c video_id n rv)) as [[l Hl] Hn].
  split.
  - apply Hn. cbn [playlist_defaults map fst].
    repeat (constructor;
            [cbn [In]; intros H;
             repeat (destruct H as [H|H]; [discriminate H|]); exact H|]).
    constructor.
  - exists l. exact Hl.
Qed.

(** ** Hexadecimal text: round trip and acceptance *)

Lemma hex_digit_value (n : Z) :
  0 <= n < 16 ->
  hex_value (hex_digit n) = Some n /\ Py_ISSPACE (hex_digit n) = false.
Proof.
  intros H.
  rewrite <- (Z2Nat.id n) by lia.
  assert (Hk : (Z.to_nat n < 16)%nat) by lia.
  set (k := Z.to_nat n) in *. clearbody k. clear H.
  do 16 (destruct k as [|k]; [split; reflexivity|]).
  lia.
Qed.

Lemma fromhex_hexlify (b : bytes) :
  is_bytes b = true -> fromhex (hexlify b) = Some b.
Proof.
  induction b as [|x tl IH]; intros Hb; [reflexivity|].
  apply is_bytes_cons in Hb as [Hx Htl]. apply byteb_range in Hx.
  destruct (hex_digit_value (x / 16)) as [Ht Hs];
    [split; [apply Z.div_pos; lia|apply Z.div_lt_upper_bound; lia]|].
  destruct (hex_digit_value (x mod 16)) as [Hbt _];
    [apply Z.mod_pos_bound; lia|].
  cbn [hexlify fromhex]. rewrite Hs, Ht, Hbt, (IH Htl).
  do 2 f_equal. pose proof (Z.div_mod x 16). lia.
Qed.

Lemma hexlify_length (b : bytes) :
  String.length (hexlify b) = (2 * List.length b)%nat.
Proof.
  induction b as [|x tl IH]; [reflexivity|].
  cbn [hexlify String.length List.length]. rewrite IH. lia.
Qed.

Lemma hexlify_all_hex (b : bytes) :
  is_bytes b = true -> all_hex (hexlify b) = true.
Proof.
  induction b as [|x tl IH]; intros Hb; [reflexivity|].
  apply is_bytes_cons in Hb as [Hx Htl]. apply byteb_range in Hx.
  destruct (hex_digit_value (x / 16)) as [Ht _];
    [split; [apply Z.div_pos; lia|apply Z.div_lt_upper_bound; lia]|].
  destruct (hex_digit_value (x mod 16)) as [Hbt _];
    [apply Z.mod_pos_bound; lia|].
  cbn [hexlify all_hex]. rewrite Ht, Hbt. now apply IH.
Qed.

Lemma fromhex_accepts (s : string) :
  has_space s = false -> valid_even_hex s = true ->
  exists ct, fromhex s = Some ct
             /\ List.length ct = (String.length s / 2)%nat.
Proof.
  assert (H : forall n s, (String.length s < n)%nat ->
              has_space s = false -> valid_even_hex s = true ->
              exists ct, fromhex s = Some ct
                         /\ List.length ct = (String.length s / 2)%nat).
  { induction n as [|n IH]; intros s0 Hn Hs Hv; [lia|].
    destruct s0 as [|c rest]; [now exists []|].
    cbn [has_space] in Hs. apply orb_false_iff in Hs as [Hc Hs].
    unfold valid_even_hex in Hv. apply andb_true_iff in Hv as [Ha He].
    cbn [all_hex] in Ha.
    destruct (hex_value c) as [top|] eqn:Et; [|discriminate].
    destruct rest as [|c2 rest2]; [discriminate|].
    cbn [has_space] in Hs. apply orb_false_iff in Hs as [Hc2 Hs].
    cbn [all_hex] in Ha.
    destruct (hex_value c2) as [bot|] eqn:Eb; [|discriminate].
    destruct (IH rest2) as (tl & Htl & Hlen);
      [cbn [String.length] in Hn; lia|exact Hs| |].
    { unfold valid_even_hex. rewrite Ha. exact He. }
    exists (top * 16 + bot :: tl). cbn [fromhex]. rewrite Hc, Et, Eb, Htl.
    split; [reflexivity|]. cbn [List.length String.length]. rewrite Hlen.
    change (S (S (String.length rest2))) with (1 * 2 + String.length rest2)%nat.
    now rewrite Nat.div_add_l by lia. }
  apply (H (S (String.length s))). lia.
Qed.

(** X3. Hex text written by [hexlify] reads back: [__get_ciphertext]
    returns the very bytes and logs nothing, so an envelope or a key dumped
    in hexadecimal is recovered exactly. *)
Theorem hexlify_envelope_round_trip (b : bytes) (request : dict)
    (t : list event) :
  is_bytes b = true ->
  fromhex (hexlify b) = Some b
  /\ __get_ciphertext (hexlify b) request t = (Ok b, t).
Proof.
  intros Hb. pose proof (fromhex_hexlify b Hb) as H.
  split; [exact H|now apply get_ciphertext_ok].
Qed.

(** X4. For a response text without whitespace, [__get_ciphertext] succeeds
    exactly when the text is valid even-length hex; it then returns half as
    many bytes as the text has characters, each below 256, and leaves the
    log alone. *)
Theorem envelope_accepted_iff_valid_hex (text : string) (request : dict)
    (t : list event) :
  has_space text = false ->
  (valid_even_hex text = true ->
   exists ct, __get_ciphertext text request t = (Ok ct, t)
              /\ List.length ct = (String.length text / 2)%nat
              /\ is_bytes ct = true)
  /\ (valid_even_hex text = false ->
      fst (__get_ciphertext text request t) = Err MalformedEnvelope).
Proof.
  intros Hs. split; intros Hv.
  - destruct (fromhex_accepts text Hs Hv) as (ct & Hct & Hlen).
    exists ct. rewrite (get_ciphertext_ok _ _ _ _ Hct).
    repeat split; [exact Hlen|exact (fromhex_is_bytes _ _ Hct)].
  - now rewrite (get_ciphertext_err _ _ _ (fromhex_rejects _ Hs Hv)).
Qed.

(** ** Decryption: block length and padding *)

Lemma list_eqb_eq (a b : bytes) : list_eqb a b = true -> a = b.
Proof.
  revert b. induction a as [|x a IH]; intros [|y b]; cbn [list_eqb];
    try discriminate; [reflexivity|].
  intros H. apply andb_true_iff in H as [Hx Hr].
  apply Z.eqb_eq in Hx. subst y. f_equal. now apply IH.
Qed.

(** X5. With a key the cipher accepts, a ciphertext that is empty or whose
    length is no multiple of 16 ends in [DecryptionError] like a bad
    padding does: the error of the cipher is caught by the same handler,
    and the ciphertext and the key are logged in base64. *)
Theorem decrypt_response_bad_length (key ct : bytes) (t : list event) :
  valid_key key = true ->
  (List.length ct mod 16 <> 0)%nat \/ ct = [] ->
  decrypt_response key ct t
  = (Err DecryptionError,
     t ++ [AESDecrypt key ct;
           LogError "Error decrypting response";
           LogError "Ciphertext:";
           LogError (b64encode ct);
           LogError (String.append "Tried decrypting with key "
                       (b64encode key))]).
Proof.
  intros Hk H.
  assert (E : exists e, decrypt_unpad key ct = Err e).
  { unfold decrypt_unpad, cbc_decrypt. destruct H as [H| ->].
    - assert (Hz : Z.of_nat (List.length ct) mod 16 <> 0).
      { change 16 with (Z.of_nat 16). rewrite <- Nat2Z.inj_mod. lia. }
      apply Z.eqb_neq in Hz. rewrite Hz. cbn [negb]. eauto.
    - cbn. eauto. }
  destruct E as [e He]. now rewrite (decrypt_response_err _ _ _ _ Hk He).
Qed.

(** X6. Padding removal accepts a deciphered buffer only if it is the
    padded form of the plaintext it returns: padding the plaintext again
    gives the buffer back, and the plaintext is 1 to 16 bytes shorter. *)
Theorem unpad_inverts_pad (padded plaintext : bytes) :
  unpad padded 16 = Ok plaintext ->
  pad plaintext 16 = padded
  /\ (List.length plaintext < List.length padded
      <= List.length plaintext + 16)%nat.
Proof.
  unfold unpad. cbv zeta.
  set (L := Z.of_nat (List.length padded)). set (p := last padded 0).
  destruct (L =? 0) eqn:E0; [discriminate|].
  destruct (negb (L mod 16 =? 0)) eqn:E1; [discriminate|].
  destruct ((p <? 1) || (Z.min 16 L <? p)) eqn:E2; [discriminate|].
  destruct (negb (list_eqb (skipn (Z.to_nat (L - p)) padded)
                    (repeat p (Z.to_nat p)))) eqn:E3; [discriminate|].
  intros [= <-].
  apply negb_false_iff in E1, E3. apply Z.eqb_eq in E1.
  apply list_eqb_eq in E3. apply orb_false_iff in E2 as [E2 E2'].
  apply Z.ltb_ge in E2, E2'. apply Z.eqb_neq in E0.
  assert (Hk : List.length (firstn (Z.to_nat (L - p)) padded)
               = Z.to_nat (L - p)) by (rewrite length_firstn; lia).
  assert (Hp : 16 - (L - p) mod 16 = p).
  { pose proof (Z.div_mod L 16 ltac:(lia)) as D. rewrite E1 in D.
    destruct (Z.eq_dec p 16) as [->|Hne].
    - replace (L - 16) with ((L / 16 - 1) * 16) by lia.
      rewrite Z_mod_mult. lia.
    - replace (L - p) with (16 - p + (L / 16 - 1) * 16) by lia.
      rewrite Z_mod_plus_full, Z.mod_small by lia. lia. }
  split.
  - unfold pad. rewrite Hk, Z2Nat.id, Hp, <- E3 by lia. apply firstn_skipn.
  - rewrite Hk. lia.
Qed.

(** ** The nonce *)

Lemma le_bytes_length (n : nat) (w : Z) : List.length (MD5.le_bytes n w) = n.
Proof.
  revert w. induction n as [|n IH]; intros w; cbn [MD5.le_bytes List.length];
    [reflexivity|now rewrite IH].
Qed.

Lemma le_bytes_is_bytes (n : nat) (w : Z) : is_bytes (MD5.le_bytes n w) = true.
Proof.
  revert w. induction n as [|n IH]; intros w; [reflexivity|].
  cbn [MD5.le_bytes]. apply is_bytes_cons. split; [|apply IH].
  apply byteb_range. apply Z.mod_pos_bound. lia.
Qed.

Lemma md5_digest_bytes (msg : bytes) :
  List.length (MD5.digest msg) = 16%nat /\ is_bytes (MD5.digest msg) = true.
Proof.
  unfold MD5.digest.
  destruct (MD5.chunks _ MD5.initial (MD5.padding msg)) as [[[a b] c] d].
  split.
  - now rewrite !length_app, !le_bytes_length.
  - unfold is_bytes. rewrite !forallb_app.
    fold (is_bytes (MD5.le_bytes 4 a)). fold (is_bytes (MD5.le_bytes 4 b)).
    fold (is_bytes (MD5.le_bytes 4 c)). fold (is_bytes (MD5.le_bytes 4 d)).
    now rewrite !le_bytes_is_bytes.
Qed.

(** X7. Whatever the device key, the device code and the random value,
    the nonce sent as [encrypted_nonce] is 32 hexadecimal digits, the hex
    text of a 16-byte digest that [bytes.fromhex] reads back. *)
Theorem handshake_nonce_shape (d : Device) (random_value : Z) :
  exists nonce,
    handshake_request d random_value
    = FormData (handshake_payload d "1" random_value nonce)
    /\ dict_get "encrypted_nonce" (handshake_payload d "1" random_value nonce)
       = Some (JStr nonce)
    /\ String.length nonce = 32%nat
    /\ all_hex nonce = true
    /\ exists digest, fromhex nonce = Some digest
                      /\ List.length digest = 16%nat.
Proof.
  set (msg := encode_utf8 (nonce_template d random_value)).
  destruct (md5_digest_bytes msg) as [Hlen Hb].
  exists (MD5.hexdigest msg). unfold MD5.hexdigest.
  split; [reflexivity|]. split; [reflexivity|].
  split; [now rewrite hexlify_length, Hlen|].
  split; [now apply hexlify_all_hex|].
  exists (MD5.digest msg). split; [now apply fromhex_hexlify|exact Hlen].
Qed.

(** ** From the handshake to the playlist requests *)

Lemma valid_key_length (a b : bytes) :
  List.length a = List.length b -> valid_key a = valid_key b.
Proof. unfold valid_key. now intros ->. Qed.

Lemma HuluClient_init_value (d : Device) (extra : dict) (random_value : Z)
    (resp : response) (ct pt sk : bytes) (cfg kid : json) (key_text : string)
    (t : list event) :
  session_post config_url (handshake_request d random_value) = Ok resp ->
  fromhex (text resp) = Some ct ->
  valid_key (device_key d) = true ->
  decrypt_unpad (device_key d) ct = Ok pt ->
  loads_utf8 pt = Ok cfg ->
  getitem cfg "key" = Ok (JStr key_text) ->
  fromhex key_text = Some sk ->
  getitem cfg "key_id" = Ok kid ->
  is_bytes (device_key d) = true ->
  HuluClient_init d extra random_value t
  = (Ok {| device := d; extra_playlist_params := extra;
           session_key := xor_bytes (device_key d) sk; server_key := kid |},
     t ++ [Post config_url (handshake_request d random_value);
           AESDecrypt (device_key d) ct]).
Proof.
  intros Hpost Hhex Hk Hd Hl Hkey Hsk Hkid Hb.
  unfold HuluClient_init, bind.
  now rewrite (get_session_key_value _ _ _ _ _ _ _ _ _ t
                 Hpost Hhex Hk Hd Hl Hkey Hsk Hkid Hb).
Qed.

(** X8. A client built by a handshake whose server key has the length of
    the device key holds their XOR as session key and the [key_id] as
    server key; it sends that [key_id] as [kv] unless an extra parameter
    overrides it, and a legacy playlist answer enciphered under the session
    key (CBC, zero IV, block padding) comes back as the parsed plaintext. *)
Theorem handshake_then_playlist (d : Device) (extra : dict) (random_value : Z)
    (resp : response) (ct pt sk : bytes) (cfg kid : json) (key_text : string)
    (t : list event) :
  session_post config_url (handshake_request d random_value) = Ok resp ->
  fromhex (text resp) = Some ct ->
  valid_key (device_key d) = true ->
  decrypt_unpad (device_key d) ct = Ok pt ->
  loads_utf8 pt = Ok cfg ->
  getitem cfg "key" = Ok (JStr key_text) ->
  fromhex key_text = Some sk ->
  getitem cfg "key_id" = Ok kid ->
  is_bytes (device_key d) = true ->
  List.length sk = List.length (device_key d) ->
  (forall b, List.length b = 16%nat ->
     List.length (aes_encrypt_block (xor_bytes (device_key d) sk) b) = 16%nat) ->
  (forall b, List.length b = 16%nat ->
     aes_decrypt_block (xor_bytes (device_key d) sk)
       (aes_encrypt_block (xor_bytes (device_key d) sk) b) = b) ->
  let c := {| device := d; extra_playlist_params := extra;
              session_key := xor_bytes (device_key d) sk;
              server_key := kid |} in
  fst (HuluClient_init d extra random_value t) = Ok c
  /\ (dict_get "kv" (rev extra) = None ->
      forall video_id n rv,
        dict_get "kv" (playlist_request c video_id n rv) = Some kid)
  /\ (forall video_id n rv resp' m t',
        int_of_str (device_code d) = Ok n ->
        session_post playlist_url
          (JsonBody (JObj (playlist_request c video_id n rv))) = Ok resp' ->
        fromhex (text resp')
        = Some (cbc_encrypt aes_encrypt_block (session_key c) zero_iv
                  (pad m 16)) ->
        fst (load_playlist c video_id rv t') = loads_utf8 m).
Proof.
  intros Hpost Hhex Hk Hd Hl Hkey Hsk Hkid Hb Hlen Henc Hdec c.
  rewrite (HuluClient_init_value _ extra _ _ _ _ _ _ _ _ t
             Hpost Hhex Hk Hd Hl Hkey Hsk Hkid Hb).
  split; [reflexivity|]. split.
  - intros Hkv video_id n rv. unfold playlist_request.
    rewrite dict_get_update.
    cbn [extra_playlist_params c]. rewrite Hkv. reflexivity.
  - intros video_id n rv resp' m t' Hn Hpost' Hhex'.
    assert (Hvk : valid_key (session_key c) = true).
    { cbn [session_key c]. rewrite <- Hk. apply valid_key_length.
      rewrite xor_bytes_length, Hlen. apply Nat.min_id. }
    rewrite (load_playlist_after_post c _ _ _ _ _ Hn Hpost'). unfold bind.
    rewrite (get_ciphertext_ok _ _ _ _ Hhex').
    rewrite (decrypt_response_ok _ _ m _ Hvk); [reflexivity|].
    now apply decrypt_unpad_round_trip.
Qed.

(** X9. When the server key material is shorter than the 16-byte device
    key the handshake still succeeds, with a session key of the shorter
    length; every later legacy playlist request whose answer is hex text
    then fails in [AES.new] with the key-length [ValueError]: nothing is
    deciphered and nothing is logged. *)
Theorem short_server_key_breaks_playlist (d : Device) (extra : dict)
    (random_value : Z) (resp : response) (ct pt sk : bytes) (cfg kid : json)
    (key_text : string) (t : list event) :
  session_post config_url (handshake_request d random_value) = Ok resp ->
  fromhex (text resp) = Some ct ->
  List.length (device_key d) = 16%nat ->
  decrypt_unpad (device_key d) ct = Ok pt ->
  loads_utf8 pt = Ok cfg ->
  getitem cfg "key" = Ok (JStr key_text) ->
  fromhex key_text = Some sk ->
  getitem cfg "key_id" = Ok kid ->
  is_bytes (device_key d) = true ->
  (List.length sk < 16)%nat ->
  exists c,
    fst (HuluClient_init d extra random_value t) = Ok c
    /\ List.length (session_key c) = List.length sk
    /\ forall video_id n rv resp' ct' t',
         int_of_str (device_code d) = Ok n ->
         session_post playlist_url
           (JsonBody (JObj (playlist_request c video_id n rv))) = Ok resp' ->
         fromhex (text resp') = Some ct' ->
         load_playlist c video_id rv t'
         = (Err (ValueError
                   (String.append "Incorrect AES key length ("
                      (String.append
                         (str_of_int (Z.of_nat (List.length sk)))
                         " bytes)"))),
            t' ++ [Post playlist_url
                     (JsonBody (JObj (playlist_request c video_id n rv)))]).
Proof.
  intros Hpost Hhex Hdk Hd Hl Hkey Hsk Hkid Hb Hshort.
  assert (Hk : valid_key (device_key d) = true)
    by (unfold valid_key; now rewrite Hdk).
  set (c := {| device := d; extra_playlist_params := extra;
               session_key := xor_bytes (device_key d) sk;
               server_key := kid |}).
  exists c. rewrite (HuluClient_init_value _ extra _ _ _ _ _ _ _ _ t
                       Hpost Hhex Hk Hd Hl Hkey Hsk Hkid Hb).
  split; [reflexivity|].
  assert (Hlen : List.length (xor_bytes (device_key d) sk) = List.length sk)
    by (rewrite xor_bytes_length, Hdk; lia).
  split; [exact Hlen|].
  intros video_id n rv resp' ct' t' Hn Hpost' Hhex'.
  rewrite (load_playlist_after_post c _ _ _ _ _ Hn Hpost'). unfold bind.
  rewrite (get_ciphertext_ok _ _ _ _ Hhex'). cbn [session_key c].
  rewrite decrypt_response_bad_key, Hlen; [reflexivity|].
  unfold valid_key. rewrite Hlen.
  repeat (apply orb_false_iff; split); apply Z.eqb_neq; lia.
Qed.

(** X10. Once the handshake answer is decrypted and parsed, a config
    without [key] raises [KeyError] for it; a [key] that is a string but
    no hex text raises the [ValueError] of [bytes.fromhex] itself, which
    names the position of the offending character, not [MalformedEnvelope],
    and nothing is logged; a config without [key_id] raises [KeyError] for
    it after the key has been derived. *)
Theorem handshake_config_errors (d : Device) (random_value : Z)
    (resp : response) (ct pt : bytes) (cfg : json) (t : list event) :
  session_post config_url (handshake_request d random_value) = Ok resp ->
  fromhex (text resp) = Some ct ->
  valid_key (device_key d) = true ->
  decrypt_unpad (device_key d) ct = Ok pt ->
  loads_utf8 pt = Ok cfg ->
  let t1 := t ++ [Post config_url (handshake_request d random_value);
                  AESDecrypt (device_key d) ct] in
  (forall fields,
      cfg = JObj fields -> dict_get "key" fields = None ->
      get_session_key d random_value t = (Err (KeyError "key"), t1))
  /\ (forall key_text,
        getitem cfg "key" = Ok (JStr key_text) -> fromhex key_text = None ->
        get_session_key d random_value t
        = (Err (ValueError
                  (String.append
                     "non-hexadecimal number found in fromhex() arg at position "
                     (str_of_int (invalid_char key_text)))),
           t1))
  /\ (forall fields key_text sk,
        cfg = JObj fields ->
        getitem cfg "key" = Ok (JStr key_text) -> fromhex key_text = Some sk ->
        is_bytes (device_key d) = true ->
        dict_get "key_id" fields = None ->
        get_session_key d random_value t = (Err (KeyError "key_id"), t1)).
Proof.
  intros Hpost Hhex Hk Hd Hl t1.
  assert (E : get_session_key d random_value t = derive_from_config d cfg t1).
  { rewrite get_session_key_steps.
    unfold bind at 1, post, bind at 1, emit, lift at 1. rewrite Hpost.
    unfold bind at 1. rewrite (get_ciphertext_ok _ _ _ _ Hhex).
    unfold bind at 1. rewrite (decrypt_response_ok _ _ _ _ Hk Hd), Hl.
    unfold t1. now rewrite <- app_assoc. }
  rewrite E. unfold derive_from_config. run. repeat split.
  - intros fields -> Hnone. cbn [getitem]. now rewrite Hnone.
  - intros key_text Hkey Hbad. rewrite Hkey. cbn [as_str].
    unfold bytes_fromhex. now rewrite Hbad.
  - intros fields key_text sk -> Hkey Hsk Hb Hnone. rewrite Hkey.
    cbn [as_str]. unfold bytes_fromhex. rewrite Hsk.
    rewrite (derive_session_key_xor _ _ Hb (fromhex_is_bytes _ _ Hsk)).
    cbn [getitem]. now rewrite Hnone.
Qed.

(** X11. [load_playlist_six] fails on the status from 400 to 599 only: any
    other status, a redirect or an informational one included, has its
    body parsed as playlist data. *)
Theorem load_playlist_six_status (c : HuluClient) (video_id : string)
    (device_id : Z) (hdr hevc : bool) (rv_hevc rv_avc : Z) (params : json)
    (resp : response) (t : list event) :
  playlist_six_params c video_id device_id hdr hevc rv_hevc rv_avc = Ok params ->
  session_post playlist_six_url (JsonBody params) = Ok resp ->
  (400 <= status_code resp < 600 ->
   fst (load_playlist_six c video_id device_id hdr hevc rv_hevc rv_avc t)
   = Err (HTTPError (status_code resp) (text resp)))
  /\ (status_code resp < 400 \/ 600 <= status_code resp ->
      fst (load_playlist_six c video_id device_id hdr hevc rv_hevc rv_avc t)
      = json_loads (text resp)).
Proof.
  intros Hp Hpost.
  rewrite (load_playlist_six_after_post _ _ _ _ _ _ _ _ _ _ Hp Hpost).
  unfold raise_for_status. cbn [fst]. split; intros Hs.
  - replace ((400 <=? status_code resp) && (status_code resp <? 600)) with true;
      [reflexivity|].
    symmetry. apply andb_true_iff. split; [apply Z.leb_le|apply Z.ltb_lt]; lia.
  - replace ((400 <=? status_code resp) && (status_code resp <? 600)) with false;
      [reflexivity|].
    symmetry. apply andb_false_iff.
    destruct Hs; [left; apply Z.leb_gt|right; apply Z.ltb_ge]; lia.
Qed.

(** X12. The request of [load_playlist_six] takes nothing from the client
    but the server key: not the extra playlist parameters, not the device,
    not the session key. Its audio candidates are [EC3] and [AAC] whatever
    the flags, also for a client set up to force two channels; and of the
    two random draws only the one of the chosen parameter set is sent. *)
Theorem six_request_ignores_client (d d' : Device) (extra extra' : dict)
    (sk sk' : bytes) (kv : json) (video_id : string) (device_id : Z)
    (hdr hevc : bool) (rv_hevc rv_avc other : Z) :
  let c := {| device := d; extra_playlist_params := extra;
              session_key := sk; server_key := kv |} in
  let c' := {| device := d'; extra_playlist_params := extra';
               session_key := sk'; server_key := kv |} in
  playlist_six_params c video_id device_id hdr hevc rv_hevc rv_avc
  = playlist_six_params c' video_id device_id hdr hevc rv_hevc rv_avc
  /\ six_field ["playback"; "audio"; "codecs"; "values"]
       c video_id device_id hdr hevc rv_hevc rv_avc
     = Ok (Some (JArr [JObj [("type", JStr "EC3")];
                       JObj [("type", JStr "AAC")]]))
  /\ playlist_six_params c video_id device_id hdr true rv_hevc rv_avc
     = playlist_six_params c video_id device_id hdr true rv_hevc other
  /\ playlist_six_params c video_id device_id hdr false rv_hevc rv_avc
     = playlist_six_params c video_id device_id hdr false other rv_avc.
Proof.
  intros c c'. split; [reflexivity|].
  split; [destruct hdr, hevc; vm_compute; reflexivity|].
  split; reflexivity.
Qed.

(** ** hulu.py: [get_pssh] *)

Lemma pssh_of_protections_sound (items : list json) (p : json) :
  pssh_of_protections items = Done (Some p) ->
  exists t scheme,
    In t items
    /\ getitem t "@schemeIdUri" = Ok (JStr scheme)
    /\ lower scheme = widevine_urn
    /\ getitem t "cenc:pssh" = Ok p
    /\ truthy p = true.
Proof.
  induction items as [|t rest IH]; cbn [pssh_of_protections]; [discriminate|].
  unfold obind.
  destruct (getitem t "@schemeIdUri") as [scheme|e] eqn:Es;
    cbn [of_result]; [|discriminate].
  destruct scheme as [| | |s| |]; cbn [py_lower]; try discriminate.
  destruct (String.eqb (lower s) widevine_urn) eqn:El.
  - destruct t as [| | | | |d]; try discriminate Es. cbn [get_method].
    destruct (truthy match dict_get "cenc:pssh" d with
                     | Some v => v | None => JNull end) eqn:Et.
    + cbn [getitem] in *.
      destruct (dict_get "cenc:pssh" d) as [v|] eqn:Ev; cbn [of_result];
        [|discriminate].
      intros [= <-]. exists (JObj d), s. cbn [In getitem].
      apply String.eqb_eq in El. rewrite Es, Ev. auto.
    + intros H. destruct (IH H) as (t' & s' & Hin & Hrest).
      exists t', s'. split; [now right|exact Hrest].
  - intros H. destruct (IH H) as (t' & s' & Hin & Hrest).
    exists t', s'. split; [now right|exact Hrest].
Qed.

(** X13. A PSSH returned by [get_pssh] is the non-empty [cenc:pssh] of a
    content protection whose scheme is the Widevine URN, whatever its
    letter case, in a track whose MIME type contains the track type; and
    when no track has the type in its MIME type the result is [None]. *)
Theorem get_pssh_sound (tracks : list json) (track_type : string) :
  (forall p,
      get_pssh tracks track_type = Done (Some p) ->
      exists track mime protections items t scheme,
        In track tracks
        /\ get_method track "@mimeType" JNull = Done mime
        /\ py_in track_type mime = Done true
        /\ get_method track "ContentProtection" (JObj []) = Done protections
        /\ py_iter protections = Done items
        /\ In t items
        /\ getitem t "@schemeIdUri" = Ok (JStr scheme)
        /\ lower scheme = widevine_urn
        /\ getitem t "cenc:pssh" = Ok p
        /\ truthy p = true)
  /\ ((forall track, In track tracks ->
         exists mime, get_method track "@mimeType" JNull = Done mime
                      /\ py_in track_type mime = Done false) ->
      get_pssh tracks track_type = Done None).
Proof.
  split.
  - induction tracks as [|track rest IH]; cbn [get_pssh]; intros p;
      [discriminate|].
    unfold obind.
    destruct (get_method track "@mimeType" JNull) as [mime|] eqn:Em;
      [|discriminate].
    destruct (py_in track_type mime) as [[|]|] eqn:Ei; [| |discriminate].
    + destruct (get_method track "ContentProtection" (JObj []))
        as [protections|] eqn:Ep; [|discriminate].
      destruct (py_iter protections) as [items|] eqn:Eit; [|discriminate].
      destruct (pssh_of_protections items) as [[q|]|] eqn:Eq;
        [| |discriminate].
      * intros [= <-].
        destruct (pssh_of_protections_sound _ _ Eq)
          as (t & scheme & Hin & H1 & H2 & H3 & H4).
        exists track, mime, protections, items, t, scheme.
        cbn [In]. auto 12.
      * intros H.
        destruct (IH p H) as (tr & m & pr & it & t & sc & Hin & Hrest).
        exists tr, m, pr, it, t, sc. split; [now right|exact Hrest].
    + intros H.
      destruct (IH p H) as (tr & m & pr & it & t & sc & Hin & Hrest).
      exists tr, m, pr, it, t, sc. split; [now right|exact Hrest].
  - induction tracks as [|track rest IH]; intros H; [reflexivity|].
    cbn [get_pssh]. unfold obind.
    destruct (H track (or_introl eq_refl)) as (mime & Em & Ei).
    rewrite Em, Ei. apply IH. intros tr Hin. apply H. now right.
Qed.

(** ** hulu.py: the output name *)

Lemma endswith_refl (s : string) : endswith s s = true.
Proof. destruct s; cbn [endswith]; now rewrite String.eqb_refl. Qed.

Lemma endswith_append (a suffix : string) :
  endswith (String.append a suffix) suffix = true.
Proof.
  induction a as [|c a IH]; cbn [String.append]; [apply endswith_refl|].
  cbn [endswith]. rewrite IH. apply orb_true_r.
Qed.

(** X14. The name of the muxed file always ends with [.mkv]; an output
    name that already ends with it is used as given, any other gets the
    suffix appended. *)
Theorem muxed_filename_mkv (output : option string) (base_filename : string) :
  endswith (muxed_filename output base_filename) ".mkv" = true
  /\ (forall o, output = Some o -> endswith o ".mkv" = true ->
                muxed_filename output base_filename = o)
  /\ (forall o, output = Some o -> o <> EmptyString ->
                endswith o ".mkv" = false ->
                muxed_filename output base_filename = String.append o ".mkv").
Proof.
  split; [|split].
  - unfold muxed_filename.
    set (name := match output with
                 | Some o => if String.eqb o "" then _ else o
                 | None => _
                 end).
    destruct (endswith name ".mkv") eqn:E; cbn [negb]; [exact E|].
    apply endswith_append.
  - intros o -> He. unfold muxed_filename.
    destruct (String.eqb_spec o "") as [->|_]; [discriminate He|].
    now rewrite He.
  - intros o -> Hne He. unfold muxed_filename.
    destruct (String.eqb_spec o "") as [->|_]; [contradiction|].
    now rewrite He.
Qed.

(** ** hulu.py: tracks by bitrate *)

Lemma keys_of_spec (reps : list json) (keyed : list (Z * json)) :
  keys_of reps = Done keyed ->
  map snd keyed = reps
  /\ Forall (fun kr => get_bitrate (snd kr) = Done (fst kr)) keyed.
Proof.
  revert keyed. induction reps as [|rep rest IH]; cbn [keys_of]; intros keyed.
  - intros [= <-]. split; [reflexivity|constructor].
  - unfold obind. destruct (get_bitrate rep) as [k|] eqn:Ek; [|discriminate].
    destruct (keys_of rest) as [tl|]; [|discriminate].
    intros [= <-]. destruct (IH tl eq_refl) as [Hm Hf].
    split; [cbn [map snd]; now rewrite Hm|now constructor].
Qed.

Lemma insert_desc_in (x z : Z * json) (l : list (Z * json)) :
  In z (insert_desc x l) <-> z = x \/ In z l.
Proof using.
  induction l as [|y rest IH]; cbn [insert_desc In]; [or_cases|].
  destruct (fst x <? fst y); cbn [In]; [rewrite IH|]; or_cases.
Qed.

Lemma sort_desc_in (z : Z * json) (l : list (Z * json)) :
  In z (sort_desc l) <-> In z l.
Proof using.
  induction l as [|x rest IH]; cbn [sort_desc In]; [or_cases|].
  rewrite insert_desc_in, IH. or_cases.
Qed.

Lemma insert_desc_sorted (x : Z * json) (l : list (Z * json)) :
  StronglySorted key_ge l -> StronglySorted key_ge (insert_desc x l).
Proof using.
  induction l as [|y rest IH]; cbn [insert_desc]; intros H.
  - constructor; [constructor|constructor].
  - apply StronglySorted_inv in H as [Hrest Hy].
    destruct (fst x <? fst y) eqn:E.
    + apply Z.ltb_lt in E. constructor; [now apply IH|].
      apply Forall_forall. intros z Hz. apply insert_desc_in in Hz as [->|Hz].
      * unfold key_ge. lia.
      * rewrite Forall_forall in Hy. now apply Hy.
    + apply Z.ltb_ge in E. constructor; [now constructor|].
      constructor; [exact E|].
      rewrite Forall_forall in *. intros z Hz. specialize (Hy z Hz).
      unfold key_ge in *. lia.
Qed.

Lemma sort_desc_sorted (l : list (Z * json)) :
  StronglySorted key_ge (sort_desc l).
Proof using.
  induction l as [|x rest IH]; cbn [sort_desc]; [constructor|].
  now apply insert_desc_sorted.
Qed.

Lemma sorted_after (pre post : list (Z * json)) (x : Z * json) :
  StronglySorted key_ge (pre ++ x :: post) -> Forall (key_ge x) post.
Proof.
  induction pre as [|y pre IH]; cbn [app]; intros H;
    apply StronglySorted_inv in H as [Hrest Hy]; [exact Hy|now apply IH].
Qed.

Lemma track_of_height_first (q : Z) (tracks : list json) (x : json) :
  track_of_height q tracks = Done x ->
  exists pre post,
    tracks = pre ++ x :: post
    /\ height_of x = Done q
    /\ forall y, In y pre -> height_of y <> Done q.
Proof.
  induction tracks as [|y rest IH]; cbn [track_of_height]; [discriminate|].
  unfold obind. destruct (height_of y) as [n|] eqn:Eh; [|discriminate].
  destruct (Z.eqb_spec n q) as [->|Hne].
  - intros [= <-]. exists [], rest. repeat split; [exact Eh|intros ? []].
  - intros H. destruct (IH H) as (pre & post & -> & Hx & Hpre).
    exists (y :: pre), post. repeat split; [exact Hx|].
    intros z [<-|Hz]; [rewrite Eh; congruence|now apply Hpre].
Qed.

(** X15. Of the representations sorted by bitrate, the first one, taken
    when no quality is asked for, has the greatest bitrate of all; and the
    one taken for a quality [q] has height [q] and the greatest bitrate
    among the representations of that height. *)
Theorem sorted_tracks_best_first (reps sorted : list json) :
  sorted_by_bitrate reps = Done sorted ->
  (forall x, In x sorted <-> In x reps)
  /\ (forall x,
        first_track sorted = Done x ->
        exists bx, get_bitrate x = Done bx
                   /\ forall y, In y reps ->
                        exists b, get_bitrate y = Done b /\ b <= bx)
  /\ (forall q x,
        track_of_height q sorted = Done x ->
        In x reps /\ height_of x = Done q
        /\ exists bx, get_bitrate x = Done bx
                      /\ forall y, In y reps -> height_of y = Done q ->
                           exists b, get_bitrate y = Done b /\ b <= bx).
Proof using int_of_str.
  unfold sorted_by_bitrate, obind.
  destruct (keys_of reps) as [keyed|] eqn:Ek; [|discriminate].
  intros [= <-]. destruct (keys_of_spec _ _ Ek) as [Hm Hf].
  pose proof (sort_desc_sorted keyed) as Hs.
  assert (Hkey : forall kr, In kr (sort_desc keyed) ->
                            get_bitrate (snd kr) = Done (fst kr)).
  { intros kr Hin. apply (proj1 (sort_desc_in _ _)) in Hin.
    rewrite Forall_forall in Hf. exact (Hf kr Hin). }
  assert (Hin : forall x, In x (map snd (sort_desc keyed)) <-> In x reps).
  { intros x. rewrite <- Hm, !in_map_iff. split; intros (kr & E & H);
      exists kr; (split; [exact E|]);
      [exact (proj1 (sort_desc_in _ _) H)|exact (proj2 (sort_desc_in _ _) H)]. }
  assert (Hpair : forall y, In y reps ->
                            exists kr, snd kr = y /\ In kr (sort_desc keyed)).
  { intros y Hy. apply Hin in Hy. apply in_map_iff in Hy. exact Hy. }
  split; [exact Hin|]. split.
  - intros x. destruct (sort_desc keyed) as [|px rest] eqn:E;
      cbn [map first_track]; [discriminate|]. intros [= <-].
    exists (fst px). split; [apply Hkey; now left|].
    intros y Hy. destruct (Hpair y Hy) as (kr & <- & Hkr).
    exists (fst kr). split; [now apply Hkey|].
    destruct Hkr as [<-|Hkr]; [lia|].
    apply StronglySorted_inv in Hs as [_ Hall].
    rewrite Forall_forall in Hall. exact (Hall kr Hkr).
  - intros q x Hx.
    destruct (track_of_height_first _ _ _ Hx) as (pre & post & E & Hq & Hpre).
    apply map_eq_app in E as (ppre & prest & Es & Epre & Erest).
    apply map_eq_cons in Erest as (px & ppost & -> & Epx & Epost).
    split; [apply Hin; rewrite Es, map_app; apply in_or_app; right;
            cbn [map In]; now left|].
    split; [exact Hq|].
    exists (fst px). split.
    { rewrite <- Epx. apply Hkey. rewrite Es. apply in_or_app. right.
      now left. }
    intros y Hy Hyq. destruct (Hpair y Hy) as (kr & <- & Hkr).
    exists (fst kr). split; [now apply Hkey|].
    rewrite Es in Hkr, Hs. apply in_app_or in Hkr as [Hkr|[<-|Hkr]].
    + exfalso. apply (Hpre (snd kr)); [|exact Hyq].
      rewrite <- Epre. now apply in_map.
    + lia.
    + apply sorted_after in Hs. rewrite Forall_forall in Hs.
      exact (Hs kr Hkr).
Qed.

(** ** hulu.py: [get_episodes] *)

Lemma list_insert_perm {A} (l : list A) (i : Z) (x : A) :
  Permutation (list_insert l i x) (x :: l).
Proof.
  unfold list_insert. cbv zeta.
  set (k := Z.to_nat _). rewrite <- (firstn_skipn k l) at 3.
  symmetry. apply Permutation_middle.
Qed.

Lemma list_insert_end {A} (l : list A) (x : A) :
  list_insert l (Z.of_nat (List.length l)) x = l ++ [x].
Proof.
  unfold list_insert. cbv zeta.
  assert (E : (Z.of_nat (List.length l) <? 0) = false)
    by (apply Z.ltb_ge; lia).
  rewrite E. cbv iota. rewrite E, Z.ltb_irrefl. cbv iota.
  rewrite Nat2Z.id, firstn_all, skipn_all. reflexivity.
Qed.

Lemma episode_of_done (episode : json) (e : Episode) (t t' : list event) :
  episode_of episode t = (Done e, t') ->
  t' = t /\ forall t0, episode_of episode t0 = (Done e, t0).
Proof.
  unfold episode_of. destruct (py_in "bundle" episode) as [[|]|];
    try discriminate.
  intros [= H <-]. split; [reflexivity|]. intros t0. now rewrite H.
Qed.

Lemma get_episodes_loop_perm (items : list json) :
  forall (acc eps : list Episode) (t t' : list event),
    get_episodes_loop items acc t = (Done eps, t') ->
    t' = t
    /\ exists built,
         Forall2 (fun item e => episode_of item t = (Done e, t)) items built
         /\ Permutation eps (acc ++ built).
Proof.
  induction items as [|episode rest IH]; intros acc eps t t';
    cbn [get_episodes_loop].
  - intros [= <- <-]. split; [reflexivity|]. exists [].
    split; [constructor|now rewrite app_nil_r].
  - destruct (episode_of episode t) as [[e|err] t1] eqn:E; [|discriminate].
    destruct (episode_of_done _ _ _ _ E) as [-> He]. intros H.
    destruct (IH _ _ _ _ H) as [-> (built & Hf & Hp)].
    split; [reflexivity|]. exists (e :: built). split; [now constructor|].
    rewrite Hp. rewrite <- Permutation_middle.
    change (e :: acc ++ built) with ((e :: acc) ++ built).
    apply Permutation_app_tail, list_insert_perm.
Qed.

Lemma get_episodes_loop_ordered (items : list json) (built : list Episode)
    (t : list event) :
  Forall2 (fun item e => episode_of item t = (Done e, t)) items built ->
  forall acc,
    (forall i e, nth_error built i = Some e ->
                 ep_episode_num e = Z.of_nat (List.length acc + i) + 1) ->
    get_episodes_loop items acc t = (Done (acc ++ built), t).
Proof.
  induction 1 as [|episode e rest built' He Hrest IH]; intros acc Hnum;
    cbn [get_episodes_loop].
  - now rewrite app_nil_r.
  - rewrite He. rewrite (Hnum 0%nat e eq_refl), Nat.add_0_r.
    replace (Z.of_nat (List.length acc) + 1 - 1)
      with (Z.of_nat (List.length acc)) by lia.
    rewrite list_insert_end, IH; [now rewrite <- app_assoc|].
    intros i e' Hi. rewrite (Hnum (S i) e' Hi), length_app. cbn [List.length].
    f_equal. f_equal. lia.
Qed.

(** X16. [get_episodes] returns one entry for each item of the answer, in
    some order: a permutation of the entries built item by item. When the
    items carry the numbers 1, 2, 3, ... in that order, the entries come
    back in that order. *)
Theorem get_episodes_listing (parsed : json) (items : list json)
    (t : list event) :
  getitem parsed "items" = Ok (JArr items) ->
  (forall eps t',
      get_episodes_parsed parsed t = (Done eps, t') ->
      t' = t
      /\ List.length eps = List.length items
      /\ exists built,
           Forall2 (fun item e => episode_of item t = (Done e, t)) items built
           /\ Permutation eps built)
  /\ (forall built,
        Forall2 (fun item e => episode_of item t = (Done e, t)) items built ->
        (forall i e, nth_error built i = Some e ->
                     ep_episode_num e = Z.of_nat i + 1) ->
        get_episodes_parsed parsed t = (Done built, t)).
Proof.
  intros Hitems. unfold get_episodes_parsed. rewrite Hitems.
  cbn [of_result obind py_iter]. split.
  - intros eps t' H.
    destruct (get_episodes_loop_perm _ _ _ _ _ H) as [-> (built & Hf & Hp)].
    cbn [app] in Hp. split; [reflexivity|]. split.
    + rewrite (Permutation_length Hp). symmetry.
      exact (Forall2_length Hf).
    + now exists built.
  - intros built Hf Hnum.
    exact (get_episodes_loop_ordered _ _ _ Hf [] Hnum).
Qed.

(** ** hulu.py: seasons and episodes *)

Lemma contains_char_cons (sep c : ascii) (r : string) :
  contains (String sep EmptyString) (String c r)
  = Ascii.eqb c sep || contains (String sep EmptyString) r.
Proof.
  cbn [contains String.prefix].
  destruct (ascii_dec sep c) as [->|Hne].
  - rewrite Ascii.eqb_refl. now destruct r.
  - destruct (Ascii.eqb_spec c sep) as [->|_]; [contradiction|reflexivity].
Qed.

Lemma append_cons_assoc (cur : string) (c : ascii) (r : string) :
  String.append (String.append cur (String c EmptyString)) r
  = String.append cur (String c r).
Proof. induction cur as [|x cur IH]; cbn [String.append]; congruence. Qed.

Lemma split_from_no_sep (sep : ascii) (b cur : string) :
  contains (String sep EmptyString) b = false ->
  split_from sep cur b = [String.append cur b].
Proof.
  revert cur. induction b as [|c b IH]; intros cur H; cbn [split_from].
  - now rewrite append_empty_r.
  - rewrite contains_char_cons in H. apply orb_false_iff in H as [Hc Hb].
    rewrite Hc, IH by exact Hb. now rewrite append_cons_assoc.
Qed.

Lemma split_from_app (sep : ascii) (a b cur : string) :
  contains (String sep EmptyString) a = false ->
  split_from sep cur (String.append a (String sep b))
  = String.append cur a :: split_from sep EmptyString b.
Proof.
  revert cur. induction a as [|c a IH]; intros cur H;
    cbn [String.append split_from].
  - now rewrite Ascii.eqb_refl, append_empty_r.
  - rewrite contains_char_cons in H. apply orb_false_iff in H as [Hc Ha].
    rewrite Hc, IH by exact Ha. now rewrite append_cons_assoc.
Qed.

Lemma contains_sep_app (sep : ascii) (a b : string) :
  contains (String sep EmptyString) (String.append a (String sep b)) = true.
Proof.
  induction a as [|c a IH]; cbn [String.append];
    rewrite contains_char_cons.
  - now rewrite Ascii.eqb_refl.
  - rewrite IH. apply orb_true_r.
Qed.

Lemma py_range_in (start stop n : Z) :
  In n (py_range start stop) <-> start <= n < stop.
Proof.
  unfold py_range. rewrite in_map_iff. split.
  - intros (i & <- & Hi). apply in_seq in Hi. lia.
  - intros H. exists (Z.to_nat (n - start)). split; [lia|].
    apply in_seq. lia.
Qed.

(** X17. A season argument [a-b] names the seasons from [a] to [b], both
    included and in ascending order, none when [b] is below [a]; an
    argument with a further dash is refused with [ValueError]. *)
Theorem parse_seasons_range (a b : string) (first last : Z) :
  contains "-" a = false ->
  contains "-" b = false ->
  int_of_str a = Ok first ->
  int_of_str b = Ok last ->
  parse_seasons (String.append a (String "-" b))
  = Done (py_range first (last + 1))
  /\ (forall n, In n (py_range first (last + 1)) <-> first <= n <= last)
  /\ List.length (py_range first (last + 1)) = Z.to_nat (last + 1 - first)
  /\ forall rest,
       parse_seasons
         (String.append a (String "-" (String.append b (String "-" rest))))
       = Fail (Exn (ValueError "too many values to unpack (expected 2)")).
Proof.
  intros Ha Hb Hfirst Hlast. split; [|split; [|split]].
  - unfold parse_seasons, split. rewrite contains_sep_app.
    rewrite (split_from_app _ _ _ _ Ha), (split_from_no_sep _ _ _ Hb).
    cbn [String.append unpack2 obind fst snd]. rewrite Hfirst, Hlast.
    reflexivity.
  - intros n. rewrite py_range_in. lia.
  - unfold py_range. now rewrite length_map, length_seq.
  - intros rest. unfold parse_seasons, split. rewrite contains_sep_app.
    rewrite (split_from_app _ _ _ _ Ha), (split_from_app _ _ _ _ Hb).
    cbn [String.append].
    destruct (split_from "-" "" rest) as [|x l] eqn:E; [|reflexivity].
    destruct rest as [|c r]; cbn [split_from] in E; [discriminate|].
    destruct (Ascii.eqb c "-"); [discriminate|].
    exfalso. revert E. generalize (String.append "" (String c "")).
    induction r as [|c' r IH]; intros cur; cbn [split_from]; [discriminate|].
    destruct (Ascii.eqb c' "-"); [discriminate|apply IH].
Qed.

Lemma next_episode_in (arg : string) (eps : list Episode) (x : Episode) :
  next_episode arg eps = Done x -> In x eps.
Proof.
  induction eps as [|y rest IH]; cbn [next_episode]; [discriminate|].
  unfold obind. destruct (int_of_str arg) as [n|]; cbn [of_result];
    [|discriminate].
  destruct (ep_episode_num y =? n); [intros [= <-]; now left|].
  intros H. right. now apply IH.
Qed.

Lemma next_episode_missing (arg : string) (n : Z) (eps : list Episode) :
  int_of_str arg = Ok n ->
  (forall x, In x eps -> ep_episode_num x <> n) ->
  next_episode arg eps = Fail StopIteration.
Proof.
  intros Hn. induction eps as [|y rest IH]; intros H; cbn [next_episode];
    [reflexivity|].
  rewrite Hn. cbn [of_result obind].
  destruct (Z.eqb_spec (ep_episode_num y) n) as [E|_].
  - exfalso. exact (H y (or_introl eq_refl) E).
  - apply IH. intros x Hx. apply H. now right.
Qed.

(** X18. A round of the loop over the seasons that goes on leaves at least
    one title, keeps the titles gathered before in their place, logs
    nothing, and adds episodes of that season only. *)
Theorem select_episodes_invariant (episode_arg : option string)
    (titles eps titles' : list Episode) (t t' : list event) :
  select_episodes episode_arg titles eps t = (Done titles', t') ->
  t' = t
  /\ titles' <> []
  /\ exists chosen,
       titles' = titles ++ chosen /\ forall x, In x chosen -> In x eps.
Proof using int_of_str.
  unfold select_episodes. destruct eps as [|e0 eps0]; [discriminate|].
  set (eps := e0 :: eps0).
  assert (Hall : forall (l : list Episode) (t1 : list event),
             (Done (titles ++ eps), t) = (Done l, t1) ->
             t1 = t /\ l <> []
             /\ exists chosen, l = titles ++ chosen
                               /\ forall x, In x chosen -> In x eps).
  { intros l t1 [= <- <-]. split; [reflexivity|]. split.
    - unfold eps. now destruct titles.
    - now exists eps. }
  destruct episode_arg as [arg|]; [|apply Hall].
  destruct (String.eqb arg ""); [apply Hall|].
  assert (Hfin : forall (r : outcome (list Episode)) (t1 : list event),
             (forall l, r = Done l ->
                        exists chosen, l = titles ++ chosen
                                       /\ forall x, In x chosen -> In x eps) ->
             match (r, t1) with
             | (Done [], t2) => exit_with "No matching episodes found" t2
             | r0 => r0
             end = (Done titles', t') ->
             t' = t1 /\ titles' <> []
             /\ exists chosen, titles' = titles ++ chosen
                               /\ forall x, In x chosen -> In x eps).
  { intros r t1 Hr. destruct r as [[|x l]|err]; try discriminate.
    intros [= <- <-]. split; [reflexivity|]. split; [discriminate|].
    now apply Hr. }
  destruct (contains "-" arg); [|destruct (contains "," arg)].
  - apply Hfin. intros l. unfold obind.
    destruct (unpack2 (split "-" arg)) as [parts|]; [|discriminate].
    destruct (int_of_str (fst parts)) as [start|]; cbn [of_result];
      [|discriminate].
    destruct (if String.eqb (snd parts) ""
              then Done (Z.of_nat (List.length eps))
              else of_result (int_of_str (snd parts))) as [stop|];
      [|discriminate].
    intros [= <-]. exists (filter (in_range start stop) eps).
    split; [reflexivity|]. intros x Hx. apply filter_In in Hx. exact (proj1 Hx).
  - apply Hfin. intros l. unfold obind.
    destruct (ints_of (split "," arg)) as [selected|]; [|discriminate].
    intros [= <-]. exists (filter (is_selected selected) eps).
    split; [reflexivity|]. intros x Hx. apply filter_In in Hx. exact (proj1 Hx).
  - destruct (next_episode arg eps) as [x|err] eqn:En.
    + apply (Hfin (Done (titles ++ [x])) t). intros l [= <-]. exists [x].
      split; [reflexivity|].
      intros y [<-|[]]. exact (next_episode_in _ _ _ En).
    + destruct err; try discriminate; unfold exit_with; discriminate.
Qed.

(** X19. Once an earlier season gave a title, a later season in which an
    episode range matches nothing is passed over in silence, the titles
    unchanged; a single episode number that the season lacks ends the
    script with status 1 all the same. *)
Theorem later_season_without_match (titles eps : list Episode)
    (t : list event) :
  titles <> [] ->
  eps <> [] ->
  (forall a b first last,
      contains "-" a = false -> contains "-" b = false ->
      b <> EmptyString ->
      int_of_str a = Ok first -> int_of_str b = Ok last ->
      filter (in_range first last) eps = [] ->
      select_episodes (Some (String.append a (String "-" b))) titles eps t
      = (Done titles, t))
  /\ (forall arg n,
        arg <> EmptyString ->
        contains "-" arg = false -> contains "," arg = false ->
        int_of_str arg = Ok n ->
        (forall x, In x eps -> ep_episode_num x <> n) ->
        select_episodes (Some arg) titles eps t
        = (Fail (SystemExit 1),
           t ++ [LogError "Requested episode not found"])).
Proof.
  intros Ht He. destruct eps as [|e0 eps0]; [contradiction|].
  destruct titles as [|t0 titles0]; [contradiction|]. split.
  - intros a b first last Ha Hb Hne Hfirst Hlast Hnone.
    unfold select_episodes.
    assert (E : String.eqb (String.append a (String "-" b)) "" = false)
      by (destruct a; reflexivity).
    rewrite E, contains_sep_app. unfold split.
    rewrite (split_from_app _ _ _ _ Ha), (split_from_no_sep _ _ _ Hb).
    cbn [String.append unpack2 obind fst snd]. rewrite Hfirst.
    destruct (String.eqb_spec b "") as [->|_]; [contradiction|].
    rewrite Hlast. cbn [of_result obind]. rewrite Hnone, app_nil_r.
    reflexivity.
  - intros arg n Hne Hdash Hcomma Hn Hmiss. unfold select_episodes.
    destruct (String.eqb_spec arg "") as [->|_]; [contradiction|].
    rewrite Hdash, Hcomma, (next_episode_missing _ _ _ Hn Hmiss).
    reflexivity.
Qed.

(** ** hulu.py: the caller of the client *)

(** X20. The caller ends the script with status 1 on every [ValueError] of
    the client: a legacy answer that is no hex text, whatever its status,
    is logged by the client and followed by the exit. The [HTTPError]
    that [load_playlist_six] raises on a status from 400 to 599 is no
    [ValueError]: it leaves the caller uncaught. *)
Theorem caller_catches_value_errors (c : HuluClient) (t_id : string)
    (h264 hdr : bool) (rv rv_hevc rv_avc : Z) (t : list event) :
  (forall params resp,
      playlist_six_params c t_id 210 hdr (negb h264) rv_hevc rv_avc
      = Ok params ->
      session_post playlist_six_url (JsonBody params) = Ok resp ->
      400 <= status_code resp < 600 ->
      fetch_playlist c video t_id h264 hdr rv rv_hevc rv_avc t
      = (Fail (Exn (HTTPError (status_code resp) (text resp))),
         t ++ [Post playlist_six_url (JsonBody params)]))
  /\ (forall n resp,
        int_of_str (device_code (device c)) = Ok n ->
        session_post playlist_url
          (JsonBody (JObj (playlist_request c t_id n rv))) = Ok resp ->
        fromhex (text resp) = None ->
        fetch_playlist c chrome t_id h264 hdr rv rv_hevc rv_avc t
        = (Fail (SystemExit 1),
           t ++ Post playlist_url
                  (JsonBody (JObj (playlist_request c t_id n rv)))
             :: envelope_failure_log (text resp)
                  (playlist_request c t_id n rv)))
  /\ (forall msg,
        fst (load_playlist c t_id rv t) = Err (ValueError msg) ->
        fst (fetch_playlist c chrome t_id h264 hdr rv rv_hevc rv_avc t)
        = Fail (SystemExit 1)).
Proof.
  split; [|split].
  - intros params resp Hp Hpost Hs. unfold fetch_playlist.
    rewrite (load_playlist_six_request_failed _ _ _ _ _ _ _ _ _ _
               Hp Hpost Hs).
    reflexivity.
  - intros n resp Hn Hpost Hhex. unfold fetch_playlist.
    rewrite (load_playlist_after_post _ _ _ _ _ _ Hn Hpost). unfold bind.
    rewrite (get_ciphertext_err _ _ _ Hhex). unfold MalformedEnvelope.
    now rewrite <- app_assoc.
  - intros msg H. unfold fetch_playlist.
    destruct (load_playlist c t_id rv t) as [r t1]. cbn [fst] in H.
    now rewrite H.
Qed.

(** *** The watch id *)

Lemma all_chars_app (p : ascii -> bool) (a b : string) :
  all_chars p (String.append a b) = all_chars p a && all_chars p b.
Proof using.
  induction a as [|c a IH]; cbn [String.append all_chars].
  - reflexivity.
  - now rewrite IH, andb_assoc.
Qed.

Lemma hex_run_sound (n : nat) : forall s digits r,
  hex_run n s = Some (digits, r) ->
  s = String.append digits r /\ all_chars uuid_char digits = true.
Proof using.
  induction n as [|n IH]; intros s digits r H; cbn [hex_run] in H.
  - injection H as <- <-. split; reflexivity.
  - destruct s as [|c rest]; [discriminate|].
    destruct (is_hex_lower c) eqn:Hc; [|discriminate].
    destruct (hex_run n rest) as [[d r0]|] eqn:Hr; [|discriminate].
    injection H as <- <-.
    destruct (IH _ _ _ Hr) as [-> Hall].
    split; [reflexivity|].
    cbn [all_chars]. unfold uuid_char at 1. now rewrite Hc, Hall.
Qed.

Lemma dash_groups_sound (ns : list nat) : forall s tl r,
  dash_groups ns s = Some (tl, r) ->
  s = String.append tl r /\ all_chars uuid_char tl = true.
Proof using.
  induction ns as [|n ns IH]; intros s tl r H; cbn [dash_groups] in H.
  - injection H as <- <-. split; reflexivity.
  - destruct s as [|c rest]; [discriminate|].
    destruct (Ascii.eqb c "-") eqn:Hc; [|discriminate].
    destruct (hex_run n rest) as [[d r0]|] eqn:Hr; [|discriminate].
    destruct (dash_groups ns r0) as [[tl0 r1]|] eqn:Hg; [|discriminate].
    injection H as <- <-.
    destruct (hex_run_sound _ _ _ _ Hr) as [-> Hd].
    destruct (IH _ _ _ Hg) as [-> Htl].
    split.
    + cbn [String.append]. f_equal.
      clear. induction d as [|x d IHd]; cbn [String.append];
        [reflexivity | now rewrite IHd].
    + cbn [all_chars]. unfold uuid_char at 1.
      now rewrite Hc, orb_true_r, all_chars_app, Hd, Htl.
Qed.

(** A text that is one identifier matches at its start with itself, and
    holds only hexadecimal digits and dashes. *)
Lemma fullmatch_uuid_sound (id : string) :
  fullmatch_uuid id = true ->
  uuid_at id = Some (id, EmptyString) /\ all_chars uuid_char id = true.
Proof using.
  unfold fullmatch_uuid, uuid_at. intros H.
  destruct (hex_run 8 id) as [[d r]|] eqn:Hr; [|discriminate].
  destruct (dash_groups [4; 4; 4; 12]%nat r) as [[tl r']|] eqn:Hg;
    [|discriminate].
  destruct r'; [|discriminate].
  destruct (hex_run_sound _ _ _ _ Hr) as [E1 Hd].
  destruct (dash_groups_sound _ _ _ _ Hg) as [E2 Htl].
  rewrite append_empty_r in E2. subst r.
  split.
  - now rewrite <- E1.
  - now rewrite E1, all_chars_app, Hd, Htl.
Qed.

Lemma no_series_in_uuid_chars (s : string) :
  all_chars uuid_char s = true -> contains "/series/" s = false.
Proof using.
  induction s as [|c s IH]; intros H.
  - reflexivity.
  - cbn [all_chars] in H. apply andb_true_iff in H as [Hc Hs].
    cbn [contains String.prefix].
    destruct (ascii_dec "/" c) as [<-|_].
    + discriminate Hc.
    + cbn [orb]. now apply IH.
Qed.

Lemma search_uuid_here (id : string) :
  fullmatch_uuid id = true -> search_uuid id = Some id.
Proof using.
  intros H. destruct (fullmatch_uuid_sound _ H) as [E _].
  destruct id; cbn [search_uuid]; now rewrite E.
Qed.

(** X21. The watch id.  An argument that is exactly one identifier never
    gives a watch id: [UUID_RE] has no group, so [match.group(1)] raises
    [IndexError].  An address [http(s)://www.hulu.com/watch/<id>] or
    [.../movie/<id>] gives the identifier whatever [--season] is; an address
    [.../series/<id>] gives it only with a non-empty [--season], and ends the
    script with status 1 without one; an address without [www.] is refused
    with status 1, whatever follows it. *)
Theorem watch_id_of_url (id : string) (season : option string)
    (t : list event) :
  fullmatch_uuid id = true ->
  watch_id_of id season t = (Fail (IndexError "no such group"), t)
  /\ watch_id_of (String.append "https://www.hulu.com/watch/" id) season t
     = (Done id, t)
  /\ watch_id_of (String.append "http://www.hulu.com/movie/" id) season t
     = (Done id, t)
  /\ watch_id_of (String.append "https://www.hulu.com/series/" id) season t
     = (if match season with
            | Some s => String.eqb s EmptyString
            | None => true
            end
        then (Fail (SystemExit 1),
              t ++ [LogError "For series, please use the --season argument."])
        else (Done id, t))
  /\ watch_id_of (String.append "https://hulu.com/watch/" id) season t
     = (Fail (SystemExit 1),
        t ++ [LogError
                (String.append
                   (py_repr (String.append "https://hulu.com/watch/" id))
                   " is not a valid Hulu watch URL or ID.")]).
Proof using.
  intros H.
  pose proof (search_uuid_here _ H) as Hs.
  destruct (fullmatch_uuid_sound _ H) as [_ Hall].
  pose proof (no_series_in_uuid_chars _ Hall) as Hn.
  split; [|split; [|split; [|split]]].
  - unfold watch_id_of. now rewrite H.
  - unfold watch_id_of. cbn. rewrite Hs.
    destruct id as [|c id']; [discriminate H|].
    cbn [all_chars] in Hall. apply andb_true_iff in Hall as [Hc _].
    cbn [contains String.prefix] in Hn |- *.
    destruct (ascii_dec "s" c) as [<-|_]; [discriminate Hc|].
    destruct (ascii_dec "/" c) as [<-|_]; [discriminate Hc|].
    cbn [orb] in Hn |- *. now rewrite Hn.
  - unfold watch_id_of. cbn. rewrite Hs.
    destruct id as [|c id']; [discriminate H|].
    cbn [all_chars] in Hall. apply andb_true_iff in Hall as [Hc _].
    cbn [contains String.prefix] in Hn |- *.
    destruct (ascii_dec "s" c) as [<-|_]; [discriminate Hc|].
    destruct (ascii_dec "/" c) as [<-|_]; [discriminate Hc|].
    cbn [orb] in Hn |- *. now rewrite Hn.
  - unfold watch_id_of. cbn. rewrite Hs.
    unfold exit_with.
    replace (String.prefix "" id) with true by (now destruct id).
    cbn [orb andb].
    destruct season as [s|]; [destruct (String.eqb s EmptyString)|];
      reflexivity.
  - unfold watch_id_of. cbn. reflexivity.
Qed.

End Client.

(** ** Runs with the stand-in functions *)

Lemma session_key_is_xor_witness :
  fst (get_session_key Demo.block Demo.decode Demo.loads Demo.dumps
         (Demo.answers (Demo.ok (Demo.envelope (repeat 0 16) Demo.ff16)))
         Demo.zero_device 500000 [])
  = Ok (repeat 255 16, JStr "kid").
Proof.
  refine (proj1
    (session_key_is_xor Demo.block Demo.decode Demo.loads Demo.dumps
       (Demo.answers (Demo.ok (Demo.envelope (repeat 0 16) Demo.ff16)))
       Demo.zero_device 500000
       (Demo.ok (Demo.envelope (repeat 0 16) Demo.ff16))
       (cbc_encrypt Demo.block (repeat 0 16) zero_iv
          (pad (encode_utf8 Demo.ff16) 16))
       (encode_utf8 Demo.ff16) (repeat 255 16)
       (JObj [("key", JStr Demo.ff16); ("key_id", JStr "kid")])
       (JStr "kid") Demo.ff16 [] _ _ _ _ _ _ _ _ _ _));
    vm_compute; reflexivity.
Defined.

Lemma session_key_truncates_witness :
  exists key,
    derive_session_key (repeat 0 16) [255; 255] = Ok key
    /\ fst (get_session_key Demo.block Demo.decode Demo.loads Demo.dumps
              (Demo.answers (Demo.ok (Demo.envelope (repeat 0 16) "ffff")))
              Demo.zero_device 500000 [])
       = Ok (key, JStr "kid")
    /\ List.length key = 2%nat
    /\ key = xor_bytes [0; 0] [255; 255].
Proof.
  refine (session_key_truncates Demo.block Demo.decode Demo.loads Demo.dumps
            (Demo.answers (Demo.ok (Demo.envelope (repeat 0 16) "ffff")))
            Demo.zero_device 500000
            (Demo.ok (Demo.envelope (repeat 0 16) "ffff"))
            (cbc_encrypt Demo.block (repeat 0 16) zero_iv
               (pad (encode_utf8 "ffff") 16))
            (encode_utf8 "ffff") [255; 255]
            (JObj [("key", JStr "ffff"); ("key_id", JStr "kid")])
            (JStr "kid") "ffff" [] _ _ _ _ _ _ _ _ _);
    vm_compute; reflexivity.
Defined.

Lemma legacy_payload_merges_extra_witness :
  JObj (playlist_request (Demo.client (chrome_extra_playlist_params true))
          "EAB::video" 830 500000)
  = deep_merge (JObj (chrome_extra_playlist_params true))
      (JObj (playlist_defaults (Demo.client (chrome_extra_playlist_params true))
               "EAB::video" 830 500000)).
Proof.
  refine (proj1 (proj2
    (legacy_payload_merges_extra Demo.block Demo.decode Demo.loads Demo.dumps
       Demo.int (Demo.answers (Demo.ok "zz"))
       (Demo.client (chrome_extra_playlist_params true))
       "EAB::video" 830 500000 [] _ _))); vm_compute; reflexivity.
Defined.

Lemma legacy_decrypts_six_parses_witness :
  fst (load_playlist Demo.block Demo.decode Demo.loads Demo.dumps Demo.int
         (Demo.route
            (Demo.ok (Demo.envelope (repeat 255 16) Demo.playlist_text))
            (Demo.ok Demo.playlist_text))
         (Demo.client []) "EAB::video" 500000 [])
  = loads_utf8 Demo.decode Demo.loads (encode_utf8 Demo.playlist_text)
  /\ fst (load_playlist_six Demo.loads
            (Demo.route
               (Demo.ok (Demo.envelope (repeat 255 16) Demo.playlist_text))
               (Demo.ok Demo.playlist_text))
            (Demo.client []) "EAB::video" 210 false true 500000 600000 [])
     = Demo.loads Demo.playlist_text.
Proof.
  destruct
    (legacy_decrypts_six_parses Demo.block Demo.decode Demo.loads Demo.dumps
       Demo.int
       (Demo.route
          (Demo.ok (Demo.envelope (repeat 255 16) Demo.playlist_text))
          (Demo.ok Demo.playlist_text))
       (Demo.client []) "EAB::video" 830 500000
       (Demo.ok (Demo.envelope (repeat 255 16) Demo.playlist_text))
       (cbc_encrypt Demo.block (repeat 255 16) zero_iv
          (pad (encode_utf8 Demo.playlist_text) 16))
       (encode_utf8 Demo.playlist_text)
       210 false true 500000 600000
       (hevc_params (Demo.client []) "EAB::video" 210 500000)
       (Demo.ok Demo.playlist_text) []
       ltac:(vm_compute; reflexivity) ltac:(vm_compute; reflexivity)
       ltac:(vm_compute; reflexivity) ltac:(vm_compute; reflexivity)
       ltac:(vm_compute; reflexivity) ltac:(vm_compute; reflexivity)
       ltac:(vm_compute; reflexivity) ltac:(vm_compute; reflexivity))
    as (H1 & H2 & _).
  split; [exact (f_equal fst H1)|exact (f_equal fst H2)].
Defined.

Lemma malformed_envelope_rejected_witness :
  (fst (load_playlist Demo.block Demo.decode Demo.loads Demo.dumps Demo.int
          (Demo.answers (Demo.ok "zz")) (Demo.client []) "EAB::video" 500000 [])
   = Err MalformedEnvelope
   /\ filter is_decrypt
        (snd (load_playlist Demo.block Demo.decode Demo.loads Demo.dumps
                Demo.int (Demo.answers (Demo.ok "zz")) (Demo.client [])
                "EAB::video" 500000 []))
      = [])
  /\ fst (load_playlist Demo.block Demo.decode Demo.loads Demo.dumps Demo.int
            (Demo.answers (Demo.ok "a b")) (Demo.client []) "EAB::video"
            500000 [])
     = Err MalformedEnvelope
  /\ __get_ciphertext Demo.dumps " ab cd" [] [] = (Ok [171; 205], []).
Proof.
  split; [|split].
  - refine (proj2 (proj2 (proj2
      (malformed_envelope_rejected Demo.block Demo.decode Demo.loads
         Demo.dumps Demo.int (Demo.answers (Demo.ok "zz")) (Demo.client [])
         "EAB::video" 830 500000 (Demo.ok "zz") [] _ _)) _));
      vm_compute; reflexivity.
  - refine (proj1 (proj2 (proj2 (proj2
      (malformed_envelope_rejected Demo.block Demo.decode Demo.loads
         Demo.dumps Demo.int (Demo.answers (Demo.ok "a b")) (Demo.client [])
         "EAB::video" 830 500000 (Demo.ok "a b") [] _ _)) _)));
      vm_compute; reflexivity.
  - refine (proj1 (proj2
      (malformed_envelope_rejected Demo.block Demo.decode Demo.loads
         Demo.dumps Demo.int (Demo.answers (Demo.ok " ab cd"))
         (Demo.client []) "EAB::video" 830 500000 (Demo.ok " ab cd") [] _ _))
      _ [] []); vm_compute; reflexivity.
Defined.

(** C3 as stated fails: the text [ab ] has three characters, one of them
    no hexadecimal digit, and is decoded to one byte. *)
Lemma whitespace_envelope_accepted :
  valid_even_hex "ab " = false
  /\ __get_ciphertext Demo.dumps "ab " [] [] = (Ok [171], []).
Proof. split; reflexivity. Qed.

Lemma decrypt_response_cbc_zero_iv_witness :
  decrypt_response Demo.block Demo.decode Demo.loads (repeat 0 16)
    (cbc_encrypt Demo.block (repeat 0 16) zero_iv
       (pad (encode_utf8 Demo.playlist_text) 16)) []
  = (loads_utf8 Demo.decode Demo.loads (encode_utf8 Demo.playlist_text),
     [AESDecrypt (repeat 0 16)
        (cbc_encrypt Demo.block (repeat 0 16) zero_iv
           (pad (encode_utf8 Demo.playlist_text) 16))])
  /\ decrypt_response Demo.block Demo.decode Demo.loads (repeat 0 16)
       (repeat 0 16) []
     = (Err DecryptionError,
        [AESDecrypt (repeat 0 16) (repeat 0 16);
         LogError "Error decrypting response";
         LogError "Ciphertext:";
         LogError "AAAAAAAAAAAAAAAAAAAAAA==";
         LogError "Tried decrypting with key AAAAAAAAAAAAAAAAAAAAAA=="]).
Proof.
  destruct
    (decrypt_response_cbc_zero_iv Demo.block Demo.block Demo.decode Demo.loads
       (repeat 0 16) (repeat 0 16) []
       ltac:(reflexivity)
       ltac:(intros b H; unfold Demo.block; rewrite length_rev; exact H)
       ltac:(intros b H; unfold Demo.block; apply rev_involutive))
    as (H1 & _ & H3).
  split.
  - exact (H1 (encode_utf8 Demo.playlist_text)).
  - exact (H3 (ValueError "Padding is incorrect.") ltac:(reflexivity)).
Defined.

(** C7 at a failing input. The legacy path does not look at the status:
    a 403 answer whose body is no envelope raises [MalformedEnvelope], not
    [RequestFailed], and a 500 answer whose body is an envelope is
    decrypted and returned as playlist data. *)
Theorem load_playlist_ignores_status :
  fst (load_playlist Demo.block Demo.decode Demo.loads Demo.dumps Demo.int
         (Demo.answers (Demo.status 403 "Forbidden"))
         (Demo.client []) "EAB::video" 500000 [])
  = Err MalformedEnvelope
  /\ fst (load_playlist Demo.block Demo.decode Demo.loads Demo.dumps Demo.int
            (Demo.answers
               (Demo.status 500
                  (Demo.envelope (repeat 255 16) Demo.playlist_text)))
            (Demo.client []) "EAB::video" 500000 [])
     = Ok (JObj [("key", JStr Demo.playlist_text); ("key_id", JStr "kid")])
  /\ fst (load_playlist_six Demo.loads
            (Demo.answers (Demo.status 403 "Forbidden"))
            (Demo.client []) "EAB::video" 210 false true 500000 600000 [])
     = Err (RequestFailed 403 "Forbidden").
Proof.
  split; [vm_compute; reflexivity|].
  split; vm_compute; reflexivity.
Qed.

(** ** The status of an answer *)

(** X22. The handshake and the legacy playlist request never read the
    status of the answer: two transports whose answers have the same body
    give the same result and the same trace. *)
Theorem status_is_ignored
    (aes_decrypt_block : bytes -> bytes -> bytes)
    (decode_utf8 : bytes -> result string)
    (json_loads : string -> result json) (json_dumps : json -> string)
    (int_of_str : string -> result Z)
    (post1 post2 : string -> body -> result response) :
  (forall url b, same_body (post1 url b) (post2 url b)) ->
  (forall d random_value t,
      get_session_key aes_decrypt_block decode_utf8 json_loads json_dumps
        post1 d random_value t
      = get_session_key aes_decrypt_block decode_utf8 json_loads json_dumps
          post2 d random_value t)
  /\ (forall c video_id rv t,
        load_playlist aes_decrypt_block decode_utf8 json_loads json_dumps
          int_of_str post1 c video_id rv t
        = load_playlist aes_decrypt_block decode_utf8 json_loads json_dumps
            int_of_str post2 c video_id rv t).
Proof.
  intros Hsame. split.
  - intros d random_value t. rewrite !get_session_key_steps.
    unfold bind at 1 5, post, bind at 1 4, emit, lift at 1 2.
    specialize (Hsame config_url (handshake_request d random_value)).
    destruct (post1 config_url (handshake_request d random_value)) as [r1|e1],
      (post2 config_url (handshake_request d random_value)) as [r2|e2];
      cbn [same_body] in Hsame; try contradiction.
    + now rewrite Hsame.
    + now subst.
  - intros c video_id rv t. unfold load_playlist, bind at 1 5, lift at 1 2.
    destruct (playlist_params int_of_str c video_id rv) as [params|e];
      [|reflexivity].
    unfold bind at 1 4, post, bind at 1 3, emit, lift at 1 2.
    specialize (Hsame playlist_url (JsonBody (JObj params))).
    destruct (post1 playlist_url (JsonBody (JObj params))) as [r1|e1],
      (post2 playlist_url (JsonBody (JObj params))) as [r2|e2];
      cbn [same_body] in Hsame; try contradiction.
    + now rewrite Hsame.
    + now subst.
Qed.

(** ** Further runs with the stand-in functions *)

Lemma status_is_ignored_witness :
  load_playlist Demo.block Demo.decode Demo.loads Demo.dumps Demo.int
    (Demo.answers (Demo.status 403 "zz")) (Demo.client []) "EAB::video"
    500000 []
  = load_playlist Demo.block Demo.decode Demo.loads Demo.dumps Demo.int
      (Demo.answers (Demo.ok "zz")) (Demo.client []) "EAB::video" 500000 [].
Proof.
  refine (proj2
    (status_is_ignored Demo.block Demo.decode Demo.loads Demo.dumps Demo.int
       (Demo.answers (Demo.status 403 "zz")) (Demo.answers (Demo.ok "zz")) _)
    (Demo.client []) "EAB::video" 500000 []).
  intros url b. reflexivity.
Defined.

Lemma hexlify_envelope_round_trip_witness :
  fromhex (hexlify [0; 171; 255]) = Some [0; 171; 255]
  /\ __get_ciphertext Demo.dumps (hexlify [0; 171; 255]) [] []
     = (Ok [0; 171; 255], []).
Proof.
  exact (hexlify_envelope_round_trip Demo.dumps [0; 171; 255] [] [] eq_refl).
Defined.

Lemma envelope_accepted_iff_valid_hex_witness :
  (exists ct,
      __get_ciphertext Demo.dumps "00ff" [] [] = (Ok ct, [])
      /\ List.length ct = 2%nat /\ is_bytes ct = true)
  /\ fst (__get_ciphertext Demo.dumps "0ff" [] []) = Err MalformedEnvelope.
Proof.
  split.
  - exact (proj1 (envelope_accepted_iff_valid_hex Demo.dumps "00ff" [] []
                    eq_refl) eq_refl).
  - exact (proj2 (envelope_accepted_iff_valid_hex Demo.dumps "0ff" [] []
                    eq_refl) eq_refl).
Defined.

Lemma decrypt_response_bad_length_witness :
  fst (decrypt_response Demo.block Demo.decode Demo.loads (repeat 0 16)
         [1; 2; 3] [])
  = Err DecryptionError.
Proof.
  rewrite (decrypt_response_bad_length Demo.block Demo.decode Demo.loads
             (repeat 0 16) [1; 2; 3] []).
  - reflexivity.
  - reflexivity.
  - left. cbn. discriminate.
Defined.
Lemma unpad_inverts_pad_witness :
  pad [104; 105] 16 = [104; 105] ++ repeat 14 14
  /\ (2 < 16 <= 2 + 16)%nat.
Proof.
  exact (unpad_inverts_pad ([104; 105] ++ repeat 14 14) [104; 105] eq_refl).
Defined.

Lemma handshake_then_playlist_witness :
  fst (HuluClient_init Demo.block Demo.decode Demo.loads Demo.dumps
         (Demo.route
            (Demo.ok (Demo.envelope (repeat 255 16) Demo.playlist_text))
            (Demo.ok (Demo.envelope (repeat 0 16) Demo.ff16)))
         Demo.zero_device [] 500000 [])
  = Ok (Demo.client [])
  /\ fst (load_playlist Demo.block Demo.decode Demo.loads Demo.dumps Demo.int
            (Demo.route
               (Demo.ok (Demo.envelope (repeat 255 16) Demo.playlist_text))
               (Demo.ok (Demo.envelope (repeat 0 16) Demo.ff16)))
            (Demo.client []) "EAB::video" 600000 [])
     = loads_utf8 Demo.decode Demo.loads (encode_utf8 Demo.playlist_text).
Proof.
  destruct
    (handshake_then_playlist Demo.block Demo.block Demo.decode Demo.loads
       Demo.dumps Demo.int
       (Demo.route
          (Demo.ok (Demo.envelope (repeat 255 16) Demo.playlist_text))
          (Demo.ok (Demo.envelope (repeat 0 16) Demo.ff16)))
       Demo.zero_device [] 500000
       (Demo.ok (Demo.envelope (repeat 0 16) Demo.ff16))
       (cbc_encrypt Demo.block (repeat 0 16) zero_iv
          (pad (encode_utf8 Demo.ff16) 16))
       (encode_utf8 Demo.ff16) (repeat 255 16)
       (JObj [("key", JStr Demo.ff16); ("key_id", JStr "kid")])
       (JStr "kid") Demo.ff16 []
       ltac:(vm_compute; reflexivity) ltac:(vm_compute; reflexivity)
       ltac:(vm_compute; reflexivity) ltac:(vm_compute; reflexivity)
       ltac:(vm_compute; reflexivity) ltac:(vm_compute; reflexivity)
       ltac:(vm_compute; reflexivity) ltac:(vm_compute; reflexivity)
       ltac:(vm_compute; reflexivity) ltac:(vm_compute; reflexivity)
       ltac:(intros b H; unfold Demo.block; rewrite length_rev; exact H)
       ltac:(intros b H; unfold Demo.block; apply rev_involutive))
    as (Hinit & _ & Hplay).
  split; [exact Hinit|].
  exact (Hplay "EAB::video" 830 600000
           (Demo.ok (Demo.envelope (repeat 255 16) Demo.playlist_text))
           (encode_utf8 Demo.playlist_text) []
           ltac:(vm_compute; reflexivity) ltac:(vm_compute; reflexivity)
           ltac:(vm_compute; reflexivity)).
Defined.

Lemma short_server_key_breaks_playlist_witness :
  exists c,
    fst (HuluClient_init Demo.block Demo.decode Demo.loads Demo.dumps
           (Demo.route (Demo.ok "00")
              (Demo.ok (Demo.envelope (repeat 0 16) "ffff")))
           Demo.zero_device [] 500000 [])
    = Ok c
    /\ List.length (session_key c) = 2%nat
    /\ fst (load_playlist Demo.block Demo.decode Demo.loads Demo.dumps
              Demo.int
              (Demo.route (Demo.ok "00")
                 (Demo.ok (Demo.envelope (repeat 0 16) "ffff")))
              c "EAB::video" 600000 [])
       = Err (ValueError "Incorrect AES key length (2 bytes)").
Proof.
  destruct
    (short_server_key_breaks_playlist Demo.block Demo.decode Demo.loads
       Demo.dumps Demo.int
       (Demo.route (Demo.ok "00")
          (Demo.ok (Demo.envelope (repeat 0 16) "ffff")))
       Demo.zero_device [] 500000
       (Demo.ok (Demo.envelope (repeat 0 16) "ffff"))
       (cbc_encrypt Demo.block (repeat 0 16) zero_iv
          (pad (encode_utf8 "ffff") 16))
       (encode_utf8 "ffff") [255; 255]
       (JObj [("key", JStr "ffff"); ("key_id", JStr "kid")])
       (JStr "kid") "ffff" []
       ltac:(vm_compute; reflexivity) ltac:(vm_compute; reflexivity)
       ltac:(vm_compute; reflexivity) ltac:(vm_compute; reflexivity)
       ltac:(vm_compute; reflexivity) ltac:(vm_compute; reflexivity)
       ltac:(vm_compute; reflexivity) ltac:(vm_compute; reflexivity)
       ltac:(vm_compute; reflexivity) ltac:(vm_compute; lia))
    as (c & Hinit & Hlen & Hplay).
  exists c. split; [exact Hinit|]. split; [exact Hlen|].
  exact (f_equal fst
           (Hplay "EAB::video" 830 600000 (Demo.ok "00") [0] []
              ltac:(vm_compute; reflexivity) ltac:(reflexivity)
              ltac:(vm_compute; reflexivity))).
Defined.

(** The position named in the error of [bytes.fromhex] for some texts it
    refuses: a character that is no digit, a digit cut from its partner by
    whitespace or by the end of the text, a character outside ASCII after
    an earlier failure. *)
Example invalid_char_positions :
  invalid_char "zz" = 0
  /\ invalid_char "a b" = 1
  /\ invalid_char " 0" = 2
  /\ invalid_char "  a  " = 3
  /\ invalid_char "ab cd e" = 7
  /\ invalid_char (String "z" (String "z" (String (chr 160) EmptyString))) = 2.
Proof. repeat split. Qed.

Lemma handshake_config_errors_witness :
  fst (get_session_key Demo.block Demo.decode (fun _ => Ok (JObj []))
         Demo.dumps
         (Demo.answers (Demo.ok (Demo.envelope (repeat 0 16) Demo.ff16)))
         Demo.zero_device 500000 [])
  = Err (KeyError "key")
  /\ fst (get_session_key Demo.block Demo.decode Demo.loads Demo.dumps
            (Demo.answers (Demo.ok (Demo.envelope (repeat 0 16) "ab c")))
            Demo.zero_device 500000 [])
     = Err (ValueError
              "non-hexadecimal number found in fromhex() arg at position 4").
Proof.
  split.
  - exact (f_equal fst
      (proj1
         (handshake_config_errors Demo.block Demo.decode
            (fun _ => Ok (JObj [])) Demo.dumps
            (Demo.answers (Demo.ok (Demo.envelope (repeat 0 16) Demo.ff16)))
            Demo.zero_device 500000
            (Demo.ok (Demo.envelope (repeat 0 16) Demo.ff16))
            (cbc_encrypt Demo.block (repeat 0 16) zero_iv
               (pad (encode_utf8 Demo.ff16) 16))
            (encode_utf8 Demo.ff16) (JObj []) []
            ltac:(vm_compute; reflexivity) ltac:(vm_compute; reflexivity)
            ltac:(vm_compute; reflexivity) ltac:(vm_compute; reflexivity)
            ltac:(vm_compute; reflexivity))
         [] eq_refl eq_refl)).
  - exact (f_equal fst
      (proj1 (proj2
         (handshake_config_errors Demo.block Demo.decode Demo.loads Demo.dumps
            (Demo.answers (Demo.ok (Demo.envelope (repeat 0 16) "ab c")))
            Demo.zero_device 500000
            (Demo.ok (Demo.envelope (repeat 0 16) "ab c"))
            (cbc_encrypt Demo.block (repeat 0 16) zero_iv
               (pad (encode_utf8 "ab c") 16))
            (encode_utf8 "ab c")
            (JObj [("key", JStr "ab c"); ("key_id", JStr "kid")]) []
            ltac:(vm_compute; reflexivity) ltac:(vm_compute; reflexivity)
            ltac:(vm_compute; reflexivity) ltac:(vm_compute; reflexivity)
            ltac:(vm_compute; reflexivity)))
         "ab c" eq_refl eq_refl)).
Defined.

Lemma load_playlist_six_status_witness :
  fst (load_playlist_six Demo.loads
         (Demo.answers (Demo.status 302 Demo.playlist_text))
         (Demo.client []) "EAB::video" 210 false true 500000 600000 [])
  = Demo.loads Demo.playlist_text
  /\ fst (load_playlist_six Demo.loads
            (Demo.answers (Demo.status 599 Demo.playlist_text))
            (Demo.client []) "EAB::video" 210 false true 500000 600000 [])
     = Err (HTTPError 599 Demo.playlist_text).
Proof.
  split.
  - apply (proj2
      (load_playlist_six_status Demo.loads
         (Demo.answers (Demo.status 302 Demo.playlist_text))
         (Demo.client []) "EAB::video" 210 false true 500000 600000
         (hevc_params (Demo.client []) "EAB::video" 210 500000)
         (Demo.status 302 Demo.playlist_text) []
         ltac:(vm_compute; reflexivity) ltac:(vm_compute; reflexivity))).
    left. reflexivity.
  - apply (proj1
      (load_playlist_six_status Demo.loads
         (Demo.answers (Demo.status 599 Demo.playlist_text))
         (Demo.client []) "EAB::video" 210 false true 500000 600000
         (hevc_params (Demo.client []) "EAB::video" 210 500000)
         (Demo.status 599 Demo.playlist_text) []
         ltac:(vm_compute; reflexivity) ltac:(vm_compute; reflexivity))).
    cbn. lia.
Defined.

Lemma get_pssh_sound_witness :
  get_pssh [Demo.protected_track] "audio" = Done None
  /\ exists track mime protections items t scheme,
       In track [Demo.protected_track]
       /\ get_method track "@mimeType" JNull = Done mime
       /\ py_in "video" mime = Done true
       /\ get_method track "ContentProtection" (JObj []) = Done protections
       /\ py_iter protections = Done items
       /\ In t items
       /\ getitem t "@schemeIdUri" = Ok (JStr scheme)
       /\ lower scheme = widevine_urn
       /\ getitem t "cenc:pssh" = Ok (JStr "AAAAOHBzc2g=")
       /\ truthy (JStr "AAAAOHBzc2g=") = true.
Proof.
  split.
  - apply (proj2 (get_pssh_sound [Demo.protected_track] "audio")).
    intros track [<-|[]]. exists (JStr "video/mp4"). split; reflexivity.
  - exact (proj1 (get_pssh_sound [Demo.protected_track] "video")
             (JStr "AAAAOHBzc2g=") eq_refl).
Defined.

Lemma muxed_filename_mkv_witness :
  muxed_filename (Some "film.mkv") "Title.2022" = "film.mkv"
  /\ muxed_filename (Some "film") "Title.2022" = "film.mkv".
Proof.
  destruct (muxed_filename_mkv (Some "film.mkv") "Title.2022")
    as (_ & Hsame & _).
  destruct (muxed_filename_mkv (Some "film") "Title.2022") as (_ & _ & Hadd).
  split.
  - exact (Hsame "film.mkv" eq_refl eq_refl).
  - exact (Hadd "film" eq_refl ltac:(discriminate) eq_refl).
Defined.

Lemma sorted_tracks_best_first_witness :
  exists bx,
    get_bitrate Demo.int (Demo.representation "300" "1080") = Done bx
    /\ forall y,
         In y [Demo.representation "100" "720";
               Demo.representation "300" "1080";
               Demo.representation "200" "1080"] ->
         exists b, get_bitrate Demo.int y = Done b /\ b <= bx.
Proof.
  exact (proj1 (proj2
    (sorted_tracks_best_first Demo.int
       [Demo.representation "100" "720"; Demo.representation "300" "1080";
        Demo.representation "200" "1080"]
       [Demo.representation "300" "1080"; Demo.representation "200" "1080";
        Demo.representation "100" "720"]
       eq_refl))
    (Demo.representation "300" "1080") eq_refl).
Defined.

Lemma get_episodes_listing_witness :
  get_episodes_parsed Demo.int
    (JObj [("items", JArr [Demo.item 1; Demo.item 2])]) []
  = (Done [Demo.episode 1; Demo.episode 2], []).
Proof.
  apply (proj2
    (get_episodes_listing Demo.int
       (JObj [("items", JArr [Demo.item 1; Demo.item 2])])
       [Demo.item 1; Demo.item 2] [] eq_refl)).
  - repeat constructor.
  - intros [|[|i]] e; cbn [nth_error];
      [intros [= <-]; reflexivity|intros [= <-]; reflexivity|].
    destruct i; discriminate.
Defined.

Lemma parse_seasons_range_witness :
  parse_seasons Demo.int "2-4" = Done [2; 3; 4].
Proof.
  exact (proj1 (parse_seasons_range Demo.int "2" "4" 2 4
                  eq_refl eq_refl eq_refl eq_refl)).
Defined.

Lemma select_episodes_invariant_witness :
  [] = ([] : list event)
  /\ [Demo.episode 2] <> []
  /\ exists chosen,
       [Demo.episode 2] = [] ++ chosen
       /\ forall x, In x chosen -> In x [Demo.episode 1; Demo.episode 2].
Proof.
  exact (select_episodes_invariant Demo.int (Some "2") []
           [Demo.episode 1; Demo.episode 2] [Demo.episode 2] [] [] eq_refl).
Defined.

Lemma later_season_without_match_witness :
  select_episodes Demo.int (Some "5-6") [Demo.episode 5] [Demo.episode 1] []
  = (Done [Demo.episode 5], [])
  /\ select_episodes Demo.int (Some "5") [Demo.episode 5] [Demo.episode 1] []
     = (Fail (SystemExit 1), [LogError "Requested episode not found"]).
Proof.
  destruct (later_season_without_match Demo.int [Demo.episode 5]
              [Demo.episode 1] [] ltac:(discriminate) ltac:(discriminate))
    as [Hrange Hone].
  split.
  - exact (Hrange "5" "6" 5 6 eq_refl eq_refl ltac:(discriminate)
             eq_refl eq_refl eq_refl).
  - apply (Hone "5" 5); try reflexivity; [discriminate|].
    intros x [<-|[]]. discriminate.
Defined.

Lemma caller_catches_value_errors_witness :
  fst (fetch_playlist Demo.block Demo.decode Demo.loads Demo.dumps Demo.int
         (Demo.answers (Demo.status 403 "Forbidden")) Demo.show
         (Demo.client []) video "EAB::video" false false 500000 600000
         700000 [])
  = Fail (Exn (HTTPError 403 "Forbidden"))
  /\ fst (fetch_playlist Demo.block Demo.decode Demo.loads Demo.dumps
            Demo.int (Demo.answers (Demo.status 403 "Forbidden")) Demo.show
            (Demo.client []) chrome "EAB::video" false false 500000 600000
            700000 [])
     = Fail (SystemExit 1).
Proof.
  destruct
    (caller_catches_value_errors Demo.block Demo.decode Demo.loads Demo.dumps
       Demo.int (Demo.answers (Demo.status 403 "Forbidden")) Demo.show
       (Demo.client []) "EAB::video" false false 500000 600000 700000 [])
    as (Hsix & Hlegacy & _).
  split.
  - rewrite (Hsix (hevc_params (Demo.client []) "EAB::video" 210 600000)
               (Demo.status 403 "Forbidden")).
    + reflexivity.
    + vm_compute. reflexivity.
    + reflexivity.
    + cbn. lia.
  - rewrite (Hlegacy 830 (Demo.status 403 "Forbidden")).
    + reflexivity.
    + vm_compute. reflexivity.
    + reflexivity.
    + reflexivity.
Defined.

Lemma watch_id_of_url_witness :
  fullmatch_uuid "0123abcd-4567-89ef-0123-456789abcdef" = true
  /\ watch_id_of (fun s => String.append "'" (String.append s "'"))
       "https://www.hulu.com/watch/0123abcd-4567-89ef-0123-456789abcdef"
       None []
     = (Done "0123abcd-4567-89ef-0123-456789abcdef", []).
Proof.
  split; [reflexivity|].
  apply (proj1 (proj2 (watch_id_of_url
    (fun s => String.append "'" (String.append s "'"))
    "0123abcd-4567-89ef-0123-456789abcdef" None [] eq_refl))).
Defined.
